(** * ImageAnalyse: EXIF normalisation, aggregation and summary statistics

    A shallow embedding of [core.py]: the value normalisers
    ([process_focal_length], [process_iso_value], [process_aperture],
    [process_shutter_speed], [try_parse_date]), the aggregation loop of
    [process_folder] and its choice of the image files, the summary
    statistics of [analyze_folder], the split-point loop and the tick
    labels of [generate_chart], and the axis limits of
    [generate_hourly_settings_chart], with [numpy.mean] left open.

    Python values are a tagged union, Python exceptions are an explicit
    error monad, floats are IEEE binary64 (Rocq's primitive floats), dicts
    are insertion-ordered association lists with Python's key equality.
    A [str] is a sequence of code points below 256.  The [print] calls of
    the [except] branches only log and are left out.

    The builtins follow CPython: [int] and [float] of a text accept
    surrounding whitespace, a sign and underscores between digits; [round]
    rounds the exact value of the float, ties to even; [strptime] matches
    the regular expression that [_strptime] compiles from the format, with
    its backtracking order, and then checks the calendar.  The file system
    and the EXIF reader are outside: [process_folder] is modelled on the
    list of dictionaries that [get_exif_data] returns, one per image. *)

From Stdlib Require Import ZArith List String Ascii Floats Lia Bool Permutation.
From stdpp Require Import gmap strings list sorting.

#[local] Set Warnings "-inexact-float,-register-all".
#[local] Open Scope Z_scope.

(** ** Exceptions *)

Inductive exn :=
| ValueError | TypeError | ZeroDivisionError | OverflowError | IndexError
| KeyError | NameError.

Inductive result (A : Type) :=
| Ok (a : A)
| Raise (e : exn).
Arguments Ok {A} a.
Arguments Raise {A} e.

#[global] Instance result_ret : MRet result := fun A a => Ok a.
#[global] Instance result_bind : MBind result := fun A B k m =>
  match m with Ok a => k a | Raise e => Raise e end.

(** [try: m  except Exception: h] *)
Definition try_except {A} (m : result A) (h : exn -> result A) : result A :=
  match m with Ok a => Ok a | Raise e => h e end.

(** [try: m  except ValueError: h]; every other exception propagates. *)
Definition try_except_ValueError {A} (m : result A) (h : result A) : result A :=
  match m with
  | Ok a => Ok a
  | Raise ValueError => h
  | Raise e => Raise e
  end.

Definition is_Ok {A} (m : result A) : bool :=
  match m with Ok _ => true | Raise _ => false end.

(** ** Python values *)

Inductive pyval :=
| VNone
| VInt (z : Z)
| VFloat (f : float)
| VStr (s : string)
| VTuple (l : list pyval)
| VList (l : list pyval).

(** [isinstance(v, (float, int))] *)
Definition is_number (v : pyval) : bool :=
  match v with VInt _ | VFloat _ => true | _ => false end.

(** ** Characters and strings *)

Definition code (c : ascii) : N := N_of_ascii c.

Definition in_range (lo hi : N) (c : ascii) : bool :=
  ((lo <=? code c) && (code c <=? hi))%N.

Definition is_digit : ascii -> bool := in_range 48 57.

(** [str.isspace] on code points below 256; also what [\s] matches. *)
Definition is_space (c : ascii) : bool :=
  in_range 9 13 c || in_range 28 32 c || (code c =? 133)%N || (code c =? 160)%N.

Definition digit_val (c : ascii) : Z := Z.of_N (code c) - 48.

Definition lower (c : ascii) : ascii :=
  if in_range 65 90 c then ascii_of_N (code c + 32) else c.

Fixpoint str_lower (s : string) : string :=
  match s with
  | EmptyString => EmptyString
  | String c s' => String (lower c) (str_lower s')
  end.

Fixpoint lstrip (s : string) : string :=
  match s with
  | EmptyString => EmptyString
  | String c s' => if is_space c then lstrip s' else s
  end.

Fixpoint rstrip (s : string) : string :=
  match s with
  | EmptyString => EmptyString
  | String c s' =>
      match rstrip s' with
      | EmptyString => if is_space c then EmptyString else String c EmptyString
      | r => String c r
      end
  end.

(** [s.strip()] *)
Definition strip (s : string) : string := rstrip (lstrip s).

(** [s.replace('\x00', '')] *)
Fixpoint remove_nul (s : string) : string :=
  match s with
  | EmptyString => EmptyString
  | String c s' =>
      if (code c =? 0)%N then remove_nul s' else String c (remove_nul s')
  end.

(** A digit part of a numeric literal: digits, single underscores allowed
    between two digits.  Returns the digits, most significant first. *)
Fixpoint digitpart (after_digit : bool) (s : string) : option (list Z) :=
  match s with
  | EmptyString => if after_digit then Some [] else None
  | String c s' =>
      if is_digit c then
        match digitpart true s' with
        | Some ds => Some (digit_val c :: ds)
        | None => None
        end
      else if (code c =? 95)%N && after_digit then digitpart false s'
      else None
  end.

Definition digits_value (ds : list Z) : Z :=
  fold_left (fun acc d => 10 * acc + d) ds 0.

Definition split_sign (s : string) : bool * string :=
  match s with
  | String c s' =>
      if (code c =? 45)%N then (true, s')
      else if (code c =? 43)%N then (false, s')
      else (false, s)
  | EmptyString => (false, s)
  end.

(** The whitespace that [int] and [float] skip around a number: the
    ASCII whitespace, and the two whitespace characters above 127, which
    the conversion of the text to ASCII turns into blanks.  The
    separators U+001C to U+001F, which [str.strip] removes, are not
    among them. *)
Definition is_number_space (c : ascii) : bool :=
  in_range 9 13 c || (code c =? 32)%N || (code c =? 133)%N || (code c =? 160)%N.

Fixpoint lstrip_number (s : string) : string :=
  match s with
  | EmptyString => EmptyString
  | String c s' => if is_number_space c then lstrip_number s' else s
  end.

Fixpoint rstrip_number (s : string) : string :=
  match s with
  | EmptyString => EmptyString
  | String c s' =>
      match rstrip_number s' with
      | EmptyString =>
          if is_number_space c then EmptyString else String c EmptyString
      | r => String c r
      end
  end.

Definition strip_number (s : string) : string := rstrip_number (lstrip_number s).

(** [sys.get_int_max_str_digits()], by default. *)
Definition int_max_str_digits : Z := 4300.

(** [int(s)] for a [str], base 10: a text with more digits than
    [int_max_str_digits] is refused. *)
Definition int_of_str (s : string) : option Z :=
  let '(neg, body) := split_sign (strip_number s) in
  match digitpart false body with
  | Some ds =>
      if int_max_str_digits <? Z.of_nat (length ds) then None
      else Some (if neg then - digits_value ds else digits_value ds)
  | None => None
  end.

(** Splits at the first character satisfying [p]. *)
Fixpoint split_at (p : ascii -> bool) (s : string) : string * option string :=
  match s with
  | EmptyString => (EmptyString, None)
  | String c s' =>
      if p c then (EmptyString, Some s')
      else let '(a, b) := split_at p s' in (String c a, b)
  end.

(** ** Floats *)

(** The binary64 value nearest to [num / den] (ties to even), for
    [0 <= num] and [0 < den], with sign [neg]. *)
Definition float_of_ratio (neg : bool) (num den : Z) : float :=
  match num, den with
  | Zpos n, Zpos d =>
      SF2Prim (SFdiv prec emax (S754_finite neg n 0) (S754_finite false d 0))
  | Z0, _ => SF2Prim (S754_zero neg)
  | _, _ => nan
  end.

Definition float_of_Z (z : Z) : float := float_of_ratio (z <? 0) (Z.abs z) 1.

Definition optional_digits (s : string) : option (list Z) :=
  match s with
  | EmptyString => Some []
  | _ => digitpart false s
  end.

(** The decimal literal [digits [. digits] [e [sign] digits]] as
    mantissa and decimal exponent. *)
Definition decimal_of_str (s : string) : option (Z * Z) :=
  let '(mant, ex) := split_at (fun c => (code (lower c) =? 101)%N) s in
  let '(ip, fp) := split_at (fun c => (code c =? 46)%N) mant in
  let digits :=
    match fp with
    | None => match digitpart false ip with Some i => Some (i, []) | None => None end
    | Some fs =>
        match optional_digits ip, optional_digits fs with
        | Some i, Some f =>
            match i, f with [], [] => None | _, _ => Some (i, f) end
        | _, _ => None
        end
    end in
  let exponent :=
    match ex with
    | None => Some 0
    | Some es =>
        let '(eneg, ebody) := split_sign es in
        match digitpart false ebody with
        | Some ds => Some (if eneg then - digits_value ds else digits_value ds)
        | None => None
        end
    end in
  match digits, exponent with
  | Some (i, f), Some e =>
      Some (digits_value (i ++ f), e - Z.of_nat (length f))
  | _, _ => None
  end.

(** [float(s)] for a [str]. *)
Definition float_of_str (s : string) : option float :=
  let '(neg, body) := split_sign (strip_number s) in
  let l := str_lower body in
  if (l =? "inf")%string || (l =? "infinity")%string then
    Some (if neg then neg_infinity else infinity)
  else if (l =? "nan")%string then Some nan
  else
    match decimal_of_str body with
    | Some (m, e) =>
        Some (if 0 <=? e then float_of_ratio neg (m * 10 ^ e) 1
              else float_of_ratio neg m (10 ^ (- e)))
    | None => None
    end.

(** The exact value of a finite float as [(negative, m, e)], meaning
    [m * 2^e]. *)
Definition float_parts (f : float) : option (bool * Z * Z) :=
  match Prim2SF f with
  | S754_zero s => Some (s, 0, 0)
  | S754_finite s m e => Some (s, Zpos m, e)
  | _ => None
  end.

(** [num / den] rounded to the nearest integer, ties to even. *)
Definition div_half_even (num den : Z) : Z :=
  let q := num / den in
  let r := num mod den in
  match 2 * r ?= den with
  | Lt => q
  | Gt => q + 1
  | Eq => if Z.even q then q else q + 1
  end.

(** [round(f)]: nearest integer, ties to even. *)
Definition py_round (f : float) : result Z :=
  if is_nan f then Raise ValueError
  else if is_infinity f then Raise OverflowError
  else
    match float_parts f with
    | Some (s, m, e) =>
        let k := if 0 <=? e then m * 2 ^ e else div_half_even m (2 ^ (- e)) in
        Ok (if s then - k else k)
    | None => Raise ValueError
    end.

(** [round(f, ndigits)] for [0 <= ndigits]: the exact value is rounded
    to [ndigits] decimals (ties to even), and the decimal is converted back
    to the nearest float. *)
Definition py_round_ndigits (f : float) (ndigits : Z) : float :=
  match Prim2SF f with
  | S754_finite s m e =>
      let p := 10 ^ ndigits in
      let k := if 0 <=? e then Zpos m * 2 ^ e * p
               else div_half_even (Zpos m * p) (2 ^ (- e)) in
      float_of_ratio s k p
  | _ => f
  end.

(** [int(f)] for a float: truncation towards zero. *)
Definition int_of_float (f : float) : result Z :=
  if is_nan f then Raise ValueError
  else if is_infinity f then Raise OverflowError
  else
    match float_parts f with
    | Some (s, m, e) =>
        let k := if 0 <=? e then m * 2 ^ e else m / 2 ^ (- e) in
        Ok (if s then - k else k)
    | None => Raise ValueError
    end.

(** [float(v)] *)
Definition py_float (v : pyval) : result float :=
  match v with
  | VInt z =>
      let f := float_of_Z z in
      if is_infinity f then Raise OverflowError else Ok f
  | VFloat f => Ok f
  | VStr s =>
      match float_of_str s with Some f => Ok f | None => Raise ValueError end
  | _ => Raise TypeError
  end.

(** [int(v)] *)
Definition py_int (v : pyval) : result Z :=
  match v with
  | VInt z => Ok z
  | VFloat f => int_of_float f
  | VStr s =>
      match int_of_str s with Some z => Ok z | None => Raise ValueError end
  | _ => Raise TypeError
  end.

(** [math.isnan(v)] *)
Definition math_isnan (v : pyval) : result bool :=
  f ← py_float v; Ok (is_nan f).

(** [v == 0] *)
Definition py_eq_zero (v : pyval) : bool :=
  match v with
  | VInt z => z =? 0
  | VFloat f => is_zero f
  | _ => false
  end.

(** [a / b] on floats *)
Definition py_truediv (a b : float) : result float :=
  if is_zero b then Raise ZeroDivisionError else Ok (a / b)%float.

(** [t[i]] *)
Definition py_index (t : list pyval) (i : nat) : result pyval :=
  match t !! i with Some v => Ok v | None => Raise IndexError end.

(** [any(isinstance(v, (float, int)) and math.isnan(v) for v in t)] *)
Fixpoint any_nan (t : list pyval) : result bool :=
  match t with
  | [] => Ok false
  | v :: t' =>
      b ← (if is_number v then math_isnan v else Ok false);
      if b : bool then Ok true else any_nan t'
  end.

(** The common prefix of the three rational normalisers: the not-a-number
    guards, the zero-denominator guard and the quotient. *)
Definition tuple_quotient (t : list pyval) : result (option float) :=
  b ← any_nan t;
  if b : bool then Ok None
  else
    d ← py_index t 1;
    if py_eq_zero d then Ok None
    else
      n ← py_index t 0;
      fn ← py_float n;
      fd ← py_float d;
      q ← py_truediv fn fd;
      Ok (Some q).

Definition scalar_isnan (v : pyval) : result bool :=
  if is_number v then math_isnan v else Ok false.

Definition process_focal_length (focal_length : pyval) : result (option Z) :=
  try_except
    (b ← scalar_isnan focal_length;
     if b : bool then Ok None
     else
       match focal_length with
       | VTuple t =>
           oq ← tuple_quotient t;
           match oq with
           | None => Ok None
           | Some q => r ← py_round q; Ok (Some r)
           end
       | _ => f ← py_float focal_length; r ← py_round f; Ok (Some r)
       end)
    (fun _ => Ok None).

Definition process_iso_value (iso_value : pyval) : result (option Z) :=
  try_except
    (v ← match iso_value with
         | VTuple l | VList l => py_index l 0
         | VStr _ => z ← py_int iso_value; Ok (VInt z)
         | _ => Ok iso_value
         end;
     z ← py_int v;
     Ok (if (50 <=? z) && (z <=? 512000) then Some z else None))
    (fun _ => Ok None).

Definition process_aperture (aperture : pyval) : result (option float) :=
  try_except
    (b ← scalar_isnan aperture;
     if b : bool then Ok None
     else
       match aperture with
       | VTuple t =>
           oq ← tuple_quotient t;
           match oq with
           | None => Ok None
           | Some q => Ok (Some (py_round_ndigits q 1))
           end
       | _ => f ← py_float aperture; Ok (Some (py_round_ndigits f 1))
       end)
    (fun _ => Ok None).

Definition process_shutter_speed (shutter_speed : pyval) : result (option float) :=
  try_except
    (b ← scalar_isnan shutter_speed;
     if b : bool then Ok None
     else
       ospeed ← match shutter_speed with
                | VTuple t => tuple_quotient t
                | _ => f ← py_float shutter_speed; Ok (Some f)
                end;
       match ospeed with
       | None => Ok None
       | Some speed => Ok (Some (py_round_ndigits speed 4))
       end)
    (fun _ => Ok None).


(** ** Dates: [datetime.strptime] *)

Record datetime := mk_datetime {
  dt_year : Z; dt_month : Z; dt_day : Z;
  dt_hour : Z; dt_minute : Z; dt_second : Z
}.

Record date := mk_date { d_year : Z; d_month : Z; d_day : Z }.

(** [dt.date()] *)
Definition dt_date (dt : datetime) : date :=
  mk_date (dt_year dt) (dt_month dt) (dt_day dt).

Definition is_leap (y : Z) : bool :=
  ((y mod 4 =? 0) && negb (y mod 100 =? 0)) || (y mod 400 =? 0).

Definition days_in_month (y m : Z) : Z :=
  if m =? 2 then (if is_leap y then 29 else 28)
  else if (m =? 4) || (m =? 6) || (m =? 9) || (m =? 11) then 30
  else 31.

(** The constructor [datetime(y, m, d, H, M, S)] with its range checks. *)
Definition make_datetime (y m d H M S : Z) : result datetime :=
  if (1 <=? y) && (y <=? 9999) && (1 <=? m) && (m <=? 12)
     && (1 <=? d) && (d <=? days_in_month y m)
     && (0 <=? H) && (H <=? 23) && (0 <=? M) && (M <=? 59)
     && (0 <=? S) && (S <=? 59)
  then Ok (mk_datetime y m d H M S)
  else Raise ValueError.

Inductive directive := DY | Dm | Dd | DH | DM | DS.

Definition directive_eqb (a b : directive) : bool :=
  match a, b with
  | DY, DY | Dm, Dm | Dd, Dd | DH, DH | DM, DM | DS, DS => true
  | _, _ => false
  end.

Inductive fmt_item :=
| FDir (d : directive)
| FSpaces
| FLit (c : ascii).

Definition directive_of (c : ascii) : result directive :=
  if (code c =? 89)%N then Ok DY
  else if (code c =? 109)%N then Ok Dm
  else if (code c =? 100)%N then Ok Dd
  else if (code c =? 72)%N then Ok DH
  else if (code c =? 77)%N then Ok DM
  else if (code c =? 83)%N then Ok DS
  else Raise ValueError.

(** The format string as [_strptime] compiles it: a [%x] directive, a
    run of whitespace (the regular expression [\s+]), or a literal
    character.  Only the six directives that [core.py] uses are known. *)
Fixpoint parse_format (fmt : string) : result (list fmt_item) :=
  match fmt with
  | EmptyString => Ok []
  | String c rest =>
      if (code c =? 37)%N then
        match rest with
        | String x rest' =>
            d ← directive_of x;
            items ← parse_format rest';
            Ok (FDir d :: items)
        | EmptyString => Raise ValueError
        end
      else
        items ← parse_format rest;
        if is_space c then
          Ok (match items with FSpaces :: _ => items | _ => FSpaces :: items end)
        else Ok (FLit c :: items)
  end.

Definition is_char (n : N) (c : ascii) : bool := (code c =? n)%N.

(** The alternatives of each directive's regular expression, in the
    order the regular expression tries them. *)
Definition alternatives (d : directive) : list (list (ascii -> bool)) :=
  match d with
  | DY => [[is_digit; is_digit; is_digit; is_digit]]
  | Dm => [[is_char 49; in_range 48 50]; [is_char 48; in_range 49 57];
           [in_range 49 57]]
  | Dd => [[is_char 51; in_range 48 49]; [in_range 49 50; is_digit];
           [is_char 48; in_range 49 57]; [in_range 49 57];
           [is_char 32; in_range 49 57]]
  | DH => [[is_char 50; in_range 48 51]; [in_range 48 49; is_digit];
           [is_digit]]
  | DM => [[in_range 48 53; is_digit]; [is_digit]]
  | DS => [[is_char 54; in_range 48 49]; [in_range 48 53; is_digit];
           [is_digit]]
  end.

Fixpoint take_classes (cls : list (ascii -> bool)) (s : string)
  : option (string * string) :=
  match cls with
  | [] => Some (EmptyString, s)
  | p :: cls' =>
      match s with
      | String c s' =>
          if p c then
            match take_classes cls' s' with
            | Some (m, r) => Some (String c m, r)
            | None => None
            end
          else None
      | EmptyString => None
      end
  end.

(** What is left of [s] after [\s+], the longest run first. *)
Fixpoint space_suffixes (s : string) : list string :=
  match s with
  | String c s' => if is_space c then space_suffixes s' ++ [s'] else []
  | EmptyString => []
  end.

(** All the ways the compiled format matches a prefix of [s], in the
    backtracking order of the regular expression: the groups found and the
    unconsumed rest. *)
Fixpoint match_items (items : list fmt_item) (s : string)
  : list (list (directive * string) * string) :=
  match items with
  | [] => [([], s)]
  | FLit c :: items' =>
      match s with
      | String c' s' =>
          if (code c =? code c')%N then match_items items' s' else []
      | EmptyString => []
      end
  | FSpaces :: items' =>
      flat_map (match_items items') (space_suffixes s)
  | FDir d :: items' =>
      flat_map
        (fun alt =>
           match take_classes alt s with
           | Some (m, rest) =>
               map (fun '(found, r) => ((d, m) :: found, r))
                   (match_items items' rest)
           | None => []
           end)
        (alternatives d)
  end.

Fixpoint group (d : directive) (found : list (directive * string))
  : option string :=
  match found with
  | [] => None
  | (d', m) :: found' => if directive_eqb d d' then Some m else group d found'
  end.

(** [int(found_dict[d])], or the default when the directive is absent. *)
Definition group_int (d : directive) (default : Z)
    (found : list (directive * string)) : result Z :=
  match group d found with
  | None => Ok default
  | Some m =>
      match int_of_str m with Some z => Ok z | None => Raise ValueError end
  end.

(** [datetime.strptime(data_string, fmt)] for a [str]. *)
Definition strptime (data_string fmt : string) : result datetime :=
  items ← parse_format fmt;
  match match_items items data_string with
  | [] => Raise ValueError
  | (found, rest) :: _ =>
      match rest with
      | String _ _ => Raise ValueError
      | EmptyString =>
          y ← group_int DY 1900 found;
          m ← group_int Dm 1 found;
          d ← group_int Dd 1 found;
          H ← group_int DH 0 found;
          M ← group_int DM 0 found;
          S ← group_int DS 0 found;
          make_datetime y m d H M S
      end
  end.

(** [datetime.strptime(v, fmt)] for any value: a non-[str] is a
    [TypeError]. *)
Definition py_strptime (v : pyval) (fmt : string) : result datetime :=
  match v with
  | VStr s => strptime s fmt
  | _ => Raise TypeError
  end.

Definition date_formats : list string :=
  ["%Y:%m:%d %H:%M:%S"; "%Y-%m-%d %H:%M:%S"; "%Y%m%d_%H%M%S";
   "%Y_%m_%d %H:%M:%S"; "%Y%m%d%H%M%S"]%string.

(** The [for fmt in date_formats] loop. *)
Fixpoint try_formats (date_string : string) (fmts : list string)
  : result (option datetime) :=
  match fmts with
  | [] => Ok None
  | fmt :: fmts' =>
      try_except_ValueError
        (dt ← strptime date_string fmt; Ok (Some dt))
        (try_formats date_string fmts')
  end.

Definition try_parse_date (date_string : pyval) : result (option datetime) :=
  match date_string with
  | VStr s =>
      match s with
      | EmptyString => Ok None
      | _ => try_formats (strip (remove_nul s)) date_formats
      end
  | _ => Ok None
  end.

(** ** Dictionaries used as counters

    A Python [dict] keeps its entries in insertion order and finds a key by
    [==]; assigning to a key that is present keeps the stored key. *)

Class PyEq (K : Type) := py_eqb : K -> K -> bool.

#[global] Instance Z_pyeq : PyEq Z := Z.eqb.
#[global] Instance float_pyeq : PyEq float := PrimFloat.eqb.
#[global] Instance date_pyeq : PyEq date := fun a b =>
  (d_year a =? d_year b) && (d_month a =? d_month b) && (d_day a =? d_day b).

Abbreviation dict K := (list (K * Z)).

Section Dict.
Context {K : Type} `{PyEq K}.

(** [d.get(k, default)] *)
Fixpoint dict_get (d : dict K) (k : K) (default : Z) : Z :=
  match d with
  | [] => default
  | (k', v) :: d' => if py_eqb k' k then v else dict_get d' k default
  end.

(** [d[k] = v] *)
Fixpoint dict_set (d : dict K) (k : K) (v : Z) : dict K :=
  match d with
  | [] => [(k, v)]
  | (k', v') :: d' =>
      if py_eqb k' k then (k', v) :: d' else (k', v') :: dict_set d' k v
  end.

(** [d[k] = d.get(k, 0) + 1] *)
Definition dict_incr (d : dict K) (k : K) : dict K :=
  dict_set d k (dict_get d k 0 + 1).

(** [sum(d.values())] *)
Definition dict_sum (d : dict K) : Z :=
  fold_left Z.add (map snd d) 0.
End Dict.

(** ** The aggregation state of [process_folder] *)

Record hour_settings := mk_hour_settings {
  hs_apertures : list float;
  hs_shutter_speeds : list float;
  hs_isos : list Z
}.

Record agg := mk_agg {
  focal_lengths : list Z;
  dates : dict date;
  hours : dict Z;
  iso : dict Z;
  apertures : dict float;
  shutter_speeds : dict float;
  hourly_settings : gmap Z hour_settings
}.

Definition empty_hour : hour_settings := mk_hour_settings [] [] [].

(** [{i: {...} for i in range(24)}] *)
Definition init_hourly : gmap Z hour_settings :=
  list_to_map (map (fun i => (Z.of_nat i, empty_hour)) (seq 0 24)).

Definition init_agg : agg := mk_agg [] [] [] [] [] [] init_hourly.

Definition add_focal_length (st : agg) (f : Z) : agg :=
  mk_agg (focal_lengths st ++ [f]) (dates st) (hours st) (iso st)
         (apertures st) (shutter_speeds st) (hourly_settings st).

Definition count_date (st : agg) (dt : datetime) : agg :=
  mk_agg (focal_lengths st) (dict_incr (dates st) (dt_date dt))
         (dict_incr (hours st) (dt_hour dt)) (iso st)
         (apertures st) (shutter_speeds st) (hourly_settings st).

Definition count_iso (st : agg) (v : Z) : agg :=
  mk_agg (focal_lengths st) (dates st) (hours st) (dict_incr (iso st) v)
         (apertures st) (shutter_speeds st) (hourly_settings st).

Definition count_aperture (st : agg) (v : float) : agg :=
  mk_agg (focal_lengths st) (dates st) (hours st) (iso st)
         (dict_incr (apertures st) v) (shutter_speeds st) (hourly_settings st).

Definition count_shutter_speed (st : agg) (v : float) : agg :=
  mk_agg (focal_lengths st) (dates st) (hours st) (iso st)
         (apertures st) (dict_incr (shutter_speeds st) v) (hourly_settings st).

Definition append_iso (v : Z) (hs : hour_settings) : hour_settings :=
  mk_hour_settings (hs_apertures hs) (hs_shutter_speeds hs) (hs_isos hs ++ [v]).

Definition append_aperture (v : float) (hs : hour_settings) : hour_settings :=
  mk_hour_settings (hs_apertures hs ++ [v]) (hs_shutter_speeds hs) (hs_isos hs).

Definition append_shutter_speed (v : float) (hs : hour_settings) : hour_settings :=
  mk_hour_settings (hs_apertures hs) (hs_shutter_speeds hs ++ [v]) (hs_isos hs).

(** [hourly_settings[h][...].append(v)]; a missing hour is a [KeyError]. *)
Definition hourly_append (upd : hour_settings -> hour_settings) (st : agg) (h : Z)
  : result agg :=
  match hourly_settings st !! h with
  | Some hs =>
      Ok (mk_agg (focal_lengths st) (dates st) (hours st) (iso st)
                 (apertures st) (shutter_speeds st)
                 (<[h := upd hs]> (hourly_settings st)))
  | None => Raise KeyError
  end.

Definition strict_format : string := "%Y:%m:%d %H:%M:%S".

(** The block that [process_folder] repeats for ISO, aperture and shutter
    speed:
    [if 'DateTimeOriginal' in exif_data: try: dt = strptime(...);
     hourly_settings[dt.hour][...].append(v)  except ValueError: pass]. *)
Definition record_hourly (exif_data : gmap string pyval)
    (upd : hour_settings -> hour_settings) (st : agg) : result agg :=
  match exif_data !! "DateTimeOriginal"%string with
  | Some raw_date =>
      try_except_ValueError
        (dt ← py_strptime raw_date strict_format;
         hourly_append upd st (dt_hour dt))
        (Ok st)
  | None => Ok st
  end.

(** [if v:] for a float *)
Definition float_truthy (f : float) : bool := negb (is_zero f).

(** One iteration of the loop over [image_files], on the dictionary that
    [get_exif_data] returned for the image. *)
Definition process_image (st : agg) (exif_data : gmap string pyval) : result agg :=
  if bool_decide (exif_data = ∅) then Ok st
  else
    st ← match exif_data !! "FocalLength"%string with
         | Some raw =>
             focal_length ← process_focal_length raw;
             match focal_length with
             | Some f => if f =? 0 then Ok st else Ok (add_focal_length st f)
             | None => Ok st
             end
         | None => Ok st
         end;
    st ← match exif_data !! "DateTimeOriginal"%string with
         | Some raw_date =>
             dt ← try_parse_date raw_date;
             match dt with
             | Some dt => Ok (count_date st dt)
             | None => Ok st
             end
         | None => Ok st
         end;
    st ← match exif_data !! "ISOSpeedRatings"%string with
         | Some raw =>
             iso_value ← process_iso_value raw;
             match iso_value with
             | Some v =>
                 if v =? 0 then Ok st
                 else record_hourly exif_data (append_iso v) (count_iso st v)
             | None => Ok st
             end
         | None => Ok st
         end;
    st ← match exif_data !! "FNumber"%string with
         | Some raw =>
             aperture ← process_aperture raw;
             match aperture with
             | Some v =>
                 if float_truthy v
                 then record_hourly exif_data (append_aperture v) (count_aperture st v)
                 else Ok st
             | None => Ok st
             end
         | None => Ok st
         end;
    match exif_data !! "ExposureTime"%string with
    | Some raw =>
        shutter_speed ← process_shutter_speed raw;
        match shutter_speed with
        | Some v =>
            if float_truthy v
            then record_hourly exif_data (append_shutter_speed v)
                               (count_shutter_speed st v)
            else Ok st
        | None => Ok st
        end
    | None => Ok st
    end.

Fixpoint process_images (st : agg) (images : list (gmap string pyval)) : result agg :=
  match images with
  | [] => Ok st
  | exif_data :: images' =>
      st' ← process_image st exif_data;
      process_images st' images'
  end.

(** [process_folder], on the dictionaries that [get_exif_data] returns
    for the image files of the folder, in the order of [image_files]. *)
Definition process_folder (images : list (gmap string pyval)) : result agg :=
  process_images init_agg images.

(** ** The summary statistics of [analyze_folder] *)

(** [a / b] on integers: the float nearest to the quotient. *)
Definition int_truediv (a b : Z) : result float :=
  if b =? 0 then Raise ZeroDivisionError
  else
    let f := float_of_ratio (xorb (a <? 0) (b <? 0)) (Z.abs a) (Z.abs b) in
    if is_infinity f then Raise OverflowError else Ok f.

(** [l[i]] on a list of integers, [0 <= i]. *)
Definition int_index (l : list Z) (i : nat) : result Z :=
  match l !! i with Some v => Ok v | None => Raise IndexError end.

Definition total_photos (st : agg) : Z := dict_sum (dates st).

Definition focal_length_median (st : agg) : result pyval :=
  let valid_focal_lengths := filter (fun f => f ≠ 0) (focal_lengths st) in
  match valid_focal_lengths with
  | [] => Ok (VInt 0)
  | _ =>
      let sorted := merge_sort Z.le valid_focal_lengths in
      let mid := (length sorted / 2)%nat in
      if (length sorted mod 2 =? 0)%nat then
        a ← int_index sorted (mid - 1);
        b ← int_index sorted mid;
        q ← int_truediv (a + b) 2;
        Ok (VFloat q)
      else
        m ← int_index sorted mid;
        Ok (VInt m)
  end.

Definition daily_average (st : agg) : result pyval :=
  let num_days := Z.of_nat (length (dates st)) in
  if 0 <? num_days then q ← int_truediv (total_photos st) num_days; Ok (VFloat q)
  else Ok (VInt 0).

Record summary := mk_summary {
  s_total_photos : Z;
  s_focal_length_median : pyval;
  s_daily_average : pyval
}.

(** Lines 473-488 of [analyze_folder], on the result of [process_folder]. *)
Definition summary_statistics (st : agg) : result summary :=
  m ← focal_length_median st;
  a ← daily_average st;
  Ok (mk_summary (total_photos st) m a).

(** ** The split point of the focal-length histogram ([generate_chart])

    [plt.hist(data, bins=20)] is numpy's histogram: [bins + 1] edges from
    [linspace] over the range of the data (widened by a half on each side
    when all samples are equal), every bin half-open except the last.
    Samples that fit no 64-bit integer make an array of objects, which
    the check of the range refuses with a [TypeError]; edges that do not
    increase strictly are refused with a [ValueError] (the bins must have
    a size).  The counts are whole numbers; matplotlib hands them back
    as floats, on which the sums and the comparison of the loop are exact
    below 2^53, so the model keeps them as integers and converts where
    the code divides. *)

Definition list_min (l : list Z) : Z :=
  match l with [] => 0 | x :: l' => fold_left Z.min l' x end.

Definition list_max (l : list Z) : Z :=
  match l with [] => 0 | x :: l' => fold_left Z.max l' x end.

Definition float_of_nat (n : nat) : float := float_of_Z (Z.of_nat n).

(** [numpy.linspace(first, last, n + 1)] *)
Definition linspace (first last : float) (n : nat) : list float :=
  let delta := (last - first)%float in
  let step := (delta / float_of_nat n)%float in
  map (fun i =>
         if is_zero step
         then (float_of_nat i / float_of_nat n * delta + first)%float
         else (float_of_nat i * step + first)%float)
      (seq 0 n) ++ [last].

Definition in_bin (bins : list float) (n i : nat) (x : float) : bool :=
  match bins !! i, bins !! S i with
  | Some left_edge, Some right_edge =>
      (left_edge <=? x)%float
      && (if (S i =? n)%nat then (x <=? right_edge)%float
          else (x <? right_edge)%float)
  | _, _ => false
  end.

(** The samples that numpy holds as numbers: those of the signed and of
    the unsigned 64-bit integers. *)
Definition fits_64_bits (x : Z) : bool := (- 2 ^ 63 <=? x) && (x <? 2 ^ 64).

(** [np.any(bin_edges[:-1] >= bin_edges[1:])] *)
Fixpoint edges_collapse (bins : list float) : bool :=
  match bins with
  | left_edge :: (right_edge :: _) as rest =>
      (right_edge <=? left_edge)%float || edges_collapse rest
  | _ => false
  end.

Definition hist (data : list Z) (n : nat) : result (list Z * list float) :=
  if forallb fits_64_bits data then
    let lo := float_of_Z (list_min data) in
    let hi := float_of_Z (list_max data) in
    let '(first, last) :=
      if list_min data =? list_max data
      then ((lo - 0.5)%float, (hi + 0.5)%float) else (lo, hi) in
    let bins := linspace first last n in
    if edges_collapse bins then Raise ValueError
    else
      let counts :=
        map (fun i =>
               Z.of_nat (length (List.filter
                                   (fun x => in_bin bins n i (float_of_Z x)) data)))
            (seq 0 n) in
      Ok (counts, bins)
  else Raise TypeError.

(** [zip(counts, bins[:-1], bins[1:])] *)
Fixpoint zip3 (a : list Z) (b c : list float) : list (Z * float * float) :=
  match a, b, c with
  | x :: a', y :: b', z :: c' => (x, y, z) :: zip3 a' b' c'
  | _, _, _ => []
  end.

(** The [for ... in zip(...)] loop; leaving it without a [break] leaves
    [split_point] unbound, a [NameError] at [plt.axvline]. *)
Fixpoint split_loop (total_photos cumsum : Z) (bs : list (Z * float * float))
  : result float :=
  match bs with
  | [] => Raise NameError
  | (count, left_edge, right_edge) :: bs' =>
      let cumsum := cumsum + count in
      if total_photos <=? 2 * cumsum then
        let half_photos := (float_of_Z total_photos / 2)%float in
        let prev_sum := cumsum - count in
        let ratio := ((half_photos - float_of_Z prev_sum) / float_of_Z count)%float in
        Ok (left_edge + ratio * (right_edge - left_edge))%float
      else split_loop total_photos cumsum bs'
  end.

(** The split point that [generate_chart] draws for a non-empty list. *)
Definition split_point (data : list Z) : result float :=
  '(counts, bins) ← hist data 20;
  let total_photos := fold_left Z.add counts 0 in
  split_loop total_photos 0 (zip3 counts (removelast bins) (tl bins)).

(** ** The image files of the folder ([process_folder])

    [re.match(r'.*\.(jpg|jpeg|png|bmp|tiff)$', file, re.IGNORECASE)] on a
    file name, a sequence of code points: [.] is any character but the
    newline, [$] is the end of the name or the place before a newline
    that ends it.  Ignoring case, a letter of the pattern matches the
    characters whose lower case it is, and [i] matches the dotless
    U+0131 as well; besides the ASCII capitals, the only character
    whose lower case is a letter of the five extensions is U+0130, whose
    lower case is [i]. *)









(** ** The tick labels of the shutter-speed chart ([generate_chart]) *)

(** The label of one bar, [f'1/{int(1/k)}' if k < 1 else f'{k:.1f}'],
    before it is turned into text. *)
Inductive shutter_label :=
| Reciprocal (denominator : Z)
| Seconds (k : float).

Definition format_label (k : float) : result shutter_label :=
  if (k <? 1)%float then
    q ← py_truediv 1 k;
    d ← int_of_float q;
    Ok (Reciprocal d)
  else Ok (Seconds k).

(** The loop [for k in keys] that fills [formatted_labels]. *)
Fixpoint format_labels (keys : list float) : result (list shutter_label) :=
  match keys with
  | [] => Ok []
  | k :: keys' =>
      l ← format_label k;
      ls ← format_labels keys';
      Ok (l :: ls)
  end.

(** [list(range(0, stop, step))] for [0 <= step]; a step of 0 is a
    [ValueError]. *)
Definition py_range (stop step : nat) : result (list nat) :=
  if (step =? 0)%nat then Raise ValueError
  else Ok (map (fun i => (i * step)%nat) (seq 0 ((stop + step - 1) / step))).

(** The positions that get a label, for [len(keys)] bars:
    [range(0, len(keys), len(keys) // 10)] for more than 20 bars,
    [range(len(keys))] otherwise. *)
Definition tick_positions (len_keys : nat) : result (list nat) :=
  if (20 <? len_keys)%nat then py_range len_keys (len_keys / 10)
  else Ok (seq 0 len_keys).

(** [[formatted_labels[i] for i in ...]] *)
Fixpoint labels_at {A} (formatted_labels : list A) (positions : list nat)
  : result (list A) :=
  match positions with
  | [] => Ok []
  | i :: positions' =>
      match formatted_labels !! i with
      | Some l => ls ← labels_at formatted_labels positions'; Ok (l :: ls)
      | None => Raise IndexError
      end
  end.

Definition tick_labels {A} (formatted_labels : list A) : result (list nat * list A) :=
  positions ← tick_positions (length formatted_labels);
  labels ← labels_at formatted_labels positions;
  Ok (positions, labels).

(** ** The axis limits of the hourly chart ([generate_hourly_settings_chart]) *)

(** [range(24)] *)
Definition hours_of_day : list Z := map Z.of_nat (seq 0 24).

(** [min(xs)] and [max(xs)]: the first of the smallest, or largest,
    items by [<], or [>]; a [ValueError] on an empty sequence. *)
Definition py_min (xs : list float) : result float :=
  match xs with
  | [] => Raise ValueError
  | x :: xs' => Ok (fold_left (fun m y => if (y <? m)%float then y else m) xs' x)
  end.

Definition py_max (xs : list float) : result float :=
  match xs with
  | [] => Raise ValueError
  | x :: xs' => Ok (fold_left (fun m y => if (m <? y)%float then y else m) xs' x)
  end.

(** [filter(None, avgs)]: the averages that are neither [None] nor zero. *)
Definition filter_truthy (avgs : list (option float)) : list float :=
  omap (fun a => match a with
                 | Some v => if float_truthy v then Some v else None
                 | None => None
                 end) avgs.

(** [if avgs: set_ylim(min(filter(None, avgs)) * lo, max(filter(None, avgs)) * hi)] *)
Definition axis_limits (lo hi : float) (avgs : list (option float))
  : result (option (float * float)) :=
  match avgs with
  | [] => Ok None
  | _ =>
      smallest ← py_min (filter_truthy avgs);
      largest ← py_max (filter_truthy avgs);
      Ok (Some ((smallest * lo)%float, (largest * hi)%float))
  end.

Section HourlyChart.
(** [numpy.mean] on a non-empty list of floats, and of integers. *)
Variable mean : list float -> float.
Variable mean_int : list Z -> float.

(** [np.mean(xs) if xs else None] *)
Definition average {A} (np_mean : list A -> float) (xs : list A) : option float :=
  match xs with [] => None | _ => Some (np_mean xs) end.

(** The loop [for hour in hours]: the three lists of averages. *)
Fixpoint hourly_averages (hourly_settings : gmap Z hour_settings) (hours : list Z)
    (avgs : list (option float) * list (option float) * list (option float))
  : result (list (option float) * list (option float) * list (option float)) :=
  match hours with
  | [] => Ok avgs
  | hour :: hours' =>
      match hourly_settings !! hour with
      | Some hs =>
          let '(avg_apertures, avg_shutter_speeds, avg_isos) := avgs in
          hourly_averages hourly_settings hours'
            (avg_apertures ++ [average mean (hs_apertures hs)],
             avg_shutter_speeds ++ [average mean (hs_shutter_speeds hs)],
             avg_isos ++ [average mean_int (hs_isos hs)])
      | None => Raise KeyError
      end
  end.

(** The limits of the aperture axis and of the ISO axis, in the order in
    which the function computes them. *)
Definition hourly_chart_limits (hourly_settings : gmap Z hour_settings)
  : result (option (float * float) * option (float * float)) :=
  '(avg_apertures, _, avg_isos) ← hourly_averages hourly_settings hours_of_day ([], [], []);
  aperture_limits ← axis_limits 0.9 1.1 avg_apertures;
  iso_limits ← axis_limits 0.8 1.1 avg_isos;
  Ok (aperture_limits, iso_limits).

End HourlyChart.

(** * Derived notions

    What the statements below are phrased with: the contribution of one
    image, the entries of a counter, the contents of a bucket, and the
    sample inputs. *)

(** The three photos of the end-to-end scenario. *)
Definition photo_A : gmap string pyval :=
  <["ISOSpeedRatings"%string := VInt 100]>
  (<["FNumber"%string := VTuple [VInt 28; VInt 10]]>
  (<["DateTimeOriginal"%string := VStr "2023:01:01 08:00:00"]> ∅)).

Definition photo_B : gmap string pyval :=
  <["ISOSpeedRatings"%string := VStr "abc"]> ∅.

Definition photo_C : gmap string pyval := ∅.

(** The range check of [process_iso_value]. *)
Definition iso_in_range (z : Z) : option Z :=
  if (50 <=? z) && (z <=? 512000) then Some z else None.

(** [round(q)] with its exceptions read as absent. *)
Definition round_or_absent (q : float) : option Z :=
  match py_round q with Ok r => Some r | Raise _ => None end.

(** The median of an ascending list, as the specification words it: the
    middle element for an odd count, the average of the two middle
    elements for an even count, 0 for the empty list. *)
Definition median_of_sorted (sorted : list Z) : result pyval :=
  match sorted with
  | [] => Ok (VInt 0)
  | _ =>
      let mid := (length sorted / 2)%nat in
      if Nat.even (length sorted) then
        q ← int_truediv (nth (mid - 1) sorted 0 + nth mid sorted 0) 2;
        Ok (VFloat q)
      else Ok (VInt (nth mid sorted 0))
  end.

(** A state whose focal-length sample list is [l]. *)
Definition with_focal_lengths (l : list Z) : agg := mk_agg l [] [] [] [] [] ∅.

(** *** The entries of a counter *)

Section DictEntries.
Context {K : Type} `{PyEq K}.

Definition keys (d : dict K) : list K := map fst d.

(** [k in d] *)
Definition has_key (d : dict K) (k : K) : bool :=
  existsb (fun kv => py_eqb (fst kv) k) d.

Definition bump (k : K) (kv : K * Z) : K * Z :=
  if py_eqb (fst kv) k then (fst kv, snd kv + 1) else kv.

Fixpoint bump_first (d : dict K) (k : K) : dict K :=
  match d with
  | [] => []
  | kv :: d' =>
      if py_eqb (fst kv) k then (fst kv, snd kv + 1) :: d'
      else kv :: bump_first d' k
  end.

(** [dict_incr] up to the order of the entries. *)
Definition incr_entries (d : dict K) (k : K) : dict K :=
  if has_key d k then map (bump k) d else (k, 1) :: d.

(** No two entries have keys that compare equal. *)
Inductive distinct_keys : dict K -> Prop :=
| distinct_nil : distinct_keys []
| distinct_cons kv d :
    (forall kv', In kv' d -> py_eqb (fst kv') (fst kv) = false) ->
    distinct_keys d -> distinct_keys (kv :: d).

(** Distinct keys, all of them [good]. *)
Definition well_formed (good : K -> Prop) (d : dict K) : Prop :=
  distinct_keys d /\ Forall good (keys d).

End DictEntries.

Definition unwrap {A} (m : result (option A)) : option A :=
  match m with Ok r => r | Raise _ => None end.

(** The focal length that the image appends, if any. *)
Definition obs_focal (e : gmap string pyval) : option Z :=
  match e !! "FocalLength"%string with
  | Some raw =>
      match unwrap (process_focal_length raw) with
      | Some f => if f =? 0 then None else Some f
      | None => None
      end
  | None => None
  end.

(** The capture date that the image counts, if any. *)
Definition obs_date (e : gmap string pyval) : option datetime :=
  match e !! "DateTimeOriginal"%string with
  | Some raw => unwrap (try_parse_date raw)
  | None => None
  end.

Definition obs_iso (e : gmap string pyval) : option Z :=
  match e !! "ISOSpeedRatings"%string with
  | Some raw =>
      match unwrap (process_iso_value raw) with
      | Some v => if v =? 0 then None else Some v
      | None => None
      end
  | None => None
  end.

Definition obs_aperture (e : gmap string pyval) : option float :=
  match e !! "FNumber"%string with
  | Some raw =>
      match unwrap (process_aperture raw) with
      | Some v => if float_truthy v then Some v else None
      | None => None
      end
  | None => None
  end.

Definition obs_shutter_speed (e : gmap string pyval) : option float :=
  match e !! "ExposureTime"%string with
  | Some raw =>
      match unwrap (process_shutter_speed raw) with
      | Some v => if float_truthy v then Some v else None
      | None => None
      end
  | None => None
  end.

(** The hour of the raw date under the strict format. *)
Definition strict_hour (e : gmap string pyval) : result (option Z) :=
  match e !! "DateTimeOriginal"%string with
  | Some raw_date =>
      try_except_ValueError
        (dt ← py_strptime raw_date strict_format; Ok (Some (dt_hour dt)))
        (Ok None)
  | None => Ok None
  end.

(** The strict parse is only attempted for an image that has an ISO, an
    aperture or a shutter speed to record. *)
Definition wants_hour (e : gmap string pyval) : bool :=
  match obs_iso e, obs_aperture e, obs_shutter_speed e with
  | None, None, None => false
  | _, _, _ => true
  end.

Definition image_hour (e : gmap string pyval) : result (option Z) :=
  if wants_hour e then strict_hour e else Ok None.

Definition in_hour (h : option Z) (upd : hour_settings -> hour_settings)
    (st : agg) : agg :=
  match h with
  | Some h =>
      mk_agg (focal_lengths st) (dates st) (hours st) (iso st)
             (apertures st) (shutter_speeds st)
             (alter upd h (hourly_settings st))
  | None => st
  end.

Definition apply_image (st : agg) (e : gmap string pyval) (h : option Z) : agg :=
  let st1 := match obs_focal e with
             | Some f => add_focal_length st f
             | None => st
             end in
  let st2 := match obs_date e with
             | Some dt => count_date st1 dt
             | None => st1
             end in
  let st3 := match obs_iso e with
             | Some v => in_hour h (append_iso v) (count_iso st2 v)
             | None => st2
             end in
  let st4 := match obs_aperture e with
             | Some v => in_hour h (append_aperture v) (count_aperture st3 v)
             | None => st3
             end in
  match obs_shutter_speed e with
  | Some v => in_hour h (append_shutter_speed v) (count_shutter_speed st4 v)
  | None => st4
  end.

(** Every hour of the day has its bucket. *)
Definition hours_ok (st : agg) : Prop :=
  forall h, 0 <= h <= 23 -> is_Some (hourly_settings st !! h).

(** Characters that a directive can match: digits and the blank. *)
Definition plain (c : ascii) : bool := is_digit c || is_char 32 c.

(** Every class of every alternative only matches plain characters, and
    the last class of every alternative only matches digits. *)
Definition classes_plain (alt : list (ascii -> bool)) : Prop :=
  Forall (fun p : ascii -> bool => forall c, p c = true -> plain c = true) alt.

Definition ends_with_digit (alt : list (ascii -> bool)) : Prop :=
  exists init p, alt = init ++ [p] /\ forall c, p c = true -> is_digit c = true.

Fixpoint chars_match (cls : list (ascii -> bool)) (m : string) : Prop :=
  match cls, m with
  | [], EmptyString => True
  | p :: cls', String c m' => p c = true /\ chars_match cls' m'
  | _, _ => False
  end.

Definition literals_ok (items : list fmt_item) : Prop :=
  Forall (fun it => match it with
                    | FLit c => (code c =? 0)%N = false
                    | _ => True
                    end) items.

Definition strict_items : list fmt_item :=
  [FDir DY; FLit ":"; FDir Dm; FLit ":"; FDir Dd; FSpaces;
   FDir DH; FLit ":"; FDir DM; FLit ":"; FDir DS].

Definition image_aborts (e : gmap string pyval) : bool :=
  negb (is_Ok (image_hour e)).

Definition hour_of (e : gmap string pyval) : option Z := unwrap (image_hour e).

Definition step (st : agg) (e : gmap string pyval) : agg :=
  apply_image st e (hour_of e).

Definition incr_opt {K} `{PyEq K} (d : dict K) (k : option K) : dict K :=
  match k with Some k => dict_incr d k | None => d end.

(** The three sequences of the bucket of hour [h]. *)
Definition bucket_isos (st : agg) (h : Z) : list Z :=
  match hourly_settings st !! h with Some hs => hs_isos hs | None => [] end.

Definition bucket_apertures (st : agg) (h : Z) : list float :=
  match hourly_settings st !! h with Some hs => hs_apertures hs | None => [] end.

Definition bucket_shutter_speeds (st : agg) (h : Z) : list float :=
  match hourly_settings st !! h with
  | Some hs => hs_shutter_speeds hs
  | None => []
  end.

(** The value that goes to the bucket of hour [h]: the observation, when
    the strict hour is [h]. *)
Definition at_hour {A} (h : Z) (strict : option Z) (v : option A) : list A :=
  match strict, v with
  | Some h', Some v => if h' =? h then [v] else []
  | _, _ => []
  end.

(** An image with an ISO value and a capture date that is a number. *)
Definition photo_numeric_date : gmap string pyval :=
  <["ISOSpeedRatings"%string := VInt 100]>
  (<["DateTimeOriginal"%string := VInt 20230501]> ∅).

(** An image with a shutter speed of 1/32000 s, which rounds to 0.0. *)
Definition photo_zero_shutter : gmap string pyval :=
  <["ExposureTime"%string := VTuple [VInt 1; VInt 32000]]> ∅.

Definition photo_on (date_string : string) : gmap string pyval :=
  <["DateTimeOriginal"%string := VStr date_string]> ∅.

(** Ten photos on two days; the third also has an ISO value, the last two
    have no date that parses. *)
Definition ten_photos : list (gmap string pyval) :=
  replicate 6 (photo_on "2023:01:01 08:00:00")
  ++ replicate 4 (photo_on "2023-01-02 09:30:00")
  ++ [photo_B; photo_on "yesterday"].

(** The state that the run over [ten_photos] ends in. *)
Definition ten_photos_state : agg :=
  match process_folder ten_photos with Ok st => st | Raise _ => init_agg end.

(** The state after [photo_A] alone. *)
Definition photo_A_state : agg :=
  match process_image init_agg photo_A with Ok st => st | Raise _ => init_agg end.

(** The same frequency map: the same entries, whatever their order, and
    the same answer to every lookup. *)
Definition same_map {K} `{PyEq K} (d d' : dict K) : Prop :=
  d ≡ₚ d' /\ forall k, dict_get d k 0 = dict_get d' k 0.

(** A second photo, taken the next day. *)
Definition photo_D : gmap string pyval :=
  <["FocalLength"%string := VTuple [VInt 50; VInt 1]]>
  (<["ISOSpeedRatings"%string := VInt 200]>
  (<["FNumber"%string := VTuple [VInt 40; VInt 10]]>
  (<["ExposureTime"%string := VTuple [VInt 1; VInt 250]]>
  (<["DateTimeOriginal"%string := VStr "2023:01:02 08:15:00"]> ∅)))).

(** The sum of the first [k] counts. *)
Definition running_sum (counts : list Z) (k : nat) : Z :=
  fold_left Z.add (take k counts) 0.

Fixpoint csum (bs : list (Z * float * float)) : Z :=
  match bs with
  | [] => 0
  | (count, _, _) :: bs' => count + csum bs'
  end.

(** The interpolation of [generate_chart] within one bin. *)
Definition interpolate (total_photos prev_sum count : Z)
    (left_edge right_edge : float) : float :=
  (left_edge
   + (float_of_Z total_photos / 2 - float_of_Z prev_sum) / float_of_Z count
     * (right_edge - left_edge))%float.

(** The samples of the specification's histogram example. *)
Definition sample_focal_lengths : list Z := [20; 20; 20; 200; 200; 200].

(** The number of elements of [ks] that compare equal to [k]. *)
Definition occurrences {K} `{PyEq K} (ks : list K) (k : K) : Z :=
  Z.of_nat (length (List.filter (fun x => py_eqb x k) ks)).

(** Two photos of the same day and hour, and one of the next day. *)
Definition three_photos : list (gmap string pyval) := [photo_A; photo_D; photo_A].

Definition three_photos_state : agg :=
  match process_folder three_photos with Ok st => st | Raise _ => init_agg end.

(** A calendar date, as [datetime] accepts it. *)
Definition valid_date (d : date) : Prop :=
  1 <= d_year d <= 9999 /\ 1 <= d_month d <= 12 /\
  1 <= d_day d <= days_in_month (d_year d) (d_month d).

Definition valid_datetime (dt : datetime) : Prop :=
  valid_date (dt_date dt) /\ 0 <= dt_hour dt <= 23 /\
  0 <= dt_minute dt <= 59 /\ 0 <= dt_second dt <= 59.

(** The number of values in the 24 buckets of one setting. *)
Definition bucket_sizes {A} (bucket : agg -> Z -> list A) (st : agg) : nat :=
  sum_list (map (fun h => length (bucket st h)) hours_of_day).

(** What an image sends to a bucket: its observation, when the strict
    parse gives an hour. *)
Definition bucketed {A} (g : gmap string pyval -> option A)
    (e : gmap string pyval) : option A :=
  match hour_of e with Some _ => g e | None => None end.

(** Whether a character with code [n] occurs in [s]. *)
Fixpoint has_code (n : N) (s : string) : bool :=
  match s with
  | EmptyString => false
  | String c s' => (code c =? n)%N || has_code n s'
  end.

Fixpoint all_plain (s : string) : bool :=
  match s with
  | EmptyString => true
  | String c s' => plain c && all_plain s'
  end.

(** Which of the five formats a cleaned date string can belong to: told
    by the character after the year, and for a digit there by the
    presence of an underscore. *)
Definition format_index (s : string) : option nat :=
  match s with
  | String _ (String _ (String _ (String _ (String c _)))) =>
      if (code c =? 58)%N then Some 0%nat
      else if (code c =? 45)%N then Some 1%nat
      else if (code c =? 95)%N then Some 3%nat
      else if has_code 95 s then Some 2%nat else Some 4%nat
  | _ => None
  end.

(** Blanks and NUL characters, which the cleaning of [try_parse_date]
    takes away around a date. *)
Fixpoint padding (s : string) : bool :=
  match s with
  | EmptyString => true
  | String c s' => (is_space c || (code c =? 0)%N) && padding s'
  end.

Fixpoint all_space (s : string) : bool :=
  match s with
  | EmptyString => true
  | String c s' => is_space c && all_space s'
  end.

(** Whether the image gives the aggregation any value at all. *)
Definition contributes (e : gmap string pyval) : bool :=
  match obs_focal e, obs_date e, obs_iso e, obs_aperture e, obs_shutter_speed e with
  | None, None, None, None, None => false
  | _, _, _, _, _ => true
  end.

(** An image whose metadata has none of the five tags that are read. *)
Definition photo_other_tags : gmap string pyval :=
  <["Make"%string := VStr "Camera"]> (<["Orientation"%string := VInt 1]> ∅).

(** [p] holds from 1 to [n]. *)
Fixpoint all_upto (n : nat) (p : Z -> bool) : bool :=
  match n with
  | O => true
  | S n' => p (Z.of_nat n) && all_upto n' p
  end.

(** The float that [round(x, 4)] returns for [j] ten-thousandths. *)
Definition ten_thousandths (j : Z) : float := float_of_ratio false j 10000.

Definition label_is_floor (j : Z) : bool :=
  match format_label (ten_thousandths j) with
  | Ok (Reciprocal d) => d =? 10000 / j
  | _ => false
  end.

(** The bar label of an exposure of [1/n] seconds: the key that
    [process_shutter_speed] makes of it, formatted. *)
Definition exposure_label (n : Z) : result (option shutter_label) :=
  k ← process_shutter_speed (VTuple [VInt 1; VInt n]);
  match k with
  | Some k => l ← format_label k; Ok (Some l)
  | None => Ok None
  end.

(** A decimal numeral, as the specification reads a text: the digits,
    most significant first, and their value. *)
Definition digit_char (d : Z) : ascii := ascii_of_N (Z.to_N (48 + d)).

Fixpoint digits_text (ds : list Z) : string :=
  match ds with
  | [] => EmptyString
  | d :: ds' => String (digit_char d) (digits_text ds')
  end.

Fixpoint decimal_value (ds : list Z) : Z :=
  match ds with
  | [] => 0
  | d :: ds' => d * 10 ^ Z.of_nat (length ds') + decimal_value ds'
  end.

Definition is_decimal_digit (d : Z) : Prop := 0 <= d <= 9.

Fixpoint all_number_space (s : string) : bool :=
  match s with
  | EmptyString => true
  | String c s' => is_number_space c && all_number_space s'
  end.

(** Whether a text begins, or ends, with whitespace. *)
Definition starts_with_space (s : string) : bool :=
  match s with
  | String c _ => is_space c
  | EmptyString => false
  end.

Fixpoint ends_with_space (s : string) : bool :=
  match s with
  | EmptyString => false
  | String c EmptyString => is_space c
  | String _ s' => ends_with_space s'
  end.

(** The place of a float in the order of the floats: a triple compared
    lexicographically; not-a-number has none, the two zeros share one. *)
Definition float_key (f : float) : option (Z * Z * Z) :=
  match Prim2SF f with
  | S754_nan => None
  | S754_zero _ => Some (0, 0, 0)
  | S754_infinity s => Some (if s then -2 else 2, 0, 0)
  | S754_finite s m e => Some (if s then (-1, - e, - Zpos m) else (1, e, Zpos m))
  end.

Definition key_lt (k1 k2 : Z * Z * Z) : Prop :=
  let '(a1, b1, c1) := k1 in
  let '(a2, b2, c2) := k2 in
  a1 < a2 \/ (a1 = a2 /\ (b1 < b2 \/ (b1 = b2 /\ c1 < c2))).


(** [n * 2^k] on positive numbers. *)
Fixpoint shift_left (n : positive) (k : nat) : positive :=
  match k with
  | O => n
  | S k' => xO (shift_left n k')
  end.


(** The key of the float of a whole number below 2^53 in absolute value. *)
Definition key_of_Z (z : Z) : Z * Z * Z :=
  match z with
  | Z0 => (0, 0, 0)
  | Zpos n =>
      (1, Zpos (digits2_pos n) - 53, Zpos n * 2 ^ (53 - Zpos (digits2_pos n)))
  | Zneg n =>
      (-1, 53 - Zpos (digits2_pos n), - (Zpos n * 2 ^ (53 - Zpos (digits2_pos n))))
  end.

(** Edges that increase strictly. *)
Fixpoint increasing (bins : list float) : bool :=
  match bins with
  | left_edge :: (right_edge :: _) as rest =>
      (left_edge <? right_edge)%float && increasing rest
  | _ => true
  end.



(** * Properties *)

(** ** Worked examples *)

(** The end-to-end scenario: photo A with ISO 100, aperture 28/10 and a
    date at 8 o'clock, photo B with an ISO that is no number, photo C
    without metadata. *)
Example end_to_end_scenario :
  match process_folder [photo_A; photo_B; photo_C] with
  | Ok st =>
      iso st = [(100, 1)] /\ apertures st = [(2.8%float, 1)] /\
      bucket_apertures st 8 = [2.8%float] /\
      summary_statistics st = Ok (mk_summary 1 (VInt 0) (VFloat 1))
  | Raise _ => False
  end.
Proof. vm_compute. repeat split; reflexivity. Qed.

Example date_canonical :
  try_parse_date (VStr "2023:05:01 10:20:30")
  = Ok (Some (mk_datetime 2023 5 1 10 20 30)).
Proof. vm_compute. reflexivity. Qed.

Example date_compact :
  try_parse_date (VStr "20230501102030")
  = Ok (Some (mk_datetime 2023 5 1 10 20 30)).
Proof. vm_compute. reflexivity. Qed.

(** Without separators the regular expression backtracks. *)
Example date_backtracking :
  try_parse_date (VStr "202311111") = Ok (Some (mk_datetime 2023 1 1 1 1 1)).
Proof. vm_compute. reflexivity. Qed.

(** One-digit fields and runs of blanks are accepted. *)
Example date_loose :
  try_parse_date (VStr " 2023-5-1   1:2:3 ")
  = Ok (Some (mk_datetime 2023 5 1 1 2 3)).
Proof. vm_compute. reflexivity. Qed.

Example date_not_in_calendar :
  try_parse_date (VStr "2023:02:29 10:20:30") = Ok None.
Proof. vm_compute. reflexivity. Qed.

Example date_unconverted_data :
  try_parse_date (VStr "2023:05:01 10:20:75") = Ok None.
Proof. vm_compute. reflexivity. Qed.

Example iso_text : process_iso_value (VStr " 1_600 ") = Ok (Some 1600).
Proof. vm_compute. reflexivity. Qed.

Example aperture_text : process_aperture (VStr "2.849") = Ok (Some 2.8%float).
Proof. vm_compute. reflexivity. Qed.

(** Ties go to the even digit; 0.35 and 2.675 are no ties in binary. *)
Example aperture_ties :
  process_aperture (VFloat 0.25) = Ok (Some 0.2%float) /\
  process_aperture (VFloat 0.35) = Ok (Some 0.3%float) /\
  process_aperture (VFloat 2.675) = Ok (Some 2.7%float).
Proof. vm_compute. repeat split; reflexivity. Qed.

Example shutter_speed_small :
  process_shutter_speed (VTuple [VInt 1; VInt 8000]) = Ok (Some 0.0001%float).
Proof. vm_compute. reflexivity. Qed.

Example focal_length_values :
  process_focal_length (VFloat 51.5) = Ok (Some 52) /\
  process_focal_length (VStr "1e3") = Ok (Some 1000) /\
  process_focal_length (VStr "-.5e1") = Ok (Some (-5)) /\
  process_focal_length (VFloat infinity) = Ok None /\
  process_focal_length (VTuple [VInt 50; VInt 0]) = Ok None.
Proof. vm_compute. repeat split; reflexivity. Qed.

(** The histogram example: three samples at 20 and three at 200. *)
Example histogram_example :
  hist sample_focal_lengths 20
  = Ok ([3; 0; 0; 0; 0; 0; 0; 0; 0; 0; 0; 0; 0; 0; 0; 0; 0; 0; 0; 3],
        [20; 29; 38; 47; 56; 65; 74; 83; 92; 101; 110; 119; 128; 137; 146; 155;
         164; 173; 182; 191; 200]%float) /\
  split_point sample_focal_lengths = Ok 29%float.
Proof. vm_compute. split; reflexivity. Qed.

(** Samples for which [plt.hist] raises: one beyond the 64-bit integers,
    and two above 2^53 that are too close for 20 bins. *)
Example histogram_failures :
  hist [10 ^ 22; 1] 20 = Raise TypeError /\
  split_point [10 ^ 22; 1] = Raise TypeError /\
  hist [2 ^ 53 + 1; 2 ^ 53 + 3] 20 = Raise ValueError /\
  split_point [2 ^ 53 + 1; 2 ^ 53 + 3] = Raise ValueError /\
  hist [2 ^ 52; 2 ^ 52 + 1] 20 = Raise ValueError.
Proof. vm_compute. repeat split; reflexivity. Qed.

(** ** The normalisers are total *)

Lemma try_except_default {A} (m : result A) (d : A) :
  exists a, try_except m (fun _ => Ok d) = Ok a.
Proof. destruct m; simpl; eauto. Qed.

Lemma process_focal_length_total raw : exists r, process_focal_length raw = Ok r.
Proof. apply try_except_default. Qed.

Lemma process_iso_value_total raw : exists r, process_iso_value raw = Ok r.
Proof. apply try_except_default. Qed.

Lemma process_aperture_total raw : exists r, process_aperture raw = Ok r.
Proof. apply try_except_default. Qed.

Lemma process_shutter_speed_total raw : exists r, process_shutter_speed raw = Ok r.
Proof. apply try_except_default. Qed.

(** ** ISO *)

Lemma iso_in_range_Some z z' :
  iso_in_range z = Some z' <-> z' = z /\ 50 <= z <= 512000.
Proof.
  unfold iso_in_range.
  destruct (50 <=? z) eqn:E1, (z <=? 512000) eqn:E2; simpl;
    split; intros Hx; try discriminate; try lia.
  - inversion Hx. lia.
  - destruct Hx as [-> _]. reflexivity.
Qed.

Lemma process_iso_value_first x l :
  process_iso_value (VTuple (x :: l))
  = Ok (match py_int x with Ok z => iso_in_range z | Raise _ => None end).
Proof.
  unfold process_iso_value, py_index. simpl.
  destruct (py_int x); reflexivity.
Qed.

Lemma process_iso_value_first_list x l :
  process_iso_value (VList (x :: l))
  = Ok (match py_int x with Ok z => iso_in_range z | Raise _ => None end).
Proof.
  unfold process_iso_value, py_index. simpl.
  destruct (py_int x); reflexivity.
Qed.

Lemma process_iso_value_str s :
  process_iso_value (VStr s)
  = Ok (match int_of_str s with Some z => iso_in_range z | None => None end).
Proof.
  unfold process_iso_value. simpl.
  destruct (int_of_str s); reflexivity.
Qed.

Lemma process_iso_value_range raw z :
  process_iso_value raw = Ok (Some z) -> 50 <= z <= 512000.
Proof.
  unfold process_iso_value.
  set (first := match raw with
                | VTuple l | VList l => py_index l 0
                | VStr _ => z0 ← py_int raw; Ok (VInt z0)
                | _ => Ok raw
                end).
  destruct first as [v|e]; simpl; [|discriminate].
  destruct (py_int v) as [z0|e]; simpl; [|discriminate].
  fold (iso_in_range z0). intros Hx. inversion Hx as [Hy].
  apply iso_in_range_Some in Hy. lia.
Qed.

Lemma digit_char_spec d :
  is_decimal_digit d ->
  is_digit (digit_char d) = true /\ digit_val (digit_char d) = d /\
  is_number_space (digit_char d) = false.
Proof.
  unfold is_decimal_digit. intros Hd.
  assert (Hc : d = 0 \/ d = 1 \/ d = 2 \/ d = 3 \/ d = 4 \/ d = 5 \/ d = 6 \/
               d = 7 \/ d = 8 \/ d = 9) by lia.
  repeat (destruct Hc as [->|Hc]; [repeat split; reflexivity|]).
  subst. repeat split; reflexivity.
Qed.

Lemma digitpart_digits ds : forall b,
  ds <> [] -> Forall is_decimal_digit ds ->
  digitpart b (digits_text ds) = Some ds.
Proof.
  induction ds as [|d ds IH]; intros b Hne Hds; [congruence|].
  inversion Hds as [|? ? Hd Hrest]; subst.
  destruct (digit_char_spec d Hd) as (Hdig & Hval & _).
  simpl. rewrite Hdig, Hval.
  destruct ds as [|d' ds']; [reflexivity|].
  rewrite (IH true) by (try discriminate; exact Hrest). reflexivity.
Qed.

Lemma digits_value_acc ds : forall a,
  fold_left (fun acc d => 10 * acc + d) ds a
  = a * 10 ^ Z.of_nat (length ds) + decimal_value ds.
Proof.
  induction ds as [|d ds IH]; intros a; simpl fold_left; simpl decimal_value.
  - simpl. lia.
  - rewrite IH. simpl length. rewrite Nat2Z.inj_succ, Z.pow_succ_r by lia. lia.
Qed.

Lemma digits_value_decimal ds : digits_value ds = decimal_value ds.
Proof. unfold digits_value. rewrite digits_value_acc. lia. Qed.

Lemma lstrip_number_app sp x :
  all_number_space sp = true -> lstrip_number (sp +:+ x) = lstrip_number x.
Proof.
  induction sp as [|c sp IH]; [reflexivity|].
  change (String c sp +:+ x) with (String c (sp +:+ x)). simpl.
  intros Hs. apply andb_true_iff in Hs. destruct Hs as [Hc Hs].
  rewrite Hc. apply IH, Hs.
Qed.

Lemma rstrip_number_space sp : all_number_space sp = true -> rstrip_number sp = EmptyString.
Proof.
  induction sp as [|c sp IH]; [reflexivity|]. simpl.
  intros Hs. apply andb_true_iff in Hs. destruct Hs as [Hc Hs].
  rewrite (IH Hs), Hc. reflexivity.
Qed.

Lemma rstrip_number_app x sp :
  all_number_space sp = true -> rstrip_number (x +:+ sp) = rstrip_number x.
Proof.
  intros Hs. induction x as [|c x IH]; [apply rstrip_number_space, Hs|].
  change (String c x +:+ sp) with (String c (x +:+ sp)). simpl.
  rewrite IH. reflexivity.
Qed.

Lemma rstrip_number_digits ds :
  Forall is_decimal_digit ds -> rstrip_number (digits_text ds) = digits_text ds.
Proof.
  induction 1 as [|d ds Hd Hds IH]; [reflexivity|].
  simpl. rewrite IH.
  destruct (digit_char_spec d Hd) as (_ & _ & Hsp). rewrite Hsp.
  destruct (digits_text ds); reflexivity.
Qed.

Lemma strip_number_digits before ds after :
  ds <> [] -> Forall is_decimal_digit ds ->
  all_number_space before = true -> all_number_space after = true ->
  strip_number (before +:+ digits_text ds +:+ after) = digits_text ds.
Proof.
  intros Hne Hds Hb Ha. unfold strip_number.
  rewrite lstrip_number_app by exact Hb.
  destruct ds as [|d ds]; [congruence|].
  inversion Hds as [|? ? Hd Hrest]; subst.
  destruct (digit_char_spec d Hd) as (_ & _ & Hsp).
  change (digits_text (d :: ds) +:+ after)
    with (String (digit_char d) (digits_text ds +:+ after)).
  simpl lstrip_number. rewrite Hsp.
  change (String (digit_char d) (digits_text ds +:+ after))
    with (digits_text (d :: ds) +:+ after).
  rewrite rstrip_number_app by exact Ha.
  apply rstrip_number_digits, Hds.
Qed.

Lemma split_sign_digits ds :
  ds <> [] -> Forall is_decimal_digit ds ->
  split_sign (digits_text ds) = (false, digits_text ds).
Proof.
  intros Hne Hds. destruct ds as [|d ds]; [congruence|].
  inversion Hds as [|? ? Hd _]; subst. unfold is_decimal_digit in Hd.
  assert (Hc : d = 0 \/ d = 1 \/ d = 2 \/ d = 3 \/ d = 4 \/ d = 5 \/ d = 6 \/
               d = 7 \/ d = 8 \/ d = 9) by lia.
  repeat (destruct Hc as [->|Hc]; [reflexivity|]). subst. reflexivity.
Qed.

(** A text that is a decimal numeral between whitespace is read as its
    value. *)
Lemma int_of_str_digits before ds after :
  ds <> [] -> Forall is_decimal_digit ds ->
  Z.of_nat (length ds) <= int_max_str_digits ->
  all_number_space before = true -> all_number_space after = true ->
  int_of_str (before +:+ digits_text ds +:+ after) = Some (decimal_value ds).
Proof.
  intros Hne Hds Hlen Hb Ha. unfold int_of_str.
  rewrite (strip_number_digits _ _ _ Hne Hds Hb Ha).
  rewrite (split_sign_digits _ Hne Hds).
  rewrite (digitpart_digits _ false Hne Hds).
  destruct (Z.ltb_spec int_max_str_digits (Z.of_nat (length ds))); [lia|].
  rewrite digits_value_decimal. reflexivity.
Qed.

(** C4: [process_iso_value] never raises; a plain integer is taken as it
    is, a text is parsed as an integer, of a list or pair the first element
    is taken; the integer is returned exactly when it lies in
    [50, 512000], otherwise the result is absent.  A text that is a
    decimal numeral, with or without whitespace around it, is read as the
    value of the numeral; the separators U+001C to U+001F are no such
    whitespace. *)
Theorem C4_process_iso_value :
  (forall raw, exists r, process_iso_value raw = Ok r) /\
  (forall z, process_iso_value (VInt z) = Ok (iso_in_range z)) /\
  (forall before ds after,
     ds <> [] -> Forall is_decimal_digit ds -> Z.of_nat (length ds) <= 4300 ->
     all_number_space before = true -> all_number_space after = true ->
     process_iso_value (VStr (before +:+ digits_text ds +:+ after))
     = Ok (iso_in_range (decimal_value ds))) /\
  (forall s, process_iso_value (VStr s)
             = Ok (match int_of_str s with
                   | Some z => iso_in_range z
                   | None => None
                   end)) /\
  (forall x l, process_iso_value (VTuple (x :: l))
               = Ok (match py_int x with
                     | Ok z => iso_in_range z
                     | Raise _ => None
                     end)) /\
  (forall x l, process_iso_value (VList (x :: l))
               = Ok (match py_int x with
                     | Ok z => iso_in_range z
                     | Raise _ => None
                     end)) /\
  (forall z l, process_iso_value (VTuple (VInt z :: l)) = Ok (iso_in_range z)) /\
  (forall z z', iso_in_range z = Some z' <-> z' = z /\ 50 <= z <= 512000) /\
  (forall raw z, process_iso_value raw = Ok (Some z) -> 50 <= z <= 512000) /\
  process_iso_value (VInt 25) = Ok None /\
  process_iso_value (VInt 50) = Ok (Some 50) /\
  process_iso_value (VInt 512000) = Ok (Some 512000) /\
  process_iso_value (VInt 512001) = Ok None /\
  process_iso_value (VStr "abc") = Ok None /\
  process_iso_value (VTuple []) = Ok None /\
  process_iso_value VNone = Ok None /\
  process_iso_value (VStr "100") = Ok (Some 100) /\
  process_iso_value (VStr "+400") = Ok (Some 400) /\
  process_iso_value (VStr " 1_600 ") = Ok (Some 1600) /\
  process_iso_value (VStr (String (ascii_of_N 9) "200" +:+ String (ascii_of_N 10) ""))
  = Ok (Some 200) /\
  process_iso_value (VStr (String (ascii_of_N 160) "800")) = Ok (Some 800) /\
  process_iso_value (VStr (String (ascii_of_N 28) "100")) = Ok None /\
  process_iso_value (VStr "100.0") = Ok None /\
  process_iso_value (VStr "1__00") = Ok None /\
  process_iso_value (VStr "-100") = Ok None /\
  process_iso_value (VStr "49") = Ok None /\
  process_iso_value (VStr "") = Ok None /\
  process_iso_value (VFloat 100.7) = Ok (Some 100) /\
  process_iso_value (VTuple [VStr "200"; VInt 1]) = Ok (Some 200) /\
  process_iso_value (VList [VInt 400; VInt 1]) = Ok (Some 400).
Proof.
  split; [exact process_iso_value_total|].
  split; [reflexivity|].
  split.
  { intros before ds after Hne Hds Hlen Hb Ha. rewrite process_iso_value_str.
    rewrite (int_of_str_digits _ _ _ Hne Hds Hlen Hb Ha). reflexivity. }
  split; [exact process_iso_value_str|].
  split; [exact process_iso_value_first|].
  split; [exact process_iso_value_first_list|].
  split; [intros z l; rewrite process_iso_value_first; reflexivity|].
  split; [exact iso_in_range_Some|].
  split; [exact process_iso_value_range|].
  repeat split; vm_compute; reflexivity.
Qed.

(** ** Rational pairs and scalars *)

(** [div_half_even] is a nearest integer, and the even one on a tie. *)
Lemma div_half_even_nearest num den :
  0 < den ->
  2 * Z.abs (div_half_even num den * den - num) <= den /\
  (2 * Z.abs (div_half_even num den * den - num) = den ->
   Z.even (div_half_even num den) = true).
Proof.
  intros Hden. unfold div_half_even.
  pose proof (Z.div_mod num den ltac:(lia)) as Hdm.
  pose proof (Z.mod_pos_bound num den Hden) as Hr.
  set (q := num / den) in *. set (r := num mod den) in *.
  destruct (Z.compare_spec (2 * r) den) as [He|Hl|Hg].
  - destruct (Z.even q) eqn:Ev.
    + split; [lia|intros _; exact Ev].
    + split; [lia|]. intros _.
      rewrite Z.even_add, Ev. reflexivity.
  - split; lia.
  - split; lia.
Qed.

Lemma math_isnan_number v f :
  py_float v = Ok f -> math_isnan v = Ok (is_nan f).
Proof. unfold math_isnan. intros ->. reflexivity. Qed.

Lemma py_eq_zero_float v f :
  is_number v = true -> py_float v = Ok f -> py_eq_zero v = true -> is_zero f = true.
Proof.
  destruct v; try discriminate; simpl; intros _ Hf Hz.
  - apply Z.eqb_eq in Hz. subst z. vm_compute in Hf. inversion Hf. reflexivity.
  - inversion Hf. subst. exact Hz.
Qed.

Lemma tuple_quotient_pair n d fn fd :
  is_number n = true -> is_number d = true ->
  py_float n = Ok fn -> py_float d = Ok fd ->
  try_except (oq ← tuple_quotient [n; d]; Ok oq) (fun _ => Ok None)
  = Ok (if is_nan fn || is_nan fd || is_zero fd then None else Some (fn / fd)%float).
Proof.
  intros Hn Hd Hfn Hfd.
  unfold tuple_quotient. simpl any_nan.
  rewrite Hn, Hd, (math_isnan_number _ _ Hfn), (math_isnan_number _ _ Hfd).
  simpl. destruct (is_nan fn); simpl; [reflexivity|].
  destruct (is_nan fd); simpl; [reflexivity|].
  unfold py_index. simpl.
  destruct (py_eq_zero d) eqn:Hz.
  - rewrite (py_eq_zero_float _ _ Hd Hfd Hz). reflexivity.
  - rewrite Hfn, Hfd. simpl. unfold py_truediv.
    destruct (is_zero fd); reflexivity.
Qed.

Lemma tuple_quotient_cases n d fn fd :
  is_number n = true -> is_number d = true ->
  py_float n = Ok fn -> py_float d = Ok fd ->
  (is_nan fn || is_nan fd || is_zero fd = true /\
   (tuple_quotient [n; d] = Ok None \/ exists e, tuple_quotient [n; d] = Raise e)) \/
  (is_nan fn || is_nan fd || is_zero fd = false /\
   tuple_quotient [n; d] = Ok (Some (fn / fd)%float)).
Proof.
  intros Hn Hd Hfn Hfd.
  pose proof (tuple_quotient_pair n d fn fd Hn Hd Hfn Hfd) as H.
  destruct (is_nan fn || is_nan fd || is_zero fd) eqn:E; [left|right]; split; trivial.
  - destruct (tuple_quotient [n; d]) as [[q|]|e]; simpl in H; eauto; discriminate.
  - destruct (tuple_quotient [n; d]) as [[q|]|e]; simpl in H; congruence.
Qed.

(** [round] has a value on every finite float. *)
Lemma py_round_finite q :
  is_nan q = false -> is_infinity q = false -> exists r, py_round q = Ok r.
Proof.
  intros Hn Hi. unfold py_round, float_parts, Prim2SF. rewrite Hn, Hi.
  destruct (is_zero q); [eauto|].
  destruct (Z.frexp q) as [m e].
  destruct (shr_fexp prec emax (Uint63.to_Z (normfr_mantissa m)) (e - prec) loc_Exact)
    as [mrs e'].
  destruct (shr_m mrs); eauto.
Qed.

(** Rounding to [ndigits] decimals: the float nearest to [k / 10^ndigits],
    where [k] is the integer nearest to the exact value times
    [10^ndigits], the even one on a tie. *)
Lemma py_round_ndigits_nearest q nd s m e :
  Prim2SF q = S754_finite s m e -> 0 <= nd ->
  exists k,
    py_round_ndigits q nd = float_of_ratio s k (10 ^ nd) /\
    let num := Zpos m * 10 ^ nd * 2 ^ Z.max 0 e in
    let den := 2 ^ Z.max 0 (- e) in
    2 * Z.abs (k * den - num) <= den /\
    (2 * Z.abs (k * den - num) = den -> Z.even k = true).
Proof.
  intros Hq Hnd. unfold py_round_ndigits. rewrite Hq.
  destruct (Z.leb_spec 0 e) as [He|He].
  - exists (Zpos m * 2 ^ e * 10 ^ nd). split; [reflexivity|].
    rewrite (Z.max_r 0 e), (Z.max_l 0 (- e)) by lia.
    change (2 ^ 0) with 1. cbv zeta.
    replace (Zpos m * 2 ^ e * 10 ^ nd * 1 - Zpos m * 10 ^ nd * 2 ^ e) with 0 by ring.
    simpl Z.abs. split; [lia|]. intros Hx. discriminate Hx.
  - exists (div_half_even (Zpos m * 10 ^ nd) (2 ^ (- e))). split; [reflexivity|].
    rewrite (Z.max_l 0 e), (Z.max_r 0 (- e)) by lia.
    change (2 ^ 0) with 1. cbv zeta. rewrite Z.mul_1_r.
    apply div_half_even_nearest. apply Z.pow_pos_nonneg; lia.
Qed.

(** Zeros, infinities and not-a-number are left as they are. *)
Lemma py_round_ndigits_special q nd :
  (forall s m e, Prim2SF q <> S754_finite s m e) -> py_round_ndigits q nd = q.
Proof.
  intros Hq. unfold py_round_ndigits.
  destruct (Prim2SF q) as [| | |s m e] eqn:E; try reflexivity.
  destruct (Hq s m e eq_refl).
Qed.

Lemma rational_pair_and_scalar (n d : pyval) (fn fd : float) :
  is_number n = true -> is_number d = true ->
  py_float n = Ok fn -> py_float d = Ok fd ->
  (process_focal_length (VTuple [n; d])
   = Ok (if is_nan fn || is_nan fd || is_zero fd then None
         else round_or_absent (fn / fd))) /\
  (process_aperture (VTuple [n; d])
   = Ok (if is_nan fn || is_nan fd || is_zero fd then None
         else Some (py_round_ndigits (fn / fd) 1))) /\
  (process_shutter_speed (VTuple [n; d])
   = Ok (if is_nan fn || is_nan fd || is_zero fd then None
         else Some (py_round_ndigits (fn / fd) 4))) /\
  (process_focal_length n = Ok (if is_nan fn then None else round_or_absent fn)) /\
  (forall q, is_nan q = false -> is_infinity q = false ->
     exists r, py_round q = Ok r /\ round_or_absent q = Some r) /\
  (process_aperture n = Ok (if is_nan fn then None else Some (py_round_ndigits fn 1))) /\
  (process_shutter_speed n
   = Ok (if is_nan fn then None else Some (py_round_ndigits fn 4))) /\
  (forall q r, py_round q = Ok r ->
     is_nan q = false /\ is_infinity q = false /\
     exists s m e, float_parts q = Some (s, m, e) /\
       r = (if s then -1 else 1)
           * (if 0 <=? e then m * 2 ^ e else div_half_even m (2 ^ (- e)))) /\
  (forall num den, 0 < den ->
     2 * Z.abs (div_half_even num den * den - num) <= den /\
     (2 * Z.abs (div_half_even num den * den - num) = den ->
      Z.even (div_half_even num den) = true)).
Proof.
  intros Hn Hd Hfn Hfd.
  assert (Hscalar : scalar_isnan n = Ok (is_nan fn)).
  { unfold scalar_isnan. rewrite Hn. apply math_isnan_number, Hfn. }
  pose proof (tuple_quotient_cases n d fn fd Hn Hd Hfn Hfd) as Hq.
  repeat split.
  - unfold process_focal_length. simpl scalar_isnan. simpl.
    destruct Hq as [[-> [Hq|[e Hq]]]|[-> Hq]]; rewrite Hq; simpl; try reflexivity.
    unfold round_or_absent. destruct (py_round (fn / fd)); reflexivity.
  - unfold process_aperture. simpl scalar_isnan. simpl.
    destruct Hq as [[-> [Hq|[e Hq]]]|[-> Hq]]; rewrite Hq; reflexivity.
  - unfold process_shutter_speed. simpl scalar_isnan. simpl.
    destruct Hq as [[-> [Hq|[e Hq]]]|[-> Hq]]; rewrite Hq; reflexivity.
  - unfold process_focal_length. rewrite Hscalar. simpl.
    destruct (is_nan fn); [reflexivity|].
    destruct n; try discriminate Hn; cbv beta iota; rewrite Hfn; simpl;
      unfold round_or_absent; destruct (py_round fn); reflexivity.
  - intros q Hq1 Hq2. destruct (py_round_finite q Hq1 Hq2) as [r Hr]. exists r.
    unfold round_or_absent. rewrite Hr. auto.
  - unfold process_aperture. rewrite Hscalar. simpl.
    destruct (is_nan fn); [reflexivity|].
    destruct n; try discriminate Hn; cbv beta iota; rewrite Hfn; reflexivity.
  - unfold process_shutter_speed. rewrite Hscalar. simpl.
    destruct (is_nan fn); [reflexivity|].
    destruct n; try discriminate Hn; cbv beta iota; rewrite Hfn; reflexivity.
  - unfold py_round in H. destruct (is_nan q); [discriminate|reflexivity].
  - unfold py_round in H. destruct (is_nan q); [discriminate|].
    destruct (is_infinity q); [discriminate|reflexivity].
  - unfold py_round in H. destruct (is_nan q); [discriminate|].
    destruct (is_infinity q); [discriminate|].
    destruct (float_parts q) as [[[s m] e]|]; [|discriminate].
    exists s, m, e. split; [reflexivity|].
    inversion H. destruct s; lia.
  - apply div_half_even_nearest; assumption.
  - apply div_half_even_nearest; assumption.
Qed.

(** Rounded values of some pairs, scalars and texts. *)
Lemma rounding_examples :
  process_aperture (VTuple [VInt 1; VInt 3]) = Ok (Some 0.3%float) /\
  process_aperture (VTuple [VInt 7; VInt 2]) = Ok (Some 3.5%float) /\
  process_aperture (VFloat 0.25) = Ok (Some 0.2%float) /\
  process_aperture (VFloat 0.35) = Ok (Some 0.3%float) /\
  process_aperture (VFloat 0.75) = Ok (Some 0.8%float) /\
  process_aperture (VStr " 3.5 ") = Ok (Some 3.5%float) /\
  process_aperture (VStr (String (ascii_of_N 28) "35")) = Ok None /\
  process_shutter_speed (VTuple [VInt 2; VInt 3]) = Ok (Some 0.6667%float) /\
  process_shutter_speed (VTuple [VInt 1; VInt 60]) = Ok (Some 0.0167%float) /\
  process_shutter_speed (VTuple [VInt 1; VInt 8000]) = Ok (Some 0.0001%float) /\
  process_shutter_speed (VFloat 0.00015) = Ok (Some 0.0001%float) /\
  process_shutter_speed (VFloat 1.00005) = Ok (Some 1.0001%float) /\
  process_focal_length (VTuple [VInt 505; VInt 10]) = Ok (Some 50) /\
  process_focal_length (VTuple [VInt 515; VInt 10]) = Ok (Some 52) /\
  process_focal_length (VFloat 2.5) = Ok (Some 2) /\
  process_focal_length (VFloat 3.5) = Ok (Some 4).
Proof. repeat split; vm_compute; reflexivity. Qed.

(** C5: for a pair of numbers [(n, d)] with float values [fn] and [fd],
    the three rational normalisers return absent when a component is
    not-a-number or [d] is zero, and otherwise the quotient [fn / fd]
    rounded: to the nearest integer for the focal length (absent where the
    quotient has no nearest integer), to 1 decimal for the aperture, to 4
    decimals for the shutter speed.  A scalar number that is not
    not-a-number is rounded in the same way.  Rounding to decimals gives
    the float nearest to [k / 10^ndigits], [k] being the integer nearest
    to the exact value times [10^ndigits], the even one on a tie. *)
Theorem C5_rational_pair_and_scalar (n d : pyval) (fn fd : float) :
  is_number n = true -> is_number d = true ->
  py_float n = Ok fn -> py_float d = Ok fd ->
  (process_focal_length (VTuple [n; d])
   = Ok (if is_nan fn || is_nan fd || is_zero fd then None
         else round_or_absent (fn / fd))) /\
  (process_aperture (VTuple [n; d])
   = Ok (if is_nan fn || is_nan fd || is_zero fd then None
         else Some (py_round_ndigits (fn / fd) 1))) /\
  (process_shutter_speed (VTuple [n; d])
   = Ok (if is_nan fn || is_nan fd || is_zero fd then None
         else Some (py_round_ndigits (fn / fd) 4))) /\
  (process_focal_length n = Ok (if is_nan fn then None else round_or_absent fn)) /\
  (forall q, is_nan q = false -> is_infinity q = false ->
     exists r, py_round q = Ok r /\ round_or_absent q = Some r) /\
  (process_aperture n = Ok (if is_nan fn then None else Some (py_round_ndigits fn 1))) /\
  (process_shutter_speed n
   = Ok (if is_nan fn then None else Some (py_round_ndigits fn 4))) /\
  (forall q r, py_round q = Ok r ->
     is_nan q = false /\ is_infinity q = false /\
     exists s m e, float_parts q = Some (s, m, e) /\
       r = (if s then -1 else 1)
           * (if 0 <=? e then m * 2 ^ e else div_half_even m (2 ^ (- e)))) /\
  (forall num den, 0 < den ->
     2 * Z.abs (div_half_even num den * den - num) <= den /\
     (2 * Z.abs (div_half_even num den * den - num) = den ->
      Z.even (div_half_even num den) = true)) /\
  (forall q nd s m e, Prim2SF q = S754_finite s m e -> 0 <= nd ->
     exists k,
       py_round_ndigits q nd = float_of_ratio s k (10 ^ nd) /\
       let num := Zpos m * 10 ^ nd * 2 ^ Z.max 0 e in
       let den := 2 ^ Z.max 0 (- e) in
       2 * Z.abs (k * den - num) <= den /\
       (2 * Z.abs (k * den - num) = den -> Z.even k = true)) /\
  (forall q nd, (forall s m e, Prim2SF q <> S754_finite s m e) ->
     py_round_ndigits q nd = q) /\
  process_aperture (VTuple [VInt 1; VInt 3]) = Ok (Some 0.3%float) /\
  process_aperture (VTuple [VInt 7; VInt 2]) = Ok (Some 3.5%float) /\
  process_aperture (VFloat 0.25) = Ok (Some 0.2%float) /\
  process_aperture (VFloat 0.35) = Ok (Some 0.3%float) /\
  process_aperture (VFloat 0.75) = Ok (Some 0.8%float) /\
  process_aperture (VStr " 3.5 ") = Ok (Some 3.5%float) /\
  process_aperture (VStr (String (ascii_of_N 28) "35")) = Ok None /\
  process_shutter_speed (VTuple [VInt 2; VInt 3]) = Ok (Some 0.6667%float) /\
  process_shutter_speed (VTuple [VInt 1; VInt 60]) = Ok (Some 0.0167%float) /\
  process_shutter_speed (VTuple [VInt 1; VInt 8000]) = Ok (Some 0.0001%float) /\
  process_shutter_speed (VFloat 0.00015) = Ok (Some 0.0001%float) /\
  process_shutter_speed (VFloat 1.00005) = Ok (Some 1.0001%float) /\
  process_focal_length (VTuple [VInt 505; VInt 10]) = Ok (Some 50) /\
  process_focal_length (VTuple [VInt 515; VInt 10]) = Ok (Some 52) /\
  process_focal_length (VFloat 2.5) = Ok (Some 2) /\
  process_focal_length (VFloat 3.5) = Ok (Some 4).
Proof.
  intros Hn Hd Hfn Hfd.
  destruct (rational_pair_and_scalar n d fn fd Hn Hd Hfn Hfd)
    as (H1 & H2 & H3 & H4 & H5 & H6 & H7 & H8 & H9).
  do 9 (split; [assumption|]).
  split; [exact py_round_ndigits_nearest|].
  split; [exact py_round_ndigits_special|].
  exact rounding_examples.
Qed.

Lemma C5_witness :
  process_focal_length (VTuple [VInt 505; VInt 10]) = Ok (Some 50) /\
  process_aperture (VTuple [VInt 28; VInt 10]) = Ok (Some 2.8%float) /\
  process_aperture (VTuple [VInt 1; VInt 3]) = Ok (Some 0.3%float) /\
  process_shutter_speed (VTuple [VInt 2; VInt 3]) = Ok (Some 0.6667%float) /\
  process_aperture (VTuple [VInt 28; VInt 0]) = Ok None /\
  process_shutter_speed (VFloat 0.00123456) = Ok (Some 0.0012%float).
Proof.
  split; [|split; [|split; [|split; [|split]]]].
  - exact (proj1 (C5_rational_pair_and_scalar (VInt 505) (VInt 10) 505%float 10%float
                    eq_refl eq_refl eq_refl eq_refl)).
  - exact (proj1 (proj2 (C5_rational_pair_and_scalar (VInt 28) (VInt 10) 28%float 10%float
                    eq_refl eq_refl eq_refl eq_refl))).
  - exact (proj1 (proj2 (C5_rational_pair_and_scalar (VInt 1) (VInt 3) 1%float 3%float
                    eq_refl eq_refl eq_refl eq_refl))).
  - exact (proj1 (proj2 (proj2 (C5_rational_pair_and_scalar (VInt 2) (VInt 3)
                    2%float 3%float eq_refl eq_refl eq_refl eq_refl)))).
  - exact (proj1 (proj2 (C5_rational_pair_and_scalar (VInt 28) (VInt 0) 28%float 0%float
                    eq_refl eq_refl eq_refl eq_refl))).
  - destruct (C5_rational_pair_and_scalar (VFloat 0.00123456) (VInt 1)
                0.00123456%float 1%float eq_refl eq_refl eq_refl eq_refl)
      as (_ & _ & _ & _ & _ & _ & H & _).
    exact H.
Defined.

(** ** Capture dates *)

Lemma directive_of_raises c e : directive_of c = Raise e -> e = ValueError.
Proof.
  unfold directive_of.
  repeat match goal with |- context [if ?b then _ else _] => destruct b end;
    intros Hx; inversion Hx; reflexivity.
Qed.

Lemma parse_format_raises_aux n :
  forall fmt e, (String.length fmt <= n)%nat ->
    parse_format fmt = Raise e -> e = ValueError.
Proof.
  induction n as [|n IH]; intros fmt e Hlen.
  - destruct fmt; simpl in Hlen; [discriminate|lia].
  - destruct fmt as [|c rest]; [discriminate|]. simpl in Hlen. simpl.
    destruct (code c =? 37)%N.
    + destruct rest as [|x rest']; [intros Hx; inversion Hx; reflexivity|].
      simpl in Hlen.
      destruct (directive_of x) as [d|e'] eqn:Hd; simpl.
      * destruct (parse_format rest') as [items|e'] eqn:Hp; simpl.
        -- discriminate.
        -- intros Hx. inversion Hx. subst. apply (IH rest'); [lia|exact Hp].
      * intros Hx. inversion Hx. subst. eapply directive_of_raises, Hd.
    + destruct (parse_format rest) as [items|e'] eqn:Hp; simpl.
      * destruct (is_space c); discriminate.
      * intros Hx. inversion Hx. subst. apply (IH rest); [lia|exact Hp].
Qed.

Lemma group_int_raises d z found e :
  group_int d z found = Raise e -> e = ValueError.
Proof.
  unfold group_int. destruct (group d found); [|discriminate].
  destruct (int_of_str s); [discriminate|].
  intros Hx. inversion Hx. reflexivity.
Qed.

Lemma make_datetime_raises y m d H M S e :
  make_datetime y m d H M S = Raise e -> e = ValueError.
Proof.
  unfold make_datetime.
  match goal with |- context [if ?b then _ else _] => destruct b end;
    [discriminate|]. intros Hx. inversion Hx. reflexivity.
Qed.

(** [strptime] on a [str] raises nothing but [ValueError]. *)
Lemma strptime_raises s fmt e : strptime s fmt = Raise e -> e = ValueError.
Proof.
  unfold strptime.
  destruct (parse_format fmt) as [items|e'] eqn:Hp; simpl.
  2:{ intros Hx. inversion Hx. subst.
      eapply parse_format_raises_aux; [reflexivity|exact Hp]. }
  destruct (match_items items s) as [|[found rest] ms].
  { intros Hx. inversion Hx. reflexivity. }
  destruct rest; [|intros Hx; inversion Hx; reflexivity].
  repeat match goal with
         | |- (mbind _ (group_int ?d ?z ?f)) = _ -> _ =>
             let Hg := fresh "Hg" in
             destruct (group_int d z f) eqn:Hg; simpl;
             [|intros Hx; inversion Hx; subst; eapply group_int_raises, Hg]
         end.
  apply make_datetime_raises.
Qed.

Lemma try_formats_total s fmts : exists r, try_formats s fmts = Ok r.
Proof.
  induction fmts as [|fmt fmts IH]; simpl; [eauto|].
  destruct (strptime s fmt) as [dt|e] eqn:Hs; simpl; [eauto|].
  rewrite (strptime_raises _ _ _ Hs). exact IH.
Qed.

Lemma try_formats_Some s fmts dt :
  try_formats s fmts = Ok (Some dt) <->
  exists i fmt, fmts !! i = Some fmt /\ strptime s fmt = Ok dt /\
    forall j fmt', (j < i)%nat -> fmts !! j = Some fmt' ->
                   strptime s fmt' = Raise ValueError.
Proof.
  induction fmts as [|fmt fmts IH]; simpl.
  - split; [discriminate|]. intros (i & f & Hi & _). destruct i; discriminate.
  - destruct (strptime s fmt) as [dt'|e] eqn:Hs; simpl.
    + split.
      * intros Hx. inversion Hx. subst. exists 0%nat, fmt.
        split; [reflexivity|]. split; [exact Hs|]. intros j f Hj. lia.
      * intros (i & f & Hi & Hok & Hbefore). destruct i as [|i].
        -- simpl in Hi. inversion Hi. subst. congruence.
        -- specialize (Hbefore 0%nat fmt ltac:(lia) eq_refl). congruence.
    + pose proof (strptime_raises _ _ _ Hs) as He. subst e. simpl. rewrite IH. split.
      * intros (i & f & Hi & Hok & Hbefore). exists (S i), f.
        split; [exact Hi|]. split; [exact Hok|].
        intros [|j] f' Hj Hf'; simpl in Hf'.
        -- inversion Hf'. subst. exact Hs.
        -- apply (Hbefore j); [lia|exact Hf'].
      * intros (i & f & Hi & Hok & Hbefore). destruct i as [|i].
        -- simpl in Hi. inversion Hi. subst. congruence.
        -- exists i, f. split; [exact Hi|]. split; [exact Hok|].
           intros j f' Hj Hf'. apply (Hbefore (S j)); [lia|exact Hf'].
Qed.

Lemma try_formats_None s fmts :
  try_formats s fmts = Ok None <->
  forall fmt, In fmt fmts -> strptime s fmt = Raise ValueError.
Proof.
  induction fmts as [|fmt fmts IH]; simpl.
  - split; [intros _ f []|reflexivity].
  - destruct (strptime s fmt) as [dt'|e] eqn:Hs; simpl.
    + split; [discriminate|]. intros Hall.
      specialize (Hall fmt (or_introl eq_refl)). congruence.
    + pose proof (strptime_raises _ _ _ Hs) as He. subst e. simpl. rewrite IH. split.
      * intros Hall f [<-|Hin]; [exact Hs|apply Hall, Hin].
      * intros Hall f Hin. apply Hall. right. exact Hin.
Qed.

Lemma try_parse_date_str s :
  try_parse_date (VStr s) = try_formats (strip (remove_nul s)) date_formats.
Proof. destruct s; reflexivity. Qed.

Lemma try_parse_date_total v : exists r, try_parse_date v = Ok r.
Proof.
  destruct v; try (simpl; eauto; fail).
  rewrite try_parse_date_str. apply try_formats_total.
Qed.

(** [remove_nul] keeps the other characters, in their order. *)
Lemma remove_nul_filter s :
  list_ascii_of_string (remove_nul s)
  = List.filter (fun c => negb (code c =? 0)%N) (list_ascii_of_string s).
Proof.
  induction s as [|c s IH]; [reflexivity|]. simpl.
  destruct (code c =? 0)%N; simpl; rewrite IH; reflexivity.
Qed.

Lemma lstrip_split s :
  exists before,
    s = before +:+ lstrip s /\ all_space before = true /\
    starts_with_space (lstrip s) = false.
Proof.
  induction s as [|c s (before & Hs & Hb & Hl)].
  - exists EmptyString. repeat split.
  - simpl lstrip. destruct (is_space c) eqn:Hc.
    + exists (String c before). split; [|split; [|exact Hl]].
      * change (String c before +:+ lstrip s) with (String c (before +:+ lstrip s)).
        rewrite <- Hs. reflexivity.
      * simpl. rewrite Hc, Hb. reflexivity.
    + exists EmptyString. split; [reflexivity|]. split; [reflexivity|exact Hc].
Qed.

Lemma rstrip_split s :
  exists after,
    s = rstrip s +:+ after /\ all_space after = true /\
    ends_with_space (rstrip s) = false.
Proof.
  induction s as [|c s (after & Hs & Ha & Hr)].
  - exists EmptyString. repeat split.
  - simpl rstrip. destruct (rstrip s) as [|c' r] eqn:Hrs.
    + change (EmptyString +:+ after) with after in Hs. subst s.
      destruct (is_space c) eqn:Hc.
      * exists (String c after). split; [reflexivity|]. split; [|reflexivity].
        simpl. rewrite Hc, Ha. reflexivity.
      * exists after. split; [reflexivity|]. split; [exact Ha|]. simpl. exact Hc.
    + exists after. split; [|split; [exact Ha|exact Hr]].
      change (String c (String c' r) +:+ after)
        with (String c (String c' r +:+ after)).
      rewrite <- Hs. reflexivity.
Qed.

Lemma rstrip_keeps_start s :
  starts_with_space s = false -> starts_with_space (rstrip s) = false.
Proof.
  destruct s as [|c s]; [reflexivity|]. simpl. intros Hc.
  destruct (rstrip s); [rewrite Hc|]; simpl; exact Hc.
Qed.

(** [strip] takes away the whitespace at both ends, and nothing else. *)
Lemma strip_split s :
  exists before after,
    s = before +:+ strip s +:+ after /\
    all_space before = true /\ all_space after = true /\
    starts_with_space (strip s) = false /\ ends_with_space (strip s) = false.
Proof.
  destruct (lstrip_split s) as (before & Hs & Hb & Hl).
  destruct (rstrip_split (lstrip s)) as (after & Hs' & Ha & Hr).
  exists before, after. unfold strip.
  split; [rewrite <- Hs'; exact Hs|].
  split; [exact Hb|]. split; [exact Ha|].
  split; [apply rstrip_keeps_start, Hl|exact Hr].
Qed.

(** C6: [try_parse_date] returns absent for a value that is not a text;
    for a text it removes the null characters, strips the surrounding
    whitespace and returns the date-time of the first of the five formats,
    in their order, that [strptime] accepts, and absent when none does.
    Removing the null characters keeps all the other characters in their
    order; stripping takes away the whitespace at both ends and nothing
    else. *)
Theorem C6_try_parse_date :
  date_formats
  = ["%Y:%m:%d %H:%M:%S"; "%Y-%m-%d %H:%M:%S"; "%Y%m%d_%H%M%S";
     "%Y_%m_%d %H:%M:%S"; "%Y%m%d%H%M%S"]%string /\
  (forall s,
     list_ascii_of_string (remove_nul s)
     = List.filter (fun c => negb (code c =? 0)%N) (list_ascii_of_string s)) /\
  (forall s, exists before after,
     s = before +:+ strip s +:+ after /\
     all_space before = true /\ all_space after = true /\
     starts_with_space (strip s) = false /\ ends_with_space (strip s) = false) /\
  (forall v, (forall s, v <> VStr s) -> try_parse_date v = Ok None) /\
  (forall v, exists r, try_parse_date v = Ok r) /\
  (forall s dt,
     try_parse_date (VStr s) = Ok (Some dt) <->
     exists i fmt,
       date_formats !! i = Some fmt /\
       strptime (strip (remove_nul s)) fmt = Ok dt /\
       forall j fmt', (j < i)%nat -> date_formats !! j = Some fmt' ->
                      strptime (strip (remove_nul s)) fmt' = Raise ValueError) /\
  (forall s,
     try_parse_date (VStr s) = Ok None <->
     forall fmt, In fmt date_formats ->
                 strptime (strip (remove_nul s)) fmt = Raise ValueError) /\
  try_parse_date (VStr "2023:05:01 10:20:30")
  = Ok (Some (mk_datetime 2023 5 1 10 20 30)) /\
  try_parse_date (VStr "not a date") = Ok None /\
  try_parse_date
    (VStr (String (ascii_of_N 0) " 2023:05:01 10:20:30"
           +:+ String (ascii_of_N 10) (String (ascii_of_N 0) " ")))
  = Ok (Some (mk_datetime 2023 5 1 10 20 30)) /\
  try_parse_date (VStr ("2023:05" +:+ String (ascii_of_N 0) ":01 10:20:30"))
  = Ok (Some (mk_datetime 2023 5 1 10 20 30)) /\
  try_parse_date (VStr ("2023:05:01" +:+ String (ascii_of_N 28) "10:20:30"))
  = Ok (Some (mk_datetime 2023 5 1 10 20 30)) /\
  try_parse_date (VStr "2023:05:01 10:20:30 x") = Ok None /\
  try_parse_date (VStr "") = Ok None.
Proof.
  split; [reflexivity|].
  split; [exact remove_nul_filter|].
  split; [exact strip_split|].
  split.
  { intros v Hv. destruct v; try reflexivity. exfalso. apply (Hv s). reflexivity. }
  split; [exact try_parse_date_total|].
  split.
  { intros s dt. rewrite try_parse_date_str. apply try_formats_Some. }
  split.
  { intros s. rewrite try_parse_date_str. apply try_formats_None. }
  repeat split; vm_compute; reflexivity.
Qed.

(** ** Median focal length *)

Lemma int_index_nth (l : list Z) i :
  (i < length l)%nat -> int_index l i = Ok (nth i l 0).
Proof.
  intros Hi. unfold int_index.
  destruct (l !! i) as [v|] eqn:Hl.
  - f_equal. symmetry. apply nth_lookup_Some with (d := 0) in Hl. exact Hl.
  - apply lookup_ge_None in Hl. lia.
Qed.

Lemma even_mod2 n : (n mod 2 =? 0)%nat = Nat.even n.
Proof.
  destruct (Nat.even n) eqn:E.
  - apply Nat.even_spec in E. destruct E as [k ->].
    apply Nat.eqb_eq. rewrite Nat.mul_comm. apply Nat.Div0.mod_mul.
  - apply Nat.eqb_neq. intros Hm.
    assert (Nat.even n = true); [|congruence].
    apply Nat.even_spec. exists (n / 2)%nat.
    pose proof (Nat.div_mod_eq n 2). lia.
Qed.

Lemma median_sorted_eq (fl sorted : list Z) :
  Sorted Z.le sorted ->
  sorted ≡ₚ filter (fun f => f ≠ 0) fl ->
  merge_sort Z.le (filter (fun f => f ≠ 0) fl) = sorted.
Proof.
  intros Hs Hp. apply (Sorted_unique Z.le).
  - apply (Sorted_merge_sort Z.le).
  - exact Hs.
  - rewrite merge_sort_Permutation. symmetry. exact Hp.
Qed.

Lemma focal_length_median_sorted (st : agg) (sorted : list Z) :
  Sorted Z.le sorted ->
  sorted ≡ₚ filter (fun f => f ≠ 0) (focal_lengths st) ->
  focal_length_median st = median_of_sorted sorted.
Proof.
  intros Hs Hp.
  unfold focal_length_median.
  rewrite (median_sorted_eq _ _ Hs Hp).
  destruct (filter (fun f => f ≠ 0) (focal_lengths st)) as [|x valid] eqn:Hv.
  - apply Permutation_nil_r in Hp. subst sorted. reflexivity.
  - destruct sorted as [|y sorted'] eqn:Hsorted.
    { symmetry in Hp. apply Permutation_nil_r in Hp. discriminate. }
    rewrite <- Hsorted. unfold median_of_sorted.
    assert (Hlen : (0 < length sorted)%nat) by (subst sorted; simpl; lia).
    destruct sorted as [|y' s'] eqn:Hsorted'; [simpl in Hlen; lia|].
    rewrite <- Hsorted' in *. clear Hsorted Hsorted'.
    rewrite even_mod2.
    pose proof (Nat.div_mod_eq (length sorted) 2) as Hdm.
    pose proof (Nat.mod_upper_bound (length sorted) 2 ltac:(lia)) as Hm.
    destruct (Nat.even (length sorted)) eqn:Ev.
    + assert (Hmod : (length sorted mod 2 = 0)%nat).
      { apply Nat.eqb_eq. rewrite even_mod2. exact Ev. }
      rewrite !int_index_nth by lia. reflexivity.
    + rewrite int_index_nth by lia. reflexivity.
Qed.

(** C8: the median is taken over the non-zero focal lengths in ascending
    order: for any ascending arrangement [sorted] of them, the result is its
    middle element for an odd count, the average of its two middle elements
    for an even count, and 0 when there is none. *)
Theorem C8_focal_length_median (st : agg) (sorted : list Z) :
  Sorted Z.le sorted ->
  sorted ≡ₚ filter (fun f => f ≠ 0) (focal_lengths st) ->
  focal_length_median st = median_of_sorted sorted /\
  focal_length_median (with_focal_lengths [24; 35; 50]) = Ok (VInt 35) /\
  focal_length_median (with_focal_lengths [24; 35]) = Ok (VFloat 29.5) /\
  focal_length_median (with_focal_lengths []) = Ok (VInt 0).
Proof.
  intros Hs Hp. split; [|repeat split; vm_compute; reflexivity].
  apply focal_length_median_sorted; assumption.
Qed.

Lemma C8_witness :
  focal_length_median (with_focal_lengths [50; 24; 0; 35]) = Ok (VInt 35).
Proof.
  refine (proj1 (C8_focal_length_median
                   (with_focal_lengths [50; 24; 0; 35]) [24; 35; 50] _ _)).
  - repeat constructor; lia.
  - vm_compute. symmetry. apply (Permutation_cons_append [24; 35] 50).
Defined.

(** ** Counters: what [dict_incr] does to the entries *)

Section DictFacts.
Context {K : Type} `{PyEq K}.

Lemma dict_set_get_bump d k :
  dict_incr d k = if has_key d k then bump_first d k else d ++ [(k, 1)].
Proof.
  unfold dict_incr. induction d as [|[k' v] d IH]; simpl; [reflexivity|].
  destruct (py_eqb k' k) eqn:E; simpl; [reflexivity|].
  rewrite IH. destruct (has_key d k); reflexivity.
Qed.

Lemma keys_bump_first d k : keys (bump_first d k) = keys d.
Proof.
  induction d as [|[k' v] d IH]; simpl; [reflexivity|].
  destruct (py_eqb k' k); simpl; [reflexivity|]. f_equal. exact IH.
Qed.

Lemma keys_dict_incr d k :
  keys (dict_incr d k) = if has_key d k then keys d else keys d ++ [k].
Proof.
  rewrite dict_set_get_bump. destruct (has_key d k).
  - apply keys_bump_first.
  - unfold keys. rewrite map_app. reflexivity.
Qed.

Lemma keys_fold_incr ks : forall d k,
  In k (keys (fold_left dict_incr ks d)) -> In k (keys d) \/ In k ks.
Proof.
  induction ks as [|a ks IH]; intros d k; simpl; [auto|].
  intros Hin. apply IH in Hin. destruct Hin as [Hin|Hin]; [|auto].
  rewrite keys_dict_incr in Hin. destruct (has_key d a); [auto|].
  apply in_app_or in Hin. destruct Hin as [Hin|[<-|[]]]; auto.
Qed.

Lemma sum_from l : forall a, fold_left Z.add l a = a + fold_left Z.add l 0.
Proof.
  induction l as [|x l IH]; intros a; simpl; [lia|].
  rewrite (IH (a + x)), (IH (0 + x)). lia.
Qed.

Lemma dict_sum_cons kv (d : dict K) : dict_sum (kv :: d) = snd kv + dict_sum d.
Proof. unfold dict_sum. simpl. rewrite sum_from. reflexivity. Qed.

Lemma dict_sum_incr d k : dict_sum (dict_incr d k) = dict_sum d + 1.
Proof.
  rewrite dict_set_get_bump.
  induction d as [|[k' v] d IH]; simpl; [reflexivity|].
  destruct (py_eqb k' k) eqn:E; simpl.
  - rewrite !dict_sum_cons. simpl. lia.
  - destruct (has_key d k); rewrite !dict_sum_cons, IH; lia.
Qed.

Lemma dict_sum_fold ks : forall d,
  dict_sum (fold_left dict_incr ks d) = dict_sum d + Z.of_nat (length ks).
Proof.
  induction ks as [|k ks IH]; intros d; simpl; [lia|].
  rewrite IH, dict_sum_incr. lia.
Qed.

Lemma dict_sum_perm (d d' : dict K) : d ≡ₚ d' -> dict_sum d = dict_sum d'.
Proof.
  induction 1 as [|x l l' Hp IH|x y l|l l' l'' Hp1 IH1 Hp2 IH2].
  - reflexivity.
  - rewrite !dict_sum_cons, IH. reflexivity.
  - rewrite !dict_sum_cons. lia.
  - congruence.
Qed.

(** *** Keys whose [==] is sound: equal keys are the same key *)

Variable good : K -> Prop.
Hypothesis eqb_sound : forall a b, good a -> py_eqb a b = true -> a = b.

Lemma eqb_sym a b : good a -> good b -> py_eqb a b = py_eqb b a.
Proof.
  intros Ha Hb.
  destruct (py_eqb a b) eqn:E1, (py_eqb b a) eqn:E2; try reflexivity.
  - pose proof (eqb_sound a b Ha E1). subst. congruence.
  - pose proof (eqb_sound b a Hb E2). subst. congruence.
Qed.

Lemma well_formed_cons kv d :
  well_formed good (kv :: d) <->
  (forall kv', In kv' d -> py_eqb (fst kv') (fst kv) = false) /\
  good (fst kv) /\ well_formed good d.
Proof.
  unfold well_formed, keys. simpl. split.
  - intros [Hd Hg]. inversion Hd. inversion Hg. subst. auto.
  - intros (Hne & Hg & Hd & Hgs). split; constructor; auto.
Qed.

Lemma well_formed_good d kv : well_formed good d -> In kv d -> good (fst kv).
Proof.
  intros [_ Hg] Hin. rewrite List.Forall_forall in Hg. apply Hg.
  unfold keys. apply in_map. exact Hin.
Qed.

Lemma well_formed_perm d d' : d ≡ₚ d' -> well_formed good d -> well_formed good d'.
Proof.
  induction 1 as [|x l l' Hp IH|x y l|l l' l'' Hp1 IH1 Hp2 IH2]; intros Hw.
  - exact Hw.
  - apply well_formed_cons in Hw. destruct Hw as (Hne & Hg & Hw).
    apply well_formed_cons. split; [|split; auto].
    intros kv' Hin. apply Hne. eapply Permutation_in; [symmetry; exact Hp|exact Hin].
  - apply well_formed_cons in Hw. destruct Hw as (Hne & Hg & Hw).
    apply well_formed_cons in Hw. destruct Hw as (Hne' & Hg' & Hw).
    apply well_formed_cons. split; [|split].
    + intros kv' [<-|Hin].
      * rewrite eqb_sym by assumption. apply Hne. left. reflexivity.
      * apply Hne'. exact Hin.
    + exact Hg'.
    + apply well_formed_cons. split; [|split; auto].
      intros kv' Hin. apply Hne. right. exact Hin.
  - auto.
Qed.

Lemma has_key_false d k :
  has_key d k = false <-> forall kv, In kv d -> py_eqb (fst kv) k = false.
Proof.
  unfold has_key. induction d as [|kv d IH]; simpl.
  - split; [intros _ kv []|reflexivity].
  - rewrite orb_false_iff, IH. split.
    + intros [H1 H2] kv' [<-|Hin]; auto.
    + intros Hall. split; [apply Hall; auto|]. intros kv' Hin. apply Hall. auto.
Qed.

Lemma has_key_perm d d' k : d ≡ₚ d' -> has_key d k = has_key d' k.
Proof.
  intros Hp. unfold has_key.
  destruct (existsb _ d) eqn:E1, (existsb _ d') eqn:E2; try reflexivity.
  - apply existsb_exists in E1. destruct E1 as (kv & Hin & Hk).
    assert (existsb (fun kv => py_eqb (fst kv) k) d' = true); [|congruence].
    apply existsb_exists. exists kv. split; [|exact Hk].
    eapply Permutation_in; eauto.
  - apply existsb_exists in E2. destruct E2 as (kv & Hin & Hk).
    assert (existsb (fun kv => py_eqb (fst kv) k) d = true); [|congruence].
    apply existsb_exists. exists kv. split; [|exact Hk].
    eapply Permutation_in; [symmetry|]; eauto.
Qed.

Lemma map_bump_id d k :
  (forall kv, In kv d -> py_eqb (fst kv) k = false) -> map (bump k) d = d.
Proof.
  induction d as [|kv d IH]; intros Hall; simpl; [reflexivity|].
  unfold bump at 1. rewrite (Hall kv) by (left; reflexivity).
  f_equal. apply IH. intros kv' Hin. apply Hall. right. exact Hin.
Qed.

Lemma bump_first_all d k :
  well_formed good d -> good k -> bump_first d k = map (bump k) d.
Proof.
  intros Hw Hk. induction d as [|kv d IH]; simpl; [reflexivity|].
  apply well_formed_cons in Hw. destruct Hw as (Hne & Hg & Hw).
  unfold bump at 1. destruct (py_eqb (fst kv) k) eqn:E.
  - f_equal. symmetry. apply map_bump_id.
    pose proof (eqb_sound _ _ Hg E) as <-. exact Hne.
  - f_equal. apply IH. exact Hw.
Qed.

Lemma dict_incr_entries d k :
  well_formed good d -> good k -> dict_incr d k ≡ₚ incr_entries d k.
Proof.
  intros Hw Hk. rewrite dict_set_get_bump. unfold incr_entries.
  destruct (has_key d k).
  - rewrite bump_first_all by assumption. reflexivity.
  - symmetry. apply Permutation_cons_append.
Qed.

Lemma incr_entries_perm d d' k :
  d ≡ₚ d' -> incr_entries d k ≡ₚ incr_entries d' k.
Proof.
  intros Hp. unfold incr_entries. rewrite (has_key_perm d d' k Hp).
  destruct (has_key d' k).
  - apply Permutation_map. exact Hp.
  - constructor. exact Hp.
Qed.

Lemma fst_bump k kv : fst (bump k kv) = fst kv.
Proof. unfold bump. destruct (py_eqb (fst kv) k); reflexivity. Qed.

Lemma has_key_map_bump d a k : has_key (map (bump a) d) k = has_key d k.
Proof.
  unfold has_key. induction d as [|kv d IH]; simpl; [reflexivity|].
  rewrite fst_bump, IH. reflexivity.
Qed.

Lemma well_formed_incr_entries d k :
  well_formed good d -> good k -> well_formed good (incr_entries d k).
Proof.
  intros Hw Hk. unfold incr_entries. destruct (has_key d k) eqn:E.
  - clear E. induction d as [|kv d IH]; simpl; [exact Hw|].
    apply well_formed_cons in Hw. destruct Hw as (Hne & Hg & Hw).
    apply well_formed_cons. rewrite fst_bump. split; [|split; auto].
    intros kv' Hin. apply in_map_iff in Hin. destruct Hin as (kv0 & <- & Hin).
    rewrite fst_bump. apply Hne. exact Hin.
  - apply well_formed_cons. split; [|split; auto].
    simpl. apply has_key_false. exact E.
Qed.

Lemma well_formed_incr d k :
  well_formed good d -> good k -> well_formed good (dict_incr d k).
Proof.
  intros Hw Hk. eapply well_formed_perm.
  - symmetry. apply dict_incr_entries; assumption.
  - apply well_formed_incr_entries; assumption.
Qed.

Lemma dict_incr_perm d d' k :
  well_formed good d -> good k -> d ≡ₚ d' -> dict_incr d k ≡ₚ dict_incr d' k.
Proof.
  intros Hw Hk Hp.
  rewrite (dict_incr_entries d k Hw Hk).
  rewrite (dict_incr_entries d' k (well_formed_perm _ _ Hp Hw) Hk).
  apply incr_entries_perm. exact Hp.
Qed.

Lemma bump_comm a b kv : bump a (bump b kv) = bump b (bump a kv).
Proof.
  unfold bump. destruct kv as [k v]. simpl.
  destruct (py_eqb k a) eqn:Ea, (py_eqb k b) eqn:Eb; simpl;
    rewrite ?Ea, ?Eb; reflexivity.
Qed.

Lemma incr_entries_comm d a b :
  good a -> good b ->
  incr_entries (incr_entries d a) b ≡ₚ incr_entries (incr_entries d b) a.
Proof.
  intros Ha Hb. destruct (py_eqb a b) eqn:Eab.
  { pose proof (eqb_sound _ _ Ha Eab). subst. reflexivity. }
  assert (Eba : py_eqb b a = false) by (rewrite eqb_sym; assumption).
  unfold incr_entries.
  destruct (has_key d a) eqn:Ha', (has_key d b) eqn:Hb'.
  - rewrite !has_key_map_bump, Ha', Hb'.
    rewrite !map_map. erewrite map_ext; [reflexivity|].
    intros kv. apply bump_comm.
  - rewrite has_key_map_bump, Hb'. simpl. rewrite Eba, Ha'. simpl.
    unfold bump at 2. simpl. rewrite Eba. reflexivity.
  - rewrite has_key_map_bump, Ha'. simpl. rewrite Eab, Hb'. simpl.
    unfold bump at 1. simpl. rewrite Eab. reflexivity.
  - simpl. rewrite Eab, Eba, Ha', Hb'. simpl. apply perm_swap.
Qed.

Lemma dict_incr_comm d a b :
  well_formed good d -> good a -> good b ->
  dict_incr (dict_incr d a) b ≡ₚ dict_incr (dict_incr d b) a.
Proof.
  intros Hw Ha Hb.
  rewrite (dict_incr_entries (dict_incr d a) b) by (auto using well_formed_incr).
  rewrite (dict_incr_entries (dict_incr d b) a) by (auto using well_formed_incr).
  rewrite (incr_entries_perm _ _ b (dict_incr_entries d a Hw Ha)).
  rewrite (incr_entries_perm _ _ a (dict_incr_entries d b Hw Hb)).
  apply incr_entries_comm; assumption.
Qed.

Lemma well_formed_fold ks : forall d,
  well_formed good d -> Forall good ks -> well_formed good (fold_left dict_incr ks d).
Proof.
  induction ks as [|k ks IH]; intros d Hw Hks; simpl; [exact Hw|].
  inversion Hks. subst. apply IH; [apply well_formed_incr|]; assumption.
Qed.

Lemma fold_incr_perm_dict ks : forall d d',
  well_formed good d -> Forall good ks -> d ≡ₚ d' ->
  fold_left dict_incr ks d ≡ₚ fold_left dict_incr ks d'.
Proof.
  induction ks as [|k ks IH]; intros d d' Hw Hks Hp; simpl; [exact Hp|].
  inversion Hks. subst. apply IH; auto using well_formed_incr, dict_incr_perm.
Qed.

(** Counting is independent of the order of the keys, up to the order of
    the entries. *)
Lemma fold_incr_perm ks ks' :
  ks ≡ₚ ks' -> forall d,
  well_formed good d -> Forall good ks ->
  fold_left dict_incr ks d ≡ₚ fold_left dict_incr ks' d.
Proof.
  induction 1 as [|x l l' Hp IH|x y l|l l' l'' Hp1 IH1 Hp2 IH2];
    intros d Hw Hks; simpl.
  - reflexivity.
  - inversion Hks. subst. apply IH; auto using well_formed_incr.
  - inversion Hks as [|? ? Hy Hks']. inversion Hks' as [|? ? Hx Hl]. subst.
    apply fold_incr_perm_dict; auto using well_formed_incr, dict_incr_comm.
  - rewrite (IH1 d Hw Hks). apply IH2; [exact Hw|].
    rewrite <- Hp1. exact Hks.
Qed.

Lemma dict_get_absent (d : dict K) k x : has_key d k = false -> dict_get d k x = x.
Proof.
  induction d as [|[k' v] d IH]; simpl; [reflexivity|].
  destruct (py_eqb k' k); simpl; [discriminate|exact IH].
Qed.

Lemma dict_get_present d k' v k x :
  well_formed good d -> In (k', v) d -> py_eqb k' k = true -> dict_get d k x = v.
Proof.
  intros Hw Hin Hk. induction d as [|[k0 v0] d IH]; [destruct Hin|].
  apply well_formed_cons in Hw. destruct Hw as (Hne & Hg & Hw). simpl in *.
  destruct (py_eqb k0 k) eqn:E.
  - destruct Hin as [Hx|Hin]; [congruence|].
    pose proof (eqb_sound _ _ Hg E) as <-.
    pose proof (Hne _ Hin) as Hf. simpl in Hf. congruence.
  - destruct Hin as [Hx|Hin]; [congruence|]. apply IH; assumption.
Qed.

(** Two well-formed dictionaries with the same entries answer every
    lookup alike. *)
Lemma dict_get_perm d d' k x :
  well_formed good d -> d ≡ₚ d' -> dict_get d k x = dict_get d' k x.
Proof.
  intros Hw Hp. destruct (has_key d k) eqn:Hk.
  - apply existsb_exists in Hk. destruct Hk as ([k' v] & Hin & Hk').
    rewrite (dict_get_present d k' v k x Hw Hin Hk').
    symmetry. apply (dict_get_present d' k' v k x).
    + eapply well_formed_perm; eauto.
    + eapply Permutation_in; eauto.
    + exact Hk'.
  - rewrite (dict_get_absent d k x Hk).
    rewrite (has_key_perm d d' k Hp) in Hk.
    rewrite (dict_get_absent d' k x Hk). reflexivity.
Qed.

End DictFacts.

(** *** The three key types *)

Lemma Z_eqb_sound (a b : Z) : True -> py_eqb a b = true -> a = b.
Proof. intros _. apply Z.eqb_eq. Qed.

Lemma date_eqb_eq (a b : date) : py_eqb a b = true <-> a = b.
Proof.
  unfold py_eqb, date_pyeq. destruct a as [y m d], b as [y' m' d']. simpl.
  rewrite !andb_true_iff, !Z.eqb_eq. split.
  - intros [[-> ->] ->]. reflexivity.
  - intros Hx. inversion Hx. auto.
Qed.

Lemma date_eqb_sound (a b : date) : True -> py_eqb a b = true -> a = b.
Proof. intros _. apply date_eqb_eq. Qed.

Lemma SFeqb_nonzero_eq (x y : spec_float) :
  SFeqb x y = true -> SFeqb x (S754_zero false) = false -> x = y.
Proof.
  unfold SFeqb.
  destruct x as [s|s| |s m e], y as [s'|s'| |s' m' e']; simpl;
    try discriminate.
  all: try (intros _ Hx; discriminate Hx).
  all: try (destruct s; intros Hx; discriminate Hx).
  all: try (destruct s'; intros Hx; discriminate Hx).
  - destruct s, s'; intros; try discriminate; reflexivity.
  - intros Hc _. destruct s, s'; try discriminate.
    + destruct (Z.compare_spec e e') as [->|?|?]; simpl in Hc; try discriminate.
      destruct (Pos.compare_cont Eq m m') eqn:Hm; try discriminate.
      apply Pos.compare_eq in Hm. subst. reflexivity.
    + destruct (Z.compare_spec e e') as [->|?|?]; try discriminate.
      destruct (Pos.compare_cont Eq m m') eqn:Hm; try discriminate.
      apply Pos.compare_eq in Hm. subst. reflexivity.
Qed.

(** On non-zero floats [==] is sound: the only distinct floats that compare
    equal are the two zeros. *)
Lemma float_eqb_sound (a b : float) :
  float_truthy a = true -> py_eqb a b = true -> a = b.
Proof.
  unfold float_truthy, is_zero, py_eqb, float_pyeq. intros Ha Hab.
  apply negb_true_iff in Ha.
  rewrite FloatAxioms.eqb_spec in Ha, Hab.
  apply Prim2SF_inj. apply SFeqb_nonzero_eq; [exact Hab|exact Ha].
Qed.

(** ** What one image contributes to the aggregation *)

Lemma make_datetime_hour y m d H M S dt :
  make_datetime y m d H M S = Ok dt -> dt_hour dt = H /\ 0 <= H <= 23.
Proof.
  unfold make_datetime.
  match goal with |- context [if ?b then _ else _] => destruct b eqn:E end;
    [|discriminate].
  intros Hx. inversion Hx. simpl.
  repeat (apply andb_true_iff in E; destruct E as [E ?]). lia.
Qed.

Lemma strptime_hour s fmt dt : strptime s fmt = Ok dt -> 0 <= dt_hour dt <= 23.
Proof.
  unfold strptime.
  destruct (parse_format fmt) as [items|]; simpl; [|discriminate].
  destruct (match_items items s) as [|[found rest] ms]; [discriminate|].
  destruct rest; [|discriminate].
  repeat match goal with
         | |- (mbind _ (group_int ?d ?z ?f)) = _ -> _ =>
             destruct (group_int d z f); simpl; [|discriminate]
         end.
  intros Hx. apply make_datetime_hour in Hx. destruct Hx as [-> Hx]. exact Hx.
Qed.

Lemma py_strptime_hour raw fmt dt :
  py_strptime raw fmt = Ok dt -> 0 <= dt_hour dt <= 23.
Proof. destruct raw; simpl; try discriminate. apply strptime_hour. Qed.

(** The strict parse raises nothing but [TypeError], and only on a raw
    date that is not a text. *)
Lemma strict_hour_raises e x :
  strict_hour e = Raise x ->
  x = TypeError /\
  exists raw, e !! "DateTimeOriginal"%string = Some raw /\ forall s, raw <> VStr s.
Proof.
  unfold strict_hour.
  destruct (e !! "DateTimeOriginal"%string) as [raw|]; [|discriminate].
  destruct raw; simpl;
    try (intros Hx; inversion Hx; split; [reflexivity|];
         eexists; split; [reflexivity|]; intros s' Hs; discriminate Hs).
  destruct (strptime s strict_format) as [dt|x'] eqn:Hs; simpl; [discriminate|].
  rewrite (strptime_raises _ _ _ Hs). discriminate.
Qed.

Lemma strict_hour_range e h : strict_hour e = Ok (Some h) -> 0 <= h <= 23.
Proof.
  unfold strict_hour.
  destruct (e !! "DateTimeOriginal"%string) as [raw|]; [|discriminate].
  destruct (py_strptime raw strict_format) as [dt|x] eqn:Hs; simpl.
  - intros Hx. inversion Hx. subst. eapply py_strptime_hour, Hs.
  - destruct x; discriminate.
Qed.

Lemma insert_is_alter (m : gmap Z hour_settings) h hs upd :
  m !! h = Some hs -> <[h := upd hs]> m = alter upd h m.
Proof.
  intros Hl. apply map_eq. intros i. destruct (decide (h = i)) as [->|Hne].
  - rewrite lookup_insert_eq, lookup_alter_eq, Hl. reflexivity.
  - rewrite lookup_insert_ne, lookup_alter_ne by exact Hne. reflexivity.
Qed.

Lemma record_hourly_eq e upd st :
  hours_ok st ->
  record_hourly e upd st = h ← strict_hour e; Ok (in_hour h upd st).
Proof.
  intros Hok. unfold record_hourly, strict_hour.
  destruct (e !! "DateTimeOriginal"%string) as [raw|]; [|reflexivity].
  destruct (py_strptime raw strict_format) as [dt|x] eqn:Hs; simpl.
  - unfold hourly_append.
    destruct (Hok (dt_hour dt) (py_strptime_hour _ _ _ Hs)) as [hs Hl].
    rewrite Hl. simpl. rewrite (insert_is_alter _ _ _ _ Hl). reflexivity.
  - destruct x; reflexivity.
Qed.

Lemma hours_ok_alter st upd h m :
  hours_ok st -> m = alter upd h (hourly_settings st) ->
  forall f d hr i a s, hours_ok (mk_agg f d hr i a s m).
Proof.
  intros Hok -> f d hr i a s h' Hh'. simpl.
  destruct (Hok h' Hh') as [hs Hl].
  destruct (decide (h = h')) as [->|Hne].
  - rewrite lookup_alter_eq, Hl. eauto.
  - rewrite lookup_alter_ne, Hl by exact Hne. eauto.
Qed.

Lemma hours_ok_in_hour h upd st : hours_ok st -> hours_ok (in_hour h upd st).
Proof.
  intros Hok. destruct h as [h|]; [|exact Hok].
  eapply hours_ok_alter; [exact Hok|reflexivity].
Qed.

Lemma hours_ok_same st st' :
  hourly_settings st' = hourly_settings st -> hours_ok st -> hours_ok st'.
Proof. unfold hours_ok. intros ->. auto. Qed.

Lemma hours_ok_apply st e h : hours_ok st -> hours_ok (apply_image st e h).
Proof.
  intros Hok. unfold apply_image.
  destruct (obs_focal e), (obs_date e), (obs_iso e), (obs_aperture e),
    (obs_shutter_speed e);
    repeat first [ exact Hok
                 | apply hours_ok_in_hour
                 | eapply hours_ok_same; [reflexivity|] ].
Qed.

Lemma hours_ok_add_focal_length st f :
  hours_ok st -> hours_ok (add_focal_length st f).
Proof. intros Hok. exact Hok. Qed.

Lemma hours_ok_count_date st dt : hours_ok st -> hours_ok (count_date st dt).
Proof. intros Hok. exact Hok. Qed.

Lemma hours_ok_count_iso st v : hours_ok st -> hours_ok (count_iso st v).
Proof. intros Hok. exact Hok. Qed.

Lemma hours_ok_count_aperture st v : hours_ok st -> hours_ok (count_aperture st v).
Proof. intros Hok. exact Hok. Qed.

Lemma hours_ok_count_shutter_speed st v :
  hours_ok st -> hours_ok (count_shutter_speed st v).
Proof. intros Hok. exact Hok. Qed.

Create HintDb hours discriminated.
#[local] Hint Resolve hours_ok_in_hour hours_ok_add_focal_length
  hours_ok_count_date hours_ok_count_iso hours_ok_count_aperture
  hours_ok_count_shutter_speed : hours.

Lemma unwrap_total {A} (m : result (option A)) :
  (exists r, m = Ok r) -> m = Ok (unwrap m).
Proof. intros [r ->]. reflexivity. Qed.

Lemma init_hours_ok : hours_ok init_agg.
Proof.
  intros h Hh. simpl.
  assert (Hcases : In h (map Z.of_nat (seq 0 24))).
  { apply in_map_iff. exists (Z.to_nat h). split; [lia|].
    apply in_seq. lia. }
  simpl in Hcases.
  repeat (destruct Hcases as [<-|Hcases]; [vm_compute; eauto|]).
  destruct Hcases.
Qed.

(** One iteration of the loop: the strict parse may abort it; otherwise
    the image's contributions are added. *)
Lemma process_image_eq st e :
  hours_ok st ->
  process_image st e = h ← image_hour e; Ok (apply_image st e h).
Proof.
  intros Hok. unfold process_image. case_bool_decide as Hempty.
  { subst e. unfold image_hour, wants_hour, apply_image, obs_focal, obs_date,
      obs_iso, obs_aperture, obs_shutter_speed.
    rewrite !lookup_empty. reflexivity. }
  unfold image_hour, wants_hour, apply_image.
  unfold obs_focal, obs_date, obs_iso, obs_aperture, obs_shutter_speed.
  destruct (e !! "FocalLength"%string) as [rf|];
    [rewrite (unwrap_total _ (process_focal_length_total rf))|];
  (destruct (e !! "ISOSpeedRatings"%string) as [ri|];
    [rewrite (unwrap_total _ (process_iso_value_total ri))|]);
  (destruct (e !! "FNumber"%string) as [ra|];
    [rewrite (unwrap_total _ (process_aperture_total ra))|]);
  (destruct (e !! "ExposureTime"%string) as [rs|];
    [rewrite (unwrap_total _ (process_shutter_speed_total rs))|]).
  all: destruct (e !! "DateTimeOriginal"%string) as [rd|] eqn:Hd;
    [rewrite (unwrap_total _ (try_parse_date_total rd))|].
  all: simpl.
  all: repeat match goal with
         | |- context [unwrap ?m] => destruct (unwrap m)
         | |- context [if ?z =? 0 then _ else _] => destruct (z =? 0)
         | |- context [if float_truthy ?v then _ else _] => destruct (float_truthy v)
         end; simpl.
  all: try reflexivity.
  all: destruct (strict_hour e) as [h|x] eqn:Hh.
  all: repeat (rewrite record_hourly_eq by auto 10 with hours; rewrite Hh; simpl).
  all: reflexivity.
Qed.

(** ** The strict format is stricter than the fallback chain *)

Lemma remove_nul_app a b :
  remove_nul (a +:+ b) = remove_nul a +:+ remove_nul b.
Proof.
  induction a as [|c a IH]; simpl; [reflexivity|].
  destruct (code c =? 0)%N; simpl; rewrite IH; reflexivity.
Qed.

Lemma app_nonempty_r a b : b <> EmptyString -> a +:+ b <> EmptyString.
Proof. destruct a; simpl; [auto|discriminate]. Qed.

Lemma rstrip_app a b :
  b <> EmptyString -> rstrip b = b -> rstrip (a +:+ b) = a +:+ b.
Proof.
  intros Hne Hb. induction a as [|c a IH]; [exact Hb|].
  change (String c a +:+ b) with (String c (a +:+ b)).
  simpl. rewrite IH.
  pose proof (app_nonempty_r a b Hne) as Hab.
  destruct (a +:+ b); [congruence|reflexivity].
Qed.

Lemma app_assoc_str a b c : (a +:+ b) +:+ c = a +:+ (b +:+ c).
Proof.
  induction a as [|x a IH]; [reflexivity|].
  change (String x ((a +:+ b) +:+ c) = String x (a +:+ (b +:+ c))).
  rewrite IH. reflexivity.
Qed.

Lemma plain_not_nul c : plain c = true -> (code c =? 0)%N = false.
Proof.
  unfold plain, is_digit, in_range, is_char. intros Hp.
  apply N.eqb_neq. intros H0. rewrite H0 in Hp. discriminate.
Qed.

Lemma digit_not_space c : is_digit c = true -> is_space c = false.
Proof.
  unfold is_digit, is_space, in_range. intros Hd.
  apply andb_true_iff in Hd. destruct Hd as [H1 H2].
  apply N.leb_le in H1, H2.
  repeat match goal with
         | |- context [(?a <=? ?b)%N] => destruct (N.leb_spec a b)
         | |- context [(?a =? ?b)%N] => destruct (N.eqb_spec a b)
         end; simpl; try reflexivity; lia.
Qed.

Lemma space_not_nul c : is_space c = true -> (code c =? 0)%N = false.
Proof.
  intros Hs. apply N.eqb_neq. intros H0.
  unfold is_space, in_range in Hs. rewrite H0 in Hs. discriminate.
Qed.

Lemma in_range_digit lo hi c :
  (48 <= lo)%N -> (hi <= 57)%N -> in_range lo hi c = true -> is_digit c = true.
Proof.
  unfold is_digit, in_range. intros Hlo Hhi Hc.
  apply andb_true_iff in Hc. destruct Hc as [H1 H2].
  apply N.leb_le in H1, H2. apply andb_true_iff.
  split; apply N.leb_le; lia.
Qed.

Lemma is_char_digit n c :
  (48 <= n)%N -> (n <= 57)%N -> is_char n c = true -> is_digit c = true.
Proof.
  unfold is_char, is_digit, in_range. intros Hlo Hhi Hc.
  apply N.eqb_eq in Hc. apply andb_true_iff.
  split; apply N.leb_le; lia.
Qed.

Ltac class_digit :=
  first [ exact (fun c H => H)
        | (intros c Hc; eapply in_range_digit; [| |exact Hc]; lia)
        | (intros c Hc; eapply is_char_digit; [| |exact Hc]; lia) ].

Ltac class_plain :=
  intros c Hc; unfold plain;
  first [ (rewrite Hc; apply orb_true_r)
        | (apply orb_true_iff; left; revert c Hc; class_digit) ].

Lemma alternatives_plain d alt : In alt (alternatives d) -> classes_plain alt.
Proof.
  destruct d; simpl; intros Hin;
    repeat (destruct Hin as [<-|Hin]; [repeat constructor; class_plain|]);
    destruct Hin.
Qed.

Lemma alternatives_end_digit d alt :
  In alt (alternatives d) -> ends_with_digit alt.
Proof.
  destruct d; simpl; intros Hin;
    repeat (destruct Hin as [<-|Hin];
            [first [ exists [], is_digit; split; [reflexivity|class_digit]
                   | eexists [], _; split; [reflexivity|class_digit]
                   | eexists [_], _; split; [reflexivity|class_digit]
                   | eexists [_; _; _], _; split; [reflexivity|class_digit] ]|]);
    destruct Hin.
Qed.

Lemma take_classes_sound cls : forall s m rest,
  take_classes cls s = Some (m, rest) -> s = m +:+ rest /\ chars_match cls m.
Proof.
  induction cls as [|p cls IH]; intros s m rest; simpl.
  - intros Hx. inversion Hx. subst. split; [reflexivity|exact I].
  - destruct s as [|c s]; [discriminate|].
    destruct (p c) eqn:Hp; [|discriminate].
    destruct (take_classes cls s) as [[m' r']|] eqn:Ht; [|discriminate].
    intros Hx. inversion Hx. subst.
    destruct (IH _ _ _ Ht) as [-> Hm]. split; [reflexivity|].
    split; assumption.
Qed.

Lemma chars_match_no_nul cls : forall m,
  classes_plain cls -> chars_match cls m -> remove_nul m = m.
Proof.
  induction cls as [|p cls IH]; intros [|c m] Hpl Hm; simpl in *;
    try contradiction; try reflexivity.
  inversion Hpl as [|? ? Hp Hpl']. subst. destruct Hm as [Hc Hm].
  rewrite (plain_not_nul c (Hp c Hc)). f_equal. apply IH; assumption.
Qed.

Lemma chars_match_app init p : forall m,
  chars_match (init ++ [p]) m ->
  exists m' c, m = m' +:+ String c EmptyString /\ p c = true.
Proof.
  induction init as [|q init IH]; intros [|c m]; simpl; try contradiction.
  - intros [Hc Hm]. destruct m; [|contradiction].
    exists EmptyString, c. split; [reflexivity|exact Hc].
  - intros [_ Hm]. destruct (IH m Hm) as (m' & c' & -> & Hc').
    exists (String c m'), c'. split; [reflexivity|exact Hc'].
Qed.

Lemma chars_match_end cls m :
  ends_with_digit cls -> chars_match cls m ->
  m <> EmptyString /\ rstrip m = m.
Proof.
  intros (init & p & -> & Hp) Hm.
  destruct (chars_match_app init p m Hm) as (m' & c & -> & Hc).
  assert (Hone : rstrip (String c EmptyString) = String c EmptyString).
  { simpl. rewrite (digit_not_space c (Hp c Hc)). reflexivity. }
  split.
  - apply app_nonempty_r. discriminate.
  - apply rstrip_app; [discriminate|exact Hone].
Qed.

Lemma space_suffixes_sound s : forall s1,
  In s1 (space_suffixes s) ->
  exists sp, s = sp +:+ s1 /\ sp <> EmptyString /\ remove_nul sp = sp.
Proof.
  induction s as [|c s IH]; intros s1; simpl; [intros []|].
  destruct (is_space c) eqn:Hc; [|intros []].
  intros Hin. apply in_app_or in Hin. destruct Hin as [Hin|[<-|[]]].
  - destruct (IH s1 Hin) as (sp & -> & _ & Hn).
    exists (String c sp). split; [reflexivity|]. split; [discriminate|].
    simpl. rewrite (space_not_nul c Hc), Hn. reflexivity.
  - exists (String c EmptyString). split; [reflexivity|].
    split; [discriminate|]. simpl. rewrite (space_not_nul c Hc). reflexivity.
Qed.

(** What a match of the compiled format consumes: no null character; when
    the format ends in a directive, a non-empty text that ends in a digit;
    when it starts with [%Y], a text that starts with a digit. *)
Lemma app_empty_r_str a : a +:+ EmptyString = a.
Proof.
  induction a as [|c a IH]; [reflexivity|].
  change (String c (a +:+ EmptyString) = String c a). rewrite IH. reflexivity.
Qed.

Lemma match_items_consumed items :
  literals_ok items ->
  forall s found rest,
    In (found, rest) (match_items items s) ->
    exists pre,
      s = pre +:+ rest /\ remove_nul pre = pre /\
      (forall items0 d, items = items0 ++ [FDir d] ->
         pre <> EmptyString /\ rstrip pre = pre) /\
      (forall items', items = FDir DY :: items' ->
         exists c pre', pre = String c pre' /\ is_digit c = true) /\
      (items = [] -> pre = EmptyString).
Proof.
  induction items as [|it items IH]; intros Hlit s found rest Hin.
  - simpl in Hin. destruct Hin as [Hx|[]]. inversion Hx. subst.
    exists EmptyString. split; [reflexivity|]. split; [reflexivity|].
    split; [intros [|? ?] d Hx'; discriminate Hx'|].
    split; [intros ? Hx'; discriminate Hx'|reflexivity].
  - inversion Hlit as [|? ? Hit Hlit']. subst.
    assert (Hend : forall pre0 pre',
               pre0 <> EmptyString ->
               (forall items0 d, items = items0 ++ [FDir d] ->
                  pre' <> EmptyString /\ rstrip pre' = pre') ->
               (items = [] -> pre' = EmptyString /\ rstrip pre0 = pre0) ->
               forall items0 d, it :: items = items0 ++ [FDir d] ->
                 pre0 +:+ pre' <> EmptyString /\ rstrip (pre0 +:+ pre') = pre0 +:+ pre').
    { intros pre0 pre' Hne Hr Hnil items0 d Heq.
      destruct items0 as [|it0 items0]; simpl in Heq.
      - inversion Heq. subst. destruct (Hnil eq_refl) as [-> Hr0].
        rewrite app_empty_r_str. split; assumption.
      - inversion Heq. subst. destruct (Hr items0 d eq_refl) as [Hne' Hr'].
        split; [apply app_nonempty_r; exact Hne'|].
        apply rstrip_app; assumption. }
    destruct it as [d| |c]; simpl in Hin.
    + apply in_flat_map in Hin. destruct Hin as (alt & Halt & Hin).
      destruct (take_classes alt s) as [[m r1]|] eqn:Ht; [|destruct Hin].
      apply in_map_iff in Hin. destruct Hin as ([found' rest'] & Hx & Hin).
      inversion Hx. subst.
      destruct (take_classes_sound _ _ _ _ Ht) as [-> Hm].
      destruct (chars_match_end alt m (alternatives_end_digit d alt Halt) Hm)
        as [Hmne Hmr].
      destruct (IH Hlit' _ _ _ Hin) as (pre' & -> & Hn & Hr & _ & Hnil).
      exists (m +:+ pre'). split; [symmetry; apply app_assoc_str|].
      split.
      { rewrite remove_nul_app, Hn.
        rewrite (chars_match_no_nul alt m (alternatives_plain d alt Halt) Hm).
        reflexivity. }
      split.
      { apply Hend; [exact Hmne|exact Hr|].
        intros Hx'. split; [apply Hnil, Hx'|exact Hmr]. }
      split; [|discriminate].
      intros items' Hx'. inversion Hx'. subst.
      simpl in Halt. destruct Halt as [<-|[]].
      destruct m as [|c m]; [destruct Hm|]. destruct Hm as [Hc _].
      exists c, (m +:+ pre'). split; [reflexivity|exact Hc].
    + apply in_flat_map in Hin. destruct Hin as (s1 & Hs1 & Hin).
      destruct (space_suffixes_sound _ _ Hs1) as (sp & -> & Hspne & Hspn).
      destruct (IH Hlit' _ _ _ Hin) as (pre' & -> & Hn & Hr & _).
      exists (sp +:+ pre'). split; [symmetry; apply app_assoc_str|].
      split; [rewrite remove_nul_app, Hn, Hspn; reflexivity|].
      split.
      { intros items0 d Heq. destruct items0 as [|it0 items0]; simpl in Heq.
        - discriminate.
        - inversion Heq. subst. destruct (Hr items0 d eq_refl) as [Hne' Hr'].
          split; [apply app_nonempty_r; exact Hne'|].
          apply rstrip_app; assumption. }
      split; discriminate.
    + destruct s as [|c' s]; [destruct Hin|].
      destruct (code c =? code c')%N eqn:Hcc; [|destruct Hin].
      apply N.eqb_eq in Hcc.
      destruct (IH Hlit' _ _ _ Hin) as (pre' & -> & Hn & Hr & _).
      exists (String c' pre'). split; [reflexivity|].
      split; [simpl; rewrite <- Hcc, Hit, Hn; reflexivity|].
      split.
      { intros items0 d Heq. destruct items0 as [|it0 items0]; simpl in Heq.
        - discriminate.
        - inversion Heq. subst. destruct (Hr items0 d eq_refl) as [Hne' Hr'].
          split; [discriminate|].
          apply (rstrip_app (String c' EmptyString)); assumption. }
      split; discriminate.
Qed.

Lemma parse_strict_format : parse_format strict_format = Ok strict_items.
Proof. reflexivity. Qed.

(** A text that the strict format accepts is already clean. *)
Lemma strict_parse_clean s dt :
  strptime s strict_format = Ok dt -> strip (remove_nul s) = s.
Proof.
  unfold strptime. rewrite parse_strict_format.
  unfold mbind at 1. unfold result_bind at 1. cbv beta iota.
  destruct (match_items strict_items s) as [|[found rest] ms] eqn:Hm;
    [discriminate|].
  destruct rest; [|discriminate]. intros _.
  assert (Hin : In (found, EmptyString) (match_items strict_items s)).
  { rewrite Hm. left. reflexivity. }
  apply match_items_consumed in Hin.
  2:{ unfold strict_items, literals_ok. repeat constructor. }
  destruct Hin as (pre & Hs & Hn & Hend & Hstart & _).
  rewrite app_empty_r_str in Hs. subst pre.
  destruct (Hend (removelast strict_items) DS eq_refl) as [_ Hr].
  destruct (Hstart _ eq_refl) as (c & pre' & Hs & Hc).
  rewrite Hn. unfold strip.
  assert (Hl : lstrip s = s).
  { rewrite Hs. simpl. rewrite (digit_not_space c Hc). reflexivity. }
  rewrite Hl. exact Hr.
Qed.

(** Whatever parses under the strict format parses, to the same
    date-time, under the fallback chain. *)
Lemma strict_implies_lenient raw dt :
  py_strptime raw strict_format = Ok dt -> try_parse_date raw = Ok (Some dt).
Proof.
  destruct raw; simpl; try discriminate. intros Hs.
  change (try_parse_date (VStr s) = Ok (Some dt)).
  rewrite try_parse_date_str, (strict_parse_clean s dt Hs).
  unfold date_formats. simpl try_formats.
  change "%Y:%m:%d %H:%M:%S"%string with strict_format.
  rewrite Hs. reflexivity.
Qed.

(** ** The whole loop *)

Lemma image_hour_raises e x : image_hour e = Raise x -> x = TypeError.
Proof.
  unfold image_hour. destruct (wants_hour e); [|discriminate].
  intros Hx. apply strict_hour_raises in Hx. tauto.
Qed.

Lemma process_images_eq images : forall st,
  hours_ok st ->
  process_images st images
  = if existsb image_aborts images then Raise TypeError
    else Ok (fold_left step images st).
Proof.
  induction images as [|e images IH]; intros st Hok; simpl; [reflexivity|].
  rewrite (process_image_eq st e Hok). unfold image_aborts at 1, step at 2, hour_of.
  destruct (image_hour e) as [h|x] eqn:Hh; simpl.
  - apply IH. apply hours_ok_apply. exact Hok.
  - rewrite (image_hour_raises e x Hh). reflexivity.
Qed.

Lemma process_folder_eq images :
  process_folder images
  = if existsb image_aborts images then Raise TypeError
    else Ok (fold_left step images init_agg).
Proof. apply process_images_eq, init_hours_ok. Qed.

Lemma hours_ok_fold images : forall st,
  hours_ok st -> hours_ok (fold_left step images st).
Proof.
  induction images as [|e images IH]; intros st Hok; simpl; [exact Hok|].
  apply IH, hours_ok_apply, Hok.
Qed.

(** *** The components of the state evolve independently *)

Lemma focal_lengths_step st e h :
  focal_lengths (apply_image st e h) = focal_lengths st ++ option_list (obs_focal e).
Proof.
  unfold apply_image.
  destruct (obs_focal e), (obs_date e), (obs_iso e), (obs_aperture e),
    (obs_shutter_speed e), h; simpl; rewrite ?app_nil_r; reflexivity.
Qed.

Lemma dates_step st e h :
  dates (apply_image st e h) = incr_opt (dates st) (dt_date <$> obs_date e).
Proof.
  unfold apply_image.
  destruct (obs_focal e), (obs_date e), (obs_iso e), (obs_aperture e),
    (obs_shutter_speed e), h; reflexivity.
Qed.

Lemma hours_step st e h :
  hours (apply_image st e h) = incr_opt (hours st) (dt_hour <$> obs_date e).
Proof.
  unfold apply_image.
  destruct (obs_focal e), (obs_date e), (obs_iso e), (obs_aperture e),
    (obs_shutter_speed e), h; reflexivity.
Qed.

Lemma iso_step st e h :
  iso (apply_image st e h) = incr_opt (iso st) (obs_iso e).
Proof.
  unfold apply_image.
  destruct (obs_focal e), (obs_date e), (obs_iso e), (obs_aperture e),
    (obs_shutter_speed e), h; reflexivity.
Qed.

Lemma apertures_step st e h :
  apertures (apply_image st e h) = incr_opt (apertures st) (obs_aperture e).
Proof.
  unfold apply_image.
  destruct (obs_focal e), (obs_date e), (obs_iso e), (obs_aperture e),
    (obs_shutter_speed e), h; reflexivity.
Qed.

Lemma shutter_speeds_step st e h :
  shutter_speeds (apply_image st e h)
  = incr_opt (shutter_speeds st) (obs_shutter_speed e).
Proof.
  unfold apply_image.
  destruct (obs_focal e), (obs_date e), (obs_iso e), (obs_aperture e),
    (obs_shutter_speed e), h; reflexivity.
Qed.

Lemma buckets_step st e hr h :
  is_Some (hourly_settings st !! h) ->
  bucket_isos (apply_image st e hr) h
  = bucket_isos st h ++ at_hour h hr (obs_iso e) /\
  bucket_apertures (apply_image st e hr) h
  = bucket_apertures st h ++ at_hour h hr (obs_aperture e) /\
  bucket_shutter_speeds (apply_image st e hr) h
  = bucket_shutter_speeds st h ++ at_hour h hr (obs_shutter_speed e).
Proof.
  intros [hs Hl].
  unfold apply_image, bucket_isos, bucket_apertures, bucket_shutter_speeds, at_hour.
  destruct (obs_focal e), (obs_date e), (obs_iso e), (obs_aperture e),
    (obs_shutter_speed e), hr as [h'|]; simpl;
    rewrite ?lookup_alter; repeat case_decide; subst;
    try congruence;
    rewrite ?Hl; simpl; rewrite ?Z.eqb_refl, ?app_nil_r;
    try (destruct (Z.eqb_spec h' h); [congruence|]);
    rewrite ?app_nil_r; auto.
Qed.

Lemma fold_step_proj {A} (proj : agg -> A) (upd : A -> gmap string pyval -> A) :
  (forall st e, proj (step st e) = upd (proj st) e) ->
  forall images st,
    proj (fold_left step images st) = fold_left upd images (proj st).
Proof.
  intros Hstep images. induction images as [|e images IH]; intros st; simpl.
  - reflexivity.
  - rewrite IH, Hstep. reflexivity.
Qed.

Lemma fold_append_opt {A} (g : gmap string pyval -> option A) images : forall l,
  fold_left (fun l e => l ++ option_list (g e)) images l = l ++ omap g images.
Proof.
  induction images as [|e images IH]; intros l; simpl.
  - rewrite app_nil_r. reflexivity.
  - rewrite IH. destruct (g e); simpl; rewrite <- ?app_assoc, ?app_nil_r; reflexivity.
Qed.

Lemma fold_append_list {A} (g : gmap string pyval -> list A) images : forall l,
  fold_left (fun l e => l ++ g e) images l = l ++ flat_map g images.
Proof.
  induction images as [|e images IH]; intros l; simpl.
  - rewrite app_nil_r. reflexivity.
  - rewrite IH, <- app_assoc. reflexivity.
Qed.

Lemma fold_incr_opt {K} `{PyEq K} (g : gmap string pyval -> option K) images :
  forall d,
    fold_left (fun d e => incr_opt d (g e)) images d
    = fold_left dict_incr (omap g images) d.
Proof.
  induction images as [|e images IH]; intros d; simpl; [reflexivity|].
  rewrite IH. destruct (g e); reflexivity.
Qed.

Lemma focal_lengths_fold images st :
  focal_lengths (fold_left step images st)
  = focal_lengths st ++ omap obs_focal images.
Proof.
  rewrite (fold_step_proj focal_lengths (fun l e => l ++ option_list (obs_focal e))).
  - apply fold_append_opt.
  - intros. apply focal_lengths_step.
Qed.

Lemma dates_fold images st :
  dates (fold_left step images st)
  = fold_left dict_incr (omap (fun e => dt_date <$> obs_date e) images) (dates st).
Proof.
  rewrite (fold_step_proj dates (fun d e => incr_opt d (dt_date <$> obs_date e))).
  - apply fold_incr_opt.
  - intros. apply dates_step.
Qed.

Lemma hours_fold images st :
  hours (fold_left step images st)
  = fold_left dict_incr (omap (fun e => dt_hour <$> obs_date e) images) (hours st).
Proof.
  rewrite (fold_step_proj hours (fun d e => incr_opt d (dt_hour <$> obs_date e))).
  - apply fold_incr_opt.
  - intros. apply hours_step.
Qed.

Lemma iso_fold images st :
  iso (fold_left step images st)
  = fold_left dict_incr (omap obs_iso images) (iso st).
Proof.
  rewrite (fold_step_proj iso (fun d e => incr_opt d (obs_iso e))).
  - apply fold_incr_opt.
  - intros. apply iso_step.
Qed.

Lemma apertures_fold images st :
  apertures (fold_left step images st)
  = fold_left dict_incr (omap obs_aperture images) (apertures st).
Proof.
  rewrite (fold_step_proj apertures (fun d e => incr_opt d (obs_aperture e))).
  - apply fold_incr_opt.
  - intros. apply apertures_step.
Qed.

Lemma shutter_speeds_fold images st :
  shutter_speeds (fold_left step images st)
  = fold_left dict_incr (omap obs_shutter_speed images) (shutter_speeds st).
Proof.
  rewrite (fold_step_proj shutter_speeds
             (fun d e => incr_opt d (obs_shutter_speed e))).
  - apply fold_incr_opt.
  - intros. apply shutter_speeds_step.
Qed.

Lemma bucket_present_step st e hr h :
  is_Some (hourly_settings st !! h) ->
  is_Some (hourly_settings (apply_image st e hr) !! h).
Proof.
  intros Hs. unfold apply_image.
  destruct (obs_focal e), (obs_date e), (obs_iso e), (obs_aperture e),
    (obs_shutter_speed e), hr; simpl;
    rewrite ?lookup_alter_is_Some; exact Hs.
Qed.

Lemma buckets_fold h images : forall st,
  is_Some (hourly_settings st !! h) ->
  bucket_isos (fold_left step images st) h
  = bucket_isos st h ++ flat_map (fun e => at_hour h (hour_of e) (obs_iso e)) images /\
  bucket_apertures (fold_left step images st) h
  = bucket_apertures st h
    ++ flat_map (fun e => at_hour h (hour_of e) (obs_aperture e)) images /\
  bucket_shutter_speeds (fold_left step images st) h
  = bucket_shutter_speeds st h
    ++ flat_map (fun e => at_hour h (hour_of e) (obs_shutter_speed e)) images.
Proof.
  induction images as [|e images IH]; intros st Hs; simpl.
  - rewrite !app_nil_r. auto.
  - destruct (IH (step st e) (bucket_present_step st e (hour_of e) h Hs))
      as (-> & -> & ->).
    destruct (buckets_step st e (hour_of e) h Hs) as (H1 & H2 & H3).
    unfold step in *. rewrite H1, H2, H3, <- !app_assoc. auto.
Qed.

Lemma init_bucket_present h : 0 <= h <= 23 -> is_Some (hourly_settings init_agg !! h).
Proof. apply init_hours_ok. Qed.

Lemma init_buckets_empty h :
  bucket_isos init_agg h = [] /\ bucket_apertures init_agg h = []
  /\ bucket_shutter_speeds init_agg h = [].
Proof.
  unfold bucket_isos, bucket_apertures, bucket_shutter_speeds.
  destruct (hourly_settings init_agg !! h) as [hs|] eqn:Hl; [|auto].
  simpl in Hl. unfold init_hourly in Hl.
  apply elem_of_list_to_map_2 in Hl. apply list_elem_of_In in Hl.
  apply in_map_iff in Hl. destruct Hl as (i & Hx & _).
  inversion Hx. auto.
Qed.

(** ** Aborting runs *)

Lemma strict_hour_not_text e raw :
  e !! "DateTimeOriginal"%string = Some raw -> (forall s, raw <> VStr s) ->
  strict_hour e = Raise TypeError.
Proof.
  intros Hl Hraw. unfold strict_hour. rewrite Hl.
  destruct raw; try reflexivity. exfalso. apply (Hraw s). reflexivity.
Qed.

Lemma image_aborts_iff e :
  image_aborts e = true <->
  wants_hour e = true /\
  exists raw, e !! "DateTimeOriginal"%string = Some raw /\ forall s, raw <> VStr s.
Proof.
  unfold image_aborts, image_hour. split.
  - destruct (wants_hour e); [|discriminate].
    destruct (strict_hour e) as [h|x] eqn:Hs; [discriminate|].
    intros _. split; [reflexivity|].
    apply strict_hour_raises in Hs. tauto.
  - intros [-> (raw & Hl & Hraw)].
    rewrite (strict_hour_not_text e raw Hl Hraw). reflexivity.
Qed.

(** C3: the per-field normalisers never raise, and [try_parse_date]
    returns absent for a date that is not a text; but [process_folder]
    parses the raw date again with [strptime] and catches [ValueError]
    only, so the [TypeError] of a non-text date aborts the run: the run
    aborts exactly when some image has an ISO, aperture or shutter value to
    record and a capture date that is not a text. *)
Theorem C3_non_text_date_aborts :
  (forall raw, exists r, process_focal_length raw = Ok r) /\
  (forall raw, exists r, process_iso_value raw = Ok r) /\
  (forall raw, exists r, process_aperture raw = Ok r) /\
  (forall raw, exists r, process_shutter_speed raw = Ok r) /\
  (forall raw, exists r, try_parse_date raw = Ok r) /\
  try_parse_date (VInt 20230501) = Ok None /\
  process_folder [photo_numeric_date; photo_A] = Raise TypeError /\
  (forall images,
     process_folder images = Raise TypeError <->
     exists e, In e images /\ wants_hour e = true /\
       exists raw, e !! "DateTimeOriginal"%string = Some raw /\
                   forall s, raw <> VStr s) /\
  (forall images,
     (forall e, In e images -> image_aborts e = false) ->
     exists st, process_folder images = Ok st).
Proof.
  split; [exact process_focal_length_total|].
  split; [exact process_iso_value_total|].
  split; [exact process_aperture_total|].
  split; [exact process_shutter_speed_total|].
  split; [exact try_parse_date_total|].
  split; [reflexivity|].
  split; [vm_compute; reflexivity|].
  split.
  - intros images. rewrite process_folder_eq.
    destruct (existsb image_aborts images) eqn:Hex.
    + split; [intros _|reflexivity].
      apply existsb_exists in Hex. destruct Hex as (e & Hin & Hab).
      exists e. split; [exact Hin|]. apply image_aborts_iff. exact Hab.
    + split; [discriminate|]. intros (e & Hin & Hab).
      assert (existsb image_aborts images = true); [|congruence].
      apply existsb_exists. exists e. split; [exact Hin|].
      apply image_aborts_iff. exact Hab.
  - intros images Hall. rewrite process_folder_eq.
    destruct (existsb image_aborts images) eqn:Hex; [|eauto].
    apply existsb_exists in Hex. destruct Hex as (e & Hin & Hab).
    rewrite (Hall e Hin) in Hab. discriminate.
Qed.

(** ** The buckets after a run *)

Lemma hour_of_range e h : hour_of e = Some h -> 0 <= h <= 23.
Proof.
  unfold hour_of, image_hour. destruct (wants_hour e); [|discriminate].
  destruct (strict_hour e) as [o|x] eqn:Hs; simpl; [|discriminate].
  intros ->. eapply strict_hour_range, Hs.
Qed.

Lemma image_hour_range e h : image_hour e = Ok (Some h) -> 0 <= h <= 23.
Proof.
  unfold image_hour. destruct (wants_hour e); [|discriminate].
  apply strict_hour_range.
Qed.

Lemma init_hourly_domain h hs : init_hourly !! h = Some hs -> 0 <= h <= 23.
Proof.
  unfold init_hourly. intros Hl.
  apply elem_of_list_to_map_2 in Hl. apply list_elem_of_In in Hl.
  apply in_map_iff in Hl. destruct Hl as (i & Hx & Hi).
  inversion Hx. subst. apply in_seq in Hi. lia.
Qed.

Lemma bucket_absent_fold h images : forall st,
  hourly_settings st !! h = None ->
  hourly_settings (fold_left step images st) !! h = None.
Proof.
  induction images as [|e images IH]; intros st Hn; simpl; [exact Hn|].
  apply IH. unfold step, apply_image.
  destruct (obs_focal e), (obs_date e), (obs_iso e), (obs_aperture e),
    (obs_shutter_speed e), (hour_of e); simpl;
    rewrite ?lookup_alter_None; exact Hn.
Qed.

Lemma flat_map_nil {A B} (g : A -> list B) l :
  (forall a, In a l -> g a = []) -> flat_map g l = [].
Proof.
  induction l as [|a l IH]; intros Hall; simpl; [reflexivity|].
  rewrite (Hall a) by (left; reflexivity). apply IH.
  intros b Hb. apply Hall. right. exact Hb.
Qed.

Lemma at_hour_outside {A} h e (v : option A) :
  ~ (0 <= h <= 23) -> at_hour h (hour_of e) v = [].
Proof.
  intros Hh. unfold at_hour. destruct (hour_of e) as [h'|] eqn:Hh'; [|reflexivity].
  destruct v; [|reflexivity]. apply hour_of_range in Hh'.
  destruct (Z.eqb_spec h' h); [lia|reflexivity].
Qed.

(** The buckets of a run hold, for every hour, the observations of the
    images whose strict hour it is, in the order of the images. *)
Lemma buckets_run images h :
  bucket_isos (fold_left step images init_agg) h
  = flat_map (fun e => at_hour h (hour_of e) (obs_iso e)) images /\
  bucket_apertures (fold_left step images init_agg) h
  = flat_map (fun e => at_hour h (hour_of e) (obs_aperture e)) images /\
  bucket_shutter_speeds (fold_left step images init_agg) h
  = flat_map (fun e => at_hour h (hour_of e) (obs_shutter_speed e)) images.
Proof.
  destruct (hourly_settings init_agg !! h) as [hs|] eqn:Hl.
  - destruct (buckets_fold h images init_agg (ex_intro _ hs Hl)) as (-> & -> & ->).
    destruct (init_buckets_empty h) as (-> & -> & ->). auto.
  - assert (Hout : ~ (0 <= h <= 23)).
    { intros Hh. destruct (init_hours_ok h Hh) as [hs Hs]. congruence. }
    unfold bucket_isos, bucket_apertures, bucket_shutter_speeds.
    rewrite (bucket_absent_fold h images init_agg Hl).
    rewrite !flat_map_nil; auto using at_hour_outside.
Qed.

Lemma in_at_hour {A} h strict (o : option A) v :
  In v (at_hour h strict o) -> o = Some v /\ strict = Some h.
Proof.
  unfold at_hour. destruct strict as [h'|]; [|intros []].
  destruct o as [v'|]; [|intros []].
  destruct (Z.eqb_spec h' h); [|intros []].
  intros [<-|[]]. subst. auto.
Qed.

Lemma obs_focal_nonzero e f : obs_focal e = Some f -> f <> 0.
Proof.
  unfold obs_focal. destruct (e !! "FocalLength"%string); [|discriminate].
  destruct (unwrap _); [|discriminate].
  destruct (Z.eqb_spec z 0); [discriminate|]. intros Hx. inversion Hx. subst. auto.
Qed.

Lemma obs_iso_nonzero e v : obs_iso e = Some v -> v <> 0.
Proof.
  unfold obs_iso. destruct (e !! "ISOSpeedRatings"%string); [|discriminate].
  destruct (unwrap _); [|discriminate].
  destruct (Z.eqb_spec z 0); [discriminate|]. intros Hx. inversion Hx. subst. auto.
Qed.

Lemma obs_aperture_truthy e v : obs_aperture e = Some v -> float_truthy v = true.
Proof.
  unfold obs_aperture. destruct (e !! "FNumber"%string); [|discriminate].
  destruct (unwrap _); [|discriminate].
  destruct (float_truthy f) eqn:Ht; [|discriminate].
  intros Hx. inversion Hx. subst. exact Ht.
Qed.

Lemma obs_shutter_speed_truthy e v :
  obs_shutter_speed e = Some v -> float_truthy v = true.
Proof.
  unfold obs_shutter_speed. destruct (e !! "ExposureTime"%string); [|discriminate].
  destruct (unwrap _); [|discriminate].
  destruct (float_truthy f) eqn:Ht; [|discriminate].
  intros Hx. inversion Hx. subst. exact Ht.
Qed.

Lemma in_omap_obs {A} (g : gmap string pyval -> option A) images v :
  In v (omap g images) -> exists e, In e images /\ g e = Some v.
Proof.
  intros Hin. apply list_elem_of_In in Hin. apply list_elem_of_omap in Hin.
  destruct Hin as (e & He & Hg). exists e. split; [|exact Hg].
  apply list_elem_of_In. exact He.
Qed.

Lemma truthy_not_zero v : float_truthy v = true <-> is_zero v = false.
Proof. unfold float_truthy. apply negb_true_iff. Qed.

(** C10: a value that normalises to zero is dropped.  After any run the
    focal-length list holds no 0, no key of the aperture and shutter-speed
    maps is zero and no bucket holds a zero; and from a state that a run
    reached, an image whose focal length normalises to 0, or whose
    aperture or shutter speed normalises to 0.0, leaves the list, the map
    and every bucket of that field as they were. *)
Theorem C10_zero_is_absent (images : list (gmap string pyval)) (st : agg) :
  process_folder images = Ok st ->
  ~ In 0 (focal_lengths st) /\
  (forall k, In k (keys (apertures st)) -> is_zero k = false) /\
  (forall k, In k (keys (shutter_speeds st)) -> is_zero k = false) /\
  (forall h v, In v (bucket_apertures st h) -> is_zero v = false) /\
  (forall h v, In v (bucket_shutter_speeds st h) -> is_zero v = false) /\
  (forall h, ~ In 0 (bucket_isos st h)) /\
  (forall e st', process_image st e = Ok st' ->
     (forall raw, e !! "FocalLength"%string = Some raw ->
        process_focal_length raw = Ok (Some 0) ->
        focal_lengths st' = focal_lengths st) /\
     (forall raw v, e !! "FNumber"%string = Some raw ->
        process_aperture raw = Ok (Some v) -> is_zero v = true ->
        apertures st' = apertures st /\
        forall h, bucket_apertures st' h = bucket_apertures st h) /\
     (forall raw v, e !! "ExposureTime"%string = Some raw ->
        process_shutter_speed raw = Ok (Some v) -> is_zero v = true ->
        shutter_speeds st' = shutter_speeds st /\
        forall h, bucket_shutter_speeds st' h = bucket_shutter_speeds st h)) /\
  process_shutter_speed (VTuple [VInt 1; VInt 32000]) = Ok (Some 0%float).
Proof.
  rewrite process_folder_eq.
  destruct (existsb image_aborts images); [discriminate|].
  intros Hst. inversion Hst as [Hst']. clear Hst. subst st.
  split.
  { rewrite focal_lengths_fold. simpl. intros Hin.
    apply in_omap_obs in Hin. destruct Hin as (e & _ & He).
    apply obs_focal_nonzero in He. auto. }
  split.
  { intros k Hin. rewrite apertures_fold in Hin.
    apply keys_fold_incr in Hin. destruct Hin as [[]|Hin].
    apply in_omap_obs in Hin. destruct Hin as (e & _ & He).
    apply truthy_not_zero. eapply obs_aperture_truthy, He. }
  split.
  { intros k Hin. rewrite shutter_speeds_fold in Hin.
    apply keys_fold_incr in Hin. destruct Hin as [[]|Hin].
    apply in_omap_obs in Hin. destruct Hin as (e & _ & He).
    apply truthy_not_zero. eapply obs_shutter_speed_truthy, He. }
  split.
  { intros h v Hin. destruct (buckets_run images h) as (_ & Hb & _).
    rewrite Hb in Hin. apply in_flat_map in Hin. destruct Hin as (e & _ & Hin).
    apply in_at_hour in Hin. destruct Hin as [He _].
    apply truthy_not_zero. eapply obs_aperture_truthy, He. }
  split.
  { intros h v Hin. destruct (buckets_run images h) as (_ & _ & Hb).
    rewrite Hb in Hin. apply in_flat_map in Hin. destruct Hin as (e & _ & Hin).
    apply in_at_hour in Hin. destruct Hin as [He _].
    apply truthy_not_zero. eapply obs_shutter_speed_truthy, He. }
  split.
  { intros h Hin. destruct (buckets_run images h) as (Hb & _ & _).
    rewrite Hb in Hin. apply in_flat_map in Hin. destruct Hin as (e & _ & Hin).
    apply in_at_hour in Hin. destruct Hin as [He _].
    apply obs_iso_nonzero in He. auto. }
  split; [|vm_compute; reflexivity].
  intros e st'.
  assert (Hok : hours_ok (fold_left step images init_agg))
    by apply hours_ok_fold, init_hours_ok.
  rewrite (process_image_eq _ e Hok).
  destruct (image_hour e) as [hr|x] eqn:Hih; simpl; [|discriminate].
  intros Hx. inversion Hx as [Hst'']. clear Hx. subst st'.
  assert (Hbuckets : forall h,
            bucket_apertures (apply_image (fold_left step images init_agg) e hr) h
            = bucket_apertures (fold_left step images init_agg) h
              ++ at_hour h hr (obs_aperture e) /\
            bucket_shutter_speeds (apply_image (fold_left step images init_agg) e hr) h
            = bucket_shutter_speeds (fold_left step images init_agg) h
              ++ at_hour h hr (obs_shutter_speed e)).
  { intros h.
    destruct (hourly_settings (fold_left step images init_agg) !! h) as [hs|] eqn:Hl.
    - destruct (buckets_step _ e hr h (ex_intro _ hs Hl)) as (_ & H2 & H3). auto.
    - assert (Hn : hourly_settings
                     (apply_image (fold_left step images init_agg) e hr) !! h = None).
      { unfold apply_image.
        destruct (obs_focal e), (obs_date e), (obs_iso e), (obs_aperture e),
          (obs_shutter_speed e), hr; simpl;
          rewrite ?lookup_alter_None; exact Hl. }
      assert (Hout : ~ (0 <= h <= 23)).
      { intros Hh. destruct (Hok h Hh) as [hs Hs]. congruence. }
      unfold bucket_apertures, bucket_shutter_speeds. rewrite Hn, Hl.
      unfold at_hour. destruct hr as [h'|]; [|auto].
      assert (h' <> h).
      { intros ->. apply Hout. eapply image_hour_range, Hih. }
      destruct (Z.eqb_spec h' h); [congruence|].
      destruct (obs_aperture e), (obs_shutter_speed e); auto. }
  split.
  { intros raw Hl Hraw. rewrite focal_lengths_step.
    unfold obs_focal. rewrite Hl, Hraw. simpl. apply app_nil_r. }
  split.
  { intros raw v Hl Hraw Hz.
    assert (Hobs : obs_aperture e = None).
    { unfold obs_aperture, float_truthy. rewrite Hl, Hraw. simpl. rewrite Hz.
      reflexivity. }
    split.
    - rewrite apertures_step, Hobs. reflexivity.
    - intros h. destruct (Hbuckets h) as [-> _]. rewrite Hobs.
      unfold at_hour. destruct hr; apply app_nil_r. }
  intros raw v Hl Hraw Hz.
  assert (Hobs : obs_shutter_speed e = None).
  { unfold obs_shutter_speed, float_truthy. rewrite Hl, Hraw. simpl. rewrite Hz.
    reflexivity. }
  split.
  - rewrite shutter_speeds_step, Hobs. reflexivity.
  - intros h. destruct (Hbuckets h) as [_ ->]. rewrite Hobs.
    unfold at_hour. destruct hr; apply app_nil_r.
Qed.

Lemma C10_witness :
  process_folder [photo_zero_shutter] = Ok init_agg /\
  process_shutter_speed (VTuple [VInt 1; VInt 32000]) = Ok (Some 0%float).
Proof.
  assert (H : process_folder [photo_zero_shutter] = Ok init_agg)
    by (vm_compute; reflexivity).
  split; [exact H|].
  destruct (C10_zero_is_absent [photo_zero_shutter] init_agg H)
    as (_ & _ & _ & _ & _ & _ & _ & Hz).
  exact Hz.
Defined.

(** ** Totals *)

Section LeibnizKeys.
Context {K : Type} `{PyEq K}.
Hypothesis eqb_eq : forall a b : K, py_eqb a b = true <-> a = b.

Lemma has_key_In (d : dict K) k : has_key d k = true <-> In k (keys d).
Proof.
  unfold has_key, keys. rewrite existsb_exists, in_map_iff. split.
  - intros (kv & Hin & Hk). apply eqb_eq in Hk. eauto.
  - intros (kv & Hk & Hin). exists kv. split; [exact Hin|]. apply eqb_eq, Hk.
Qed.

Lemma keys_incr_NoDup (d : dict K) k :
  NoDup (keys d) -> NoDup (keys (dict_incr d k)).
Proof.
  intros Hnd. rewrite keys_dict_incr.
  destruct (has_key d k) eqn:Hk; [exact Hnd|].
  apply NoDup_app. split; [exact Hnd|]. split; [|apply NoDup_singleton].
  intros x Hx Hxk. apply list_elem_of_singleton in Hxk. subst x.
  apply list_elem_of_In, has_key_In in Hx. congruence.
Qed.

Lemma keys_incr_In (d : dict K) k k' :
  In k' (keys (dict_incr d k)) <-> In k' (keys d) \/ k' = k.
Proof.
  rewrite keys_dict_incr. destruct (has_key d k) eqn:Hk.
  - apply has_key_In in Hk. split; [auto|]. intros [Hin| ->]; assumption.
  - rewrite in_app_iff. simpl. split; intros [Hin|Hin]; auto.
    + destruct Hin as [<-|[]]. auto.
Qed.

Lemma keys_fold_NoDup ks : forall d : dict K,
  NoDup (keys d) -> NoDup (keys (fold_left dict_incr ks d)).
Proof.
  induction ks as [|k ks IH]; intros d Hnd; simpl; [exact Hnd|].
  apply IH, keys_incr_NoDup, Hnd.
Qed.

Lemma keys_fold_In ks : forall (d : dict K) k,
  In k (keys (fold_left dict_incr ks d)) <-> In k (keys d) \/ In k ks.
Proof.
  induction ks as [|a ks IH]; intros d k; simpl; [tauto|].
  rewrite IH, keys_incr_In. split; intros Hx; intuition auto.
Qed.

End LeibnizKeys.

Lemma omap_date_keys images :
  omap (fun e => dt_date <$> obs_date e) images
  = map dt_date (omap obs_date images).
Proof.
  induction images as [|e images IH]; [reflexivity|].
  change (match dt_date <$> obs_date e with
          | Some d => d :: omap (fun e => dt_date <$> obs_date e) images
          | None => omap (fun e => dt_date <$> obs_date e) images
          end
          = map dt_date (match obs_date e with
                         | Some dt => dt :: omap obs_date images
                         | None => omap obs_date images
                         end)).
  rewrite IH. destruct (obs_date e); reflexivity.
Qed.

(** C7: after a run, [total_photos] is the sum of the counts of the date
    map, which is the number of images whose capture date the fallback
    chain parses; the keys of the date map are the distinct dates of those
    images; and [daily_average] is [total_photos] divided by the number of
    keys, or 0 when there is no key. *)
Theorem C7_totals (images : list (gmap string pyval)) (st : agg) :
  process_folder images = Ok st ->
  total_photos st = dict_sum (dates st) /\
  total_photos st = Z.of_nat (length (omap obs_date images)) /\
  NoDup (keys (dates st)) /\
  (forall d, In d (keys (dates st)) <->
             exists dt, In dt (omap obs_date images) /\ dt_date dt = d) /\
  daily_average st
  = (if (length (dates st) =? 0)%nat then Ok (VInt 0)
     else q ← int_truediv (total_photos st) (Z.of_nat (length (dates st)));
          Ok (VFloat q)) /\
  match process_folder ten_photos with
  | Ok st10 =>
      length (dates st10) = 2%nat /\ iso st10 = [] /\
      summary_statistics st10 = Ok (mk_summary 10 (VInt 0) (VFloat 5))
  | Raise _ => False
  end.
Proof.
  rewrite process_folder_eq.
  destruct (existsb image_aborts images); [discriminate|].
  intros Hst. inversion Hst as [Hst']. clear Hst. subst st.
  split; [reflexivity|].
  split.
  { unfold total_photos. rewrite dates_fold, dict_sum_fold, omap_date_keys.
    rewrite length_map. reflexivity. }
  split.
  { rewrite dates_fold. apply (keys_fold_NoDup date_eqb_eq). constructor. }
  split.
  { intros d. rewrite dates_fold, (keys_fold_In date_eqb_eq), omap_date_keys.
    rewrite in_map_iff. simpl. split.
    - intros [[]|(dt & Hd & Hin)]. eauto.
    - intros (dt & Hin & Hd). right. eauto. }
  split; [|vm_compute; auto].
  unfold daily_average.
  destruct (length (dates (fold_left step images init_agg))) as [|n];
    reflexivity.
Qed.

Lemma C7_witness :
  total_photos ten_photos_state
  = Z.of_nat (length (omap obs_date ten_photos)).
Proof.
  refine (proj1 (proj2 (C7_totals ten_photos ten_photos_state _))).
  vm_compute. reflexivity.
Defined.

(** ** Buckets need the strict format *)

Lemma at_hour_none {A} h strict : @at_hour A h strict None = [].
Proof. unfold at_hour. destruct strict; reflexivity. Qed.

Lemma image_hour_strict e hr :
  image_hour e = Ok hr ->
  forall h,
    at_hour h hr (obs_iso e) = at_hour h (unwrap (strict_hour e)) (obs_iso e) /\
    at_hour h hr (obs_aperture e)
    = at_hour h (unwrap (strict_hour e)) (obs_aperture e) /\
    at_hour h hr (obs_shutter_speed e)
    = at_hour h (unwrap (strict_hour e)) (obs_shutter_speed e).
Proof.
  unfold image_hour, wants_hour. intros Hh h.
  destruct (obs_iso e), (obs_aperture e), (obs_shutter_speed e);
    try (rewrite Hh; auto).
  rewrite !at_hour_none. auto.
Qed.

Lemma buckets_step_any st e hr :
  hours_ok st -> image_hour e = Ok hr ->
  forall h,
    bucket_isos (apply_image st e hr) h
    = bucket_isos st h ++ at_hour h hr (obs_iso e) /\
    bucket_apertures (apply_image st e hr) h
    = bucket_apertures st h ++ at_hour h hr (obs_aperture e) /\
    bucket_shutter_speeds (apply_image st e hr) h
    = bucket_shutter_speeds st h ++ at_hour h hr (obs_shutter_speed e).
Proof.
  intros Hok Hih h.
  destruct (hourly_settings st !! h) as [hs|] eqn:Hl.
  - apply buckets_step. eauto.
  - assert (Hn : hourly_settings (apply_image st e hr) !! h = None).
    { unfold apply_image.
      destruct (obs_focal e), (obs_date e), (obs_iso e), (obs_aperture e),
        (obs_shutter_speed e), hr; simpl;
        rewrite ?lookup_alter_None; exact Hl. }
    assert (Hout : ~ (0 <= h <= 23)).
    { intros Hh. destruct (Hok h Hh) as [hs Hs]. congruence. }
    unfold bucket_isos, bucket_apertures, bucket_shutter_speeds.
    rewrite Hn, Hl. unfold at_hour. destruct hr as [h'|]; [|auto].
    assert (h' <> h).
    { intros ->. apply Hout. eapply image_hour_range, Hih. }
    destruct (Z.eqb_spec h' h); [congruence|].
    destruct (obs_iso e), (obs_aperture e), (obs_shutter_speed e); auto.
Qed.

(** C2: from a state that a run reached, an image appends its ISO,
    aperture and shutter speed to the bucket of hour [h] exactly when the
    raw date parses under the strict format with hour [h]; the date and
    hour counters follow the fallback chain instead.  Whatever the strict
    format accepts the fallback chain accepts too, but not the other way
    round: an image whose date the strict format rejects and the chain
    parses is counted and reaches no bucket. *)
Theorem C2_strict_bucket (images : list (gmap string pyval)) (st : agg)
    (e : gmap string pyval) (st' : agg) :
  process_folder images = Ok st ->
  process_image st e = Ok st' ->
  (forall h,
     bucket_isos st' h
     = bucket_isos st h ++ at_hour h (unwrap (strict_hour e)) (obs_iso e) /\
     bucket_apertures st' h
     = bucket_apertures st h ++ at_hour h (unwrap (strict_hour e)) (obs_aperture e) /\
     bucket_shutter_speeds st' h
     = bucket_shutter_speeds st h
       ++ at_hour h (unwrap (strict_hour e)) (obs_shutter_speed e)) /\
  dates st' = incr_opt (dates st) (dt_date <$> obs_date e) /\
  hours st' = incr_opt (hours st) (dt_hour <$> obs_date e) /\
  (forall dt, obs_date e = Some dt -> unwrap (strict_hour e) = None ->
     dates st' = dict_incr (dates st) (dt_date dt) /\
     hours st' = dict_incr (hours st) (dt_hour dt) /\
     forall h, bucket_isos st' h = bucket_isos st h /\
               bucket_apertures st' h = bucket_apertures st h /\
               bucket_shutter_speeds st' h = bucket_shutter_speeds st h) /\
  (forall raw dt,
     py_strptime raw strict_format = Ok dt -> try_parse_date raw = Ok (Some dt)) /\
  try_parse_date (VStr "2023-01-01 08:00:00") = Ok (Some (mk_datetime 2023 1 1 8 0 0)) /\
  py_strptime (VStr "2023-01-01 08:00:00") strict_format = Raise ValueError /\
  try_parse_date (VStr " 2023:01:01 08:00:00") = Ok (Some (mk_datetime 2023 1 1 8 0 0)) /\
  py_strptime (VStr " 2023:01:01 08:00:00") strict_format = Raise ValueError.
Proof.
  rewrite process_folder_eq.
  destruct (existsb image_aborts images); [discriminate|].
  intros Hst. inversion Hst as [Hst']. clear Hst. subst st.
  assert (Hok : hours_ok (fold_left step images init_agg))
    by apply hours_ok_fold, init_hours_ok.
  rewrite (process_image_eq _ e Hok).
  destruct (image_hour e) as [hr|x] eqn:Hih; simpl; [|discriminate].
  intros Hx. inversion Hx as [Hst'']. clear Hx. subst st'.
  assert (Hb : forall h,
     bucket_isos (apply_image (fold_left step images init_agg) e hr) h
     = bucket_isos (fold_left step images init_agg) h
       ++ at_hour h (unwrap (strict_hour e)) (obs_iso e) /\
     bucket_apertures (apply_image (fold_left step images init_agg) e hr) h
     = bucket_apertures (fold_left step images init_agg) h
       ++ at_hour h (unwrap (strict_hour e)) (obs_aperture e) /\
     bucket_shutter_speeds (apply_image (fold_left step images init_agg) e hr) h
     = bucket_shutter_speeds (fold_left step images init_agg) h
       ++ at_hour h (unwrap (strict_hour e)) (obs_shutter_speed e)).
  { intros h.
    destruct (buckets_step_any _ e hr Hok Hih h) as (H1 & H2 & H3).
    destruct (image_hour_strict e hr Hih h) as (E1 & E2 & E3).
    rewrite H1, H2, H3, E1, E2, E3. auto. }
  split; [exact Hb|].
  split; [apply dates_step|].
  split; [apply hours_step|].
  split.
  { intros dt Hd Hs. rewrite dates_step, hours_step, Hd. simpl.
    split; [reflexivity|]. split; [reflexivity|].
    intros h. destruct (Hb h) as (-> & -> & ->). rewrite Hs.
    unfold at_hour. rewrite !app_nil_r. auto. }
  split; [exact strict_implies_lenient|].
  repeat split; vm_compute; reflexivity.
Qed.

Lemma C2_witness :
  bucket_apertures photo_A_state 8
  = bucket_apertures init_agg 8
    ++ at_hour 8 (unwrap (strict_hour photo_A)) (obs_aperture photo_A).
Proof.
  refine (proj1 (proj2 (proj1 (C2_strict_bucket [] init_agg photo_A photo_A_state
                                 _ _) 8))).
  - reflexivity.
  - vm_compute. reflexivity.
Defined.

Example photo_A_bucket : bucket_apertures photo_A_state 8 = [2.8%float].
Proof. vm_compute. reflexivity. Qed.

(** ** Order independence *)

Lemma existsb_perm {A} (f : A -> bool) l l' :
  l ≡ₚ l' -> existsb f l = existsb f l'.
Proof.
  induction 1 as [|x l l' Hp IH|x y l|l l' l'' Hp1 IH1 Hp2 IH2]; simpl.
  - reflexivity.
  - rewrite IH. reflexivity.
  - destruct (f x), (f y); reflexivity.
  - congruence.
Qed.

Lemma count_same_map {K} `{PyEq K} (good : K -> Prop) ks ks' :
  (forall a b, good a -> py_eqb a b = true -> a = b) ->
  Forall good ks -> ks ≡ₚ ks' ->
  same_map (fold_left dict_incr ks []) (fold_left dict_incr ks' []).
Proof.
  intros Hsound Hgood Hp.
  assert (Hnil : well_formed good []) by (split; constructor).
  assert (Hperm : fold_left dict_incr ks [] ≡ₚ fold_left dict_incr ks' [])
    by (apply (fold_incr_perm good Hsound); assumption).
  split; [exact Hperm|]. intros k.
  apply (dict_get_perm good Hsound); [|exact Hperm].
  apply (well_formed_fold good Hsound); assumption.
Qed.

Lemma Forall_any {A} (l : list A) : Forall (fun _ => True) l.
Proof. induction l; constructor; auto. Qed.

Lemma summary_perm a b :
  focal_lengths a ≡ₚ focal_lengths b -> dates a ≡ₚ dates b ->
  summary_statistics a = summary_statistics b.
Proof.
  intros Hf Hd. unfold summary_statistics.
  assert (Hmed : focal_length_median a = focal_length_median b).
  { rewrite (focal_length_median_sorted a
               (merge_sort Z.le (filter (fun f => f ≠ 0) (focal_lengths b)))).
    - symmetry. apply focal_length_median_sorted.
      + apply (Sorted_merge_sort Z.le).
      + apply merge_sort_Permutation.
    - apply (Sorted_merge_sort Z.le).
    - rewrite merge_sort_Permutation, Hf. reflexivity. }
  assert (Htot : total_photos a = total_photos b)
    by (apply dict_sum_perm, Hd).
  assert (Havg : daily_average a = daily_average b).
  { unfold daily_average. rewrite Htot, (Permutation_length Hd). reflexivity. }
  rewrite Hmed, Havg, Htot. reflexivity.
Qed.

(** C1: processing a permutation of the images gives the same date, hour,
    ISO, aperture and shutter-speed maps, buckets with the same contents up
    to their order, and the same summary statistics; and a run that aborts
    aborts on every permutation, with the same exception. *)
Theorem C1_order_independent (images images' : list (gmap string pyval)) :
  images ≡ₚ images' ->
  match process_folder images, process_folder images' with
  | Ok st, Ok st' =>
      same_map (dates st) (dates st') /\
      same_map (hours st) (hours st') /\
      same_map (iso st) (iso st') /\
      same_map (apertures st) (apertures st') /\
      same_map (shutter_speeds st) (shutter_speeds st') /\
      (forall h,
         bucket_isos st h ≡ₚ bucket_isos st' h /\
         bucket_apertures st h ≡ₚ bucket_apertures st' h /\
         bucket_shutter_speeds st h ≡ₚ bucket_shutter_speeds st' h) /\
      summary_statistics st = summary_statistics st'
  | Raise x, Raise x' => x = x'
  | _, _ => False
  end.
Proof.
  intros Hp. rewrite !process_folder_eq.
  rewrite <- (existsb_perm image_aborts images images' Hp).
  destruct (existsb image_aborts images); [reflexivity|].
  assert (Hsum : summary_statistics (fold_left step images init_agg)
                 = summary_statistics (fold_left step images' init_agg)).
  { apply summary_perm.
    - rewrite !focal_lengths_fold. simpl. apply omap_Permutation, Hp.
    - rewrite !dates_fold.
      apply (count_same_map (fun _ => True));
        [exact date_eqb_sound|apply Forall_any|apply omap_Permutation, Hp]. }
  rewrite !dates_fold, !hours_fold, !iso_fold, !apertures_fold,
    !shutter_speeds_fold.
  split.
  { apply (count_same_map (fun _ => True));
      [exact date_eqb_sound|apply Forall_any|apply omap_Permutation, Hp]. }
  split.
  { apply (count_same_map (fun _ => True));
      [exact Z_eqb_sound|apply Forall_any|apply omap_Permutation, Hp]. }
  split.
  { apply (count_same_map (fun _ => True));
      [exact Z_eqb_sound|apply Forall_any|apply omap_Permutation, Hp]. }
  split.
  { apply (count_same_map (fun v => float_truthy v = true));
      [exact float_eqb_sound| |apply omap_Permutation, Hp].
    apply List.Forall_forall. intros v Hin.
    apply in_omap_obs in Hin. destruct Hin as (e & _ & He).
    eapply obs_aperture_truthy, He. }
  split.
  { apply (count_same_map (fun v => float_truthy v = true));
      [exact float_eqb_sound| |apply omap_Permutation, Hp].
    apply List.Forall_forall. intros v Hin.
    apply in_omap_obs in Hin. destruct Hin as (e & _ & He).
    eapply obs_shutter_speed_truthy, He. }
  split; [|exact Hsum].
  intros h.
  destruct (buckets_run images h) as (-> & -> & ->).
  destruct (buckets_run images' h) as (-> & -> & ->).
  repeat split; apply Permutation_flat_map; exact Hp.
Qed.

Lemma C1_witness :
  match process_folder [photo_A; photo_D], process_folder [photo_D; photo_A] with
  | Ok st, Ok st' =>
      same_map (dates st) (dates st') /\
      same_map (hours st) (hours st') /\
      same_map (iso st) (iso st') /\
      same_map (apertures st) (apertures st') /\
      same_map (shutter_speeds st) (shutter_speeds st') /\
      (forall h,
         bucket_isos st h ≡ₚ bucket_isos st' h /\
         bucket_apertures st h ≡ₚ bucket_apertures st' h /\
         bucket_shutter_speeds st h ≡ₚ bucket_shutter_speeds st' h) /\
      summary_statistics st = summary_statistics st'
  | Raise x, Raise x' => x = x'
  | _, _ => False
  end.
Proof.
  exact (C1_order_independent [photo_A; photo_D] [photo_D; photo_A]
           (perm_swap photo_D photo_A [])).
Defined.

Example photos_A_D :
  match process_folder [photo_A; photo_D], process_folder [photo_D; photo_A] with
  | Ok st, Ok st' =>
      iso st = [(100, 1); (200, 1)] /\ iso st' = [(200, 1); (100, 1)] /\
      focal_lengths st = [50] /\ bucket_apertures st 8 = [2.8%float; 4%float] /\
      bucket_apertures st' 8 = [4%float; 2.8%float] /\
      summary_statistics st = Ok (mk_summary 2 (VInt 50) (VFloat 1))
  | _, _ => False
  end.
Proof. vm_compute. repeat split; reflexivity. Qed.

(** ** The order of the floats *)

Lemma compare_cont_Eq m1 m2 : Pos.compare_cont Eq m1 m2 = (Zpos m1 ?= Zpos m2).
Proof. reflexivity. Qed.

Lemma SFcompare_key a b :
  match float_key a, float_key b with
  | Some ka, Some kb =>
      (SFcompare (Prim2SF a) (Prim2SF b) = Some Lt /\ key_lt ka kb) \/
      (SFcompare (Prim2SF a) (Prim2SF b) = Some Eq /\ ka = kb) \/
      (SFcompare (Prim2SF a) (Prim2SF b) = Some Gt /\ key_lt kb ka)
  | _, _ => SFcompare (Prim2SF a) (Prim2SF b) = None
  end.
Proof.
  unfold float_key.
  destruct (Prim2SF a) as [sa|sa| |sa ma ea], (Prim2SF b) as [sb|sb| |sb mb eb];
    try reflexivity;
    try (destruct sa; simpl; try destruct sb; simpl; intuition lia).
  destruct sa, sb; unfold SFcompare; rewrite ?compare_cont_Eq; unfold key_lt;
    try (left; split; [reflexivity|lia]);
    try (right; right; split; [reflexivity|lia]).
  - destruct (Z.compare_spec ea eb) as [He|He|He].
    + subst. destruct (Z.compare_spec (Zpos ma) (Zpos mb)) as [Hm|Hm|Hm]; simpl.
      * right; left. split; [reflexivity|]. inversion Hm. reflexivity.
      * right; right. split; [reflexivity|]. lia.
      * left. split; [reflexivity|]. lia.
    + right; right. split; [reflexivity|lia].
    + left. split; [reflexivity|lia].
  - destruct (Z.compare_spec ea eb) as [He|He|He].
    + subst. destruct (Z.compare_spec (Zpos ma) (Zpos mb)) as [Hm|Hm|Hm]; simpl.
      * right; left. split; [reflexivity|]. inversion Hm. reflexivity.
      * left. split; [reflexivity|]. lia.
      * right; right. split; [reflexivity|]. lia.
    + left. split; [reflexivity|lia].
    + right; right. split; [reflexivity|lia].
Qed.

Lemma key_lt_irrefl k : ~ key_lt k k.
Proof. destruct k as [[a b] c]. unfold key_lt. lia. Qed.

Lemma key_lt_asym k1 k2 : key_lt k1 k2 -> ~ key_lt k2 k1.
Proof. destruct k1 as [[a b] c], k2 as [[a' b'] c']. unfold key_lt. lia. Qed.

Lemma key_lt_trans k1 k2 k3 : key_lt k1 k2 -> key_lt k2 k3 -> key_lt k1 k3.
Proof.
  destruct k1 as [[a b] c], k2 as [[a' b'] c'], k3 as [[a'' b''] c''].
  unfold key_lt. lia.
Qed.

Lemma key_lt_total k1 k2 : key_lt k1 k2 \/ k1 = k2 \/ key_lt k2 k1.
Proof.
  destruct k1 as [[a b] c], k2 as [[a' b'] c']. unfold key_lt.
  destruct (Z.lt_total a a') as [H|[H|H]]; [lia| |lia].
  destruct (Z.lt_total b b') as [H1|[H1|H1]]; [lia| |lia].
  destruct (Z.lt_total c c') as [H2|[H2|H2]]; [lia| |lia].
  right; left. congruence.
Qed.

(** [a < b] on floats is the order of the keys. *)
Lemma ltb_key a b :
  (a <? b)%float = true <->
  exists ka kb, float_key a = Some ka /\ float_key b = Some kb /\ key_lt ka kb.
Proof.
  rewrite ltb_spec. unfold SFltb. pose proof (SFcompare_key a b) as H.
  destruct (float_key a) as [ka|], (float_key b) as [kb|].
  - destruct H as [[-> Hk]|[[-> Hk]|[-> Hk]]].
    + split; [eauto|reflexivity].
    + split; [discriminate|]. intros (x & y & Hx & Hy & Hlt).
      inversion Hx; inversion Hy; subst. destruct (key_lt_irrefl _ Hlt).
    + split; [discriminate|]. intros (x & y & Hx & Hy & Hlt).
      inversion Hx; inversion Hy; subst. destruct (key_lt_asym _ _ Hk Hlt).
  - rewrite H. split; [discriminate|]. intros (x & y & Hx & Hy & _). discriminate.
  - rewrite H. split; [discriminate|]. intros (x & y & Hx & Hy & _). discriminate.
  - rewrite H. split; [discriminate|]. intros (x & y & Hx & Hy & _). discriminate.
Qed.

(** [a <= b] on floats is the order of the keys. *)
Lemma leb_key a b :
  (a <=? b)%float = true <->
  exists ka kb, float_key a = Some ka /\ float_key b = Some kb /\
                (key_lt ka kb \/ ka = kb).
Proof.
  rewrite leb_spec. unfold SFleb. pose proof (SFcompare_key a b) as H.
  destruct (float_key a) as [ka|], (float_key b) as [kb|].
  - destruct H as [[-> Hk]|[[-> Hk]|[-> Hk]]].
    + split; [eauto 10|reflexivity].
    + split; [eauto 10|reflexivity].
    + split; [discriminate|]. intros (x & y & Hx & Hy & [Hlt| ->]).
      * inversion Hx; inversion Hy; subst. destruct (key_lt_asym _ _ Hk Hlt).
      * inversion Hx; inversion Hy; subst. destruct (key_lt_irrefl _ Hk).
  - rewrite H. split; [discriminate|]. intros (x & y & Hx & Hy & _). discriminate.
  - rewrite H. split; [discriminate|]. intros (x & y & Hx & Hy & _). discriminate.
  - rewrite H. split; [discriminate|]. intros (x & y & Hx & Hy & _). discriminate.
Qed.

Lemma shift_left_value n k : Zpos (shift_left n k) = Zpos n * 2 ^ Z.of_nat k.
Proof.
  induction k as [|k IH].
  - simpl shift_left. change (2 ^ Z.of_nat 0) with 1. lia.
  - simpl shift_left. rewrite Nat2Z.inj_succ, Z.pow_succ_r by lia.
    rewrite Pos2Z.inj_xO, IH. ring.
Qed.

Lemma digits2_pos_shift_left n k :
  Zpos (digits2_pos (shift_left n k)) = Zpos (digits2_pos n) + Z.of_nat k.
Proof.
  induction k as [|k IH].
  - simpl shift_left. lia.
  - simpl shift_left. simpl digits2_pos. rewrite Pos2Z.inj_succ, IH. lia.
Qed.

Lemma digits2_pos_bounds n :
  2 ^ (Zpos (digits2_pos n) - 1) <= Zpos n < 2 ^ Zpos (digits2_pos n).
Proof.
  induction n as [n IH|n IH|]; simpl digits2_pos.
  - rewrite Pos2Z.inj_succ.
    replace (Z.succ (Zpos (digits2_pos n)) - 1) with (Z.succ (Zpos (digits2_pos n) - 1)) by lia.
    rewrite !Z.pow_succ_r by lia. lia.
  - rewrite Pos2Z.inj_succ.
    replace (Z.succ (Zpos (digits2_pos n)) - 1) with (Z.succ (Zpos (digits2_pos n) - 1)) by lia.
    rewrite !Z.pow_succ_r by lia. lia.
  - change (2 ^ (1 - 1)) with 1. change (2 ^ 1) with 2. lia.
Qed.

Lemma digits2_pos_53 n : Zpos n < 2 ^ 53 -> Zpos (digits2_pos n) <= 53.
Proof.
  intros Hn. pose proof (digits2_pos_bounds n) as [Hlo _].
  destruct (Z.le_gt_cases (Zpos (digits2_pos n)) 53) as [H|H]; [exact H|].
  assert (2 ^ 53 <= 2 ^ (Zpos (digits2_pos n) - 1)) by (apply Z.pow_le_mono_r; lia).
  lia.
Qed.

Lemma shiftl_shift_left n k :
  (0 < k)%nat -> Z.shiftl (Zpos n) (Z.of_nat k) = Zpos (shift_left n k).
Proof.
  intros Hk. rewrite Z.shiftl_mul_pow2 by lia. symmetry. apply shift_left_value.
Qed.

(** The quotient of a whole number below 2^53 by one is the number itself,
    written with a mantissa of 53 bits. *)
Lemma SFdiv_by_one s n :
  Zpos n < 2 ^ 53 ->
  SFdiv prec emax (S754_finite s n 0) (S754_finite false 1 0)
  = S754_finite s (shift_left n (Z.to_nat (53 - Zpos (digits2_pos n))))
                (Zpos (digits2_pos n) - 53).
Proof.
  intros Hn. pose proof (digits2_pos_53 n Hn) as Hd.
  assert (Hd1 : 1 <= Zpos (digits2_pos n)) by lia.
  remember (Z.to_nat (53 - Zpos (digits2_pos n))) as k eqn:Hk.
  assert (Hdk : Zpos (digits2_pos n) = 53 - Z.of_nat k) by lia.
  unfold SFdiv, SFdiv_core_binary.
  change (Zdigits2 (Zpos n)) with (Zpos (digits2_pos n)). change (Zdigits2 1) with 1.
  rewrite xorb_false_r, Hdk.
  assert (He : Z.min (fexp prec emax (53 - Z.of_nat k + 0 - (1 + 0))) (0 - 0)
               = - Z.of_nat (S k)).
  { unfold fexp, emin, prec, emax. lia. }
  rewrite He.
  replace (0 - 0 - - Z.of_nat (S k)) with (Z.of_nat (S k)) by lia.
  rewrite shiftl_shift_left by lia.
  destruct (Z.of_nat (S k)) as [|p|p] eqn:Hp; [lia| |lia].
  change (Z.div_eucl (Zpos (shift_left n (S k))) 1)
    with (Z.div_eucl (Zpos (xO (shift_left n k))) 1).
  assert (Hq : Z.div_eucl (Zpos (xO (shift_left n k))) 1 = (Zpos (xO (shift_left n k)), 0)).
  { pose proof (Z.div_eucl_eq (Zpos (xO (shift_left n k))) 1 ltac:(lia)) as Heq.
    pose proof (Z.mod_pos_bound (Zpos (xO (shift_left n k))) 1 ltac:(lia)) as Hb.
    unfold Z.modulo in Hb.
    destruct (Z.div_eucl (Zpos (xO (shift_left n k))) 1) as [q r].
    f_equal; lia. }
  rewrite Hq.
  change (new_location 1 0) with loc_Exact.
  unfold binary_round_aux, shr_fexp.
  change (Zdigits2 (Zpos (xO (shift_left n k))))
    with (Zpos (Pos.succ (digits2_pos (shift_left n k)))).
  rewrite Pos2Z.inj_succ, digits2_pos_shift_left, Hdk.
  replace (fexp prec emax (Z.succ (53 - Z.of_nat k + Z.of_nat k) + - Zpos p)
           - - Zpos p) with 1 by (unfold fexp, emin, prec, emax; lia).
  cbn [shr shr_record_of_loc SpecFloat.iter_pos shr_1 shr_m loc_of_shr_record round_nearest_even orb].
  change (Zdigits2 (Zpos (shift_left n k))) with (Zpos (digits2_pos (shift_left n k))).
  rewrite digits2_pos_shift_left, Hdk.
  replace (fexp prec emax (53 - Z.of_nat k + Z.of_nat k + (- Zpos p + 1))
           - (- Zpos p + 1)) with 0 by (unfold fexp, emin, prec, emax; lia).
  cbn [shr shr_record_of_loc shr_m].
  replace (- Zpos p + 1 <=? emax - prec) with true
    by (symmetry; apply Z.leb_le; unfold emax, prec; lia).
  f_equal. lia.
Qed.

Lemma float_key_finite s n :
  Zpos n < 2 ^ 53 ->
  float_key (float_of_ratio s (Zpos n) 1)
  = Some (if s then key_of_Z (Zneg n) else key_of_Z (Zpos n)).
Proof.
  intros Hn. pose proof (digits2_pos_53 n Hn) as Hd.
  unfold float_key, float_of_ratio. rewrite (SFdiv_by_one s n Hn).
  rewrite Prim2SF_SF2Prim.
  - unfold key_of_Z. rewrite shift_left_value, Z2Nat.id by lia.
    destruct s; repeat f_equal; lia.
  - unfold valid_binary, bounded, canonical_mantissa.
    rewrite digits2_pos_shift_left, Z2Nat.id by lia.
    apply andb_true_intro. split.
    + apply Z.eqb_eq. unfold fexp, emin, prec, emax. lia.
    + apply Z.leb_le. unfold prec, emax. lia.
Qed.

(** Below 2^53 the conversion of a whole number to a float is exact. *)
Lemma float_key_of_Z z :
  - 2 ^ 53 < z < 2 ^ 53 -> float_key (float_of_Z z) = Some (key_of_Z z).
Proof.
  intros Hz. unfold float_of_Z. destruct z as [|n|n].
  - reflexivity.
  - change (Zpos n <? 0) with false. change (Z.abs (Zpos n)) with (Zpos n).
    apply (float_key_finite false). lia.
  - change (Zneg n <? 0) with true. change (Z.abs (Zneg n)) with (Zpos n).
    apply (float_key_finite true). lia.
Qed.

Lemma digits2_pos_le n1 n2 :
  Zpos n1 <= Zpos n2 -> Zpos (digits2_pos n1) <= Zpos (digits2_pos n2).
Proof.
  intros Hle. pose proof (digits2_pos_bounds n1) as [H1 _].
  pose proof (digits2_pos_bounds n2) as [_ H2].
  destruct (Z.le_gt_cases (Zpos (digits2_pos n1)) (Zpos (digits2_pos n2)))
    as [H|H]; [exact H|].
  assert (2 ^ Zpos (digits2_pos n2) <= 2 ^ (Zpos (digits2_pos n1) - 1))
    by (apply Z.pow_le_mono_r; lia).
  lia.
Qed.

Lemma key_of_pos_lt n1 n2 :
  Zpos n1 < Zpos n2 -> Zpos n2 < 2 ^ 53 ->
  let d1 := Zpos (digits2_pos n1) in
  let d2 := Zpos (digits2_pos n2) in
  d1 < d2 \/ (d1 = d2 /\ Zpos n1 * 2 ^ (53 - d1) < Zpos n2 * 2 ^ (53 - d2)).
Proof.
  intros Hlt Hn2. cbv zeta.
  pose proof (digits2_pos_le n1 n2 ltac:(lia)) as Hd.
  pose proof (digits2_pos_53 n2 Hn2) as Hd2.
  destruct (Z.eq_dec (Zpos (digits2_pos n1)) (Zpos (digits2_pos n2))) as [He|Hne];
    [right|left; lia].
  split; [exact He|]. rewrite He.
  apply Z.mul_lt_mono_pos_r; [apply Z.pow_pos_nonneg; lia|exact Hlt].
Qed.

Lemma key_of_Z_lt a b :
  - 2 ^ 53 < a -> a < b -> b < 2 ^ 53 -> key_lt (key_of_Z a) (key_of_Z b).
Proof.
  intros Ha Hab Hb.
  destruct a as [|n1|n1], b as [|n2|n2]; unfold key_of_Z, key_lt; try lia.
  - pose proof (key_of_pos_lt n1 n2 ltac:(lia) ltac:(lia)) as H. cbv zeta in H. lia.
  - pose proof (key_of_pos_lt n2 n1 ltac:(lia) ltac:(lia)) as H. cbv zeta in H. lia.
Qed.

(** The conversion keeps the order of the whole numbers below 2^53. *)
Lemma float_of_Z_lt a b :
  - 2 ^ 53 < a -> a < b -> b < 2 ^ 53 ->
  (float_of_Z a <? float_of_Z b)%float = true.
Proof.
  intros Ha Hab Hb. apply ltb_key.
  exists (key_of_Z a), (key_of_Z b).
  split; [apply float_key_of_Z; lia|]. split; [apply float_key_of_Z; lia|].
  apply key_of_Z_lt; assumption.
Qed.

Lemma float_of_Z_le a b :
  - 2 ^ 53 < a -> a <= b -> b < 2 ^ 53 ->
  (float_of_Z a <=? float_of_Z b)%float = true.
Proof.
  intros Ha Hab Hb. apply leb_key.
  exists (key_of_Z a), (key_of_Z b).
  split; [apply float_key_of_Z; lia|]. split; [apply float_key_of_Z; lia|].
  destruct (Z.eq_dec a b) as [->|Hne]; [right; reflexivity|left].
  apply key_of_Z_lt; lia.
Qed.

Lemma ltb_trans a b c :
  (a <? b)%float = true -> (b <? c)%float = true -> (a <? c)%float = true.
Proof.
  rewrite !ltb_key. intros (ka & kb & Ha & Hb & H1) (kb' & kc & Hb' & Hc & H2).
  rewrite Hb in Hb'. inversion Hb'. subst kb'.
  exists ka, kc. split; [exact Ha|]. split; [exact Hc|].
  eapply key_lt_trans; eassumption.
Qed.

Lemma ltb_leb_false a b : (a <? b)%float = true -> (b <=? a)%float = false.
Proof.
  intros Hlt. destruct (b <=? a)%float eqn:Hle; [|reflexivity].
  apply ltb_key in Hlt. apply leb_key in Hle.
  destruct Hlt as (ka & kb & Ha & Hb & H1).
  destruct Hle as (kb' & ka' & Hb' & Ha' & H2).
  rewrite Ha in Ha'. rewrite Hb in Hb'. inversion Ha'. inversion Hb'. subst.
  destruct H2 as [H2| ->].
  - destruct (key_lt_asym _ _ H1 H2).
  - destruct (key_lt_irrefl _ H1).
Qed.

(** The floats that are numbers are totally ordered. *)
Lemma ltb_false_leb a b x :
  (a <=? x)%float = true -> (a <? b)%float = true -> (x <? b)%float = false ->
  (b <=? x)%float = true.
Proof.
  intros Hax Hab Hxb.
  apply leb_key in Hax. destruct Hax as (ka & kx & Ha & Hx & _).
  apply ltb_key in Hab. destruct Hab as (ka' & kb & _ & Hb & _).
  apply leb_key. exists kb, kx. split; [exact Hb|]. split; [exact Hx|].
  destruct (key_lt_total kb kx) as [H|[H|H]]; [left; exact H|right; exact H|].
  assert (Hlt : (x <? b)%float = true).
  { apply ltb_key. exists kx, kb. auto. }
  congruence.
Qed.

Lemma leb_same_key a a' b :
  float_key a = float_key a' -> (a' <=? b)%float = true -> (a <=? b)%float = true.
Proof.
  intros Hk. rewrite !leb_key. intros (ka & kb & Ha & Hb & H).
  exists ka, kb. rewrite Hk. auto.
Qed.

(** Adding a zero keeps the place of a float in the order. *)
Lemma zero_times_plus_key step first :
  float_key (float_of_nat 0 * step + first)%float = None \/
  float_key (float_of_nat 0 * step + first)%float = float_key first.
Proof.
  unfold float_key. rewrite add_spec, mul_spec.
  change (Prim2SF (float_of_nat 0)) with (S754_zero false).
  unfold SF64add, SF64mul.
  destruct (Prim2SF step) as [s|s| |s m e]; simpl SFmul;
    destruct (Prim2SF first) as [s'|s'| |s' m' e']; simpl; auto;
    destruct s; simpl; auto; destruct s'; simpl; auto.
Qed.

Lemma increasing_lookup bins : forall i a b,
  increasing bins = true -> bins !! i = Some a -> bins !! S i = Some b ->
  (a <? b)%float = true.
Proof.
  induction bins as [|x bins IH]; intros i a b Hinc Ha Hb; [discriminate|].
  destruct bins as [|y bins]; [destruct i; discriminate|].
  simpl in Hinc. apply andb_true_iff in Hinc. destruct Hinc as [Hxy Hinc].
  destruct i as [|i].
  - simpl in Ha, Hb. inversion Ha. inversion Hb. subst. exact Hxy.
  - apply (IH i); assumption.
Qed.

Lemma increasing_lt bins i a : forall k b,
  increasing bins = true -> bins !! i = Some a ->
  bins !! (i + S k)%nat = Some b -> (a <? b)%float = true.
Proof.
  induction k as [|k IH]; intros b Hinc Ha Hb.
  - replace (i + 1)%nat with (S i) in Hb by lia.
    eapply increasing_lookup; eassumption.
  - destruct (bins !! (i + S k)%nat) as [c|] eqn:Hc.
    + apply (ltb_trans a c b); [apply IH; auto|].
      replace (i + S (S k))%nat with (S (i + S k)) in Hb by lia.
      eapply increasing_lookup; eassumption.
    + apply lookup_ge_None in Hc. apply lookup_lt_Some in Hb. lia.
Qed.

Lemma increasing_no_collapse bins :
  increasing bins = true -> edges_collapse bins = false.
Proof.
  induction bins as [|x bins IH]; [reflexivity|].
  destruct bins as [|y bins]; [reflexivity|].
  intros Hinc. simpl in Hinc. apply andb_true_iff in Hinc. destruct Hinc as [Hxy Hinc].
  change (edges_collapse (x :: y :: bins))
    with ((y <=? x)%float || edges_collapse (y :: bins)).
  rewrite (ltb_leb_false _ _ Hxy), (IH Hinc). reflexivity.
Qed.

Lemma filter_none {A} (f : A -> bool) l :
  (forall x, In x l -> f x = false) -> List.filter f l = [].
Proof.
  induction l as [|a l IH]; intros H; [reflexivity|]. simpl.
  rewrite (H a (or_introl eq_refl)). apply IH. intros x Hx. apply H. right. exact Hx.
Qed.

(** A sample below an edge lies in none of the bins from that edge on. *)
Lemma in_bin_after bins n j b' x i :
  increasing bins = true -> bins !! j = Some b' -> (x <? b')%float = true ->
  (j <= i)%nat -> in_bin bins n i x = false.
Proof.
  intros Hinc Hb Hx Hi. unfold in_bin.
  destruct (bins !! i) as [l|] eqn:Hl; [|reflexivity].
  destruct (bins !! S i) as [r|]; [|reflexivity].
  assert (Hlx : (l <=? x)%float = false).
  { apply ltb_leb_false.
    destruct (Nat.eq_dec i j) as [->|Hne].
    - rewrite Hb in Hl. inversion Hl. subst. exact Hx.
    - apply (ltb_trans x b' l); [exact Hx|].
      apply (increasing_lt bins j b' (i - j - 1)); [exact Hinc|exact Hb|].
      replace (j + S (i - j - 1))%nat with i by lia. exact Hl. }
  rewrite Hlx. reflexivity.
Qed.

(** A sample between the first and the last edge lies in exactly one bin. *)
Lemma one_bin bins n x bn :
  length bins = S n -> increasing bins = true ->
  bins !! n = Some bn -> (x <=? bn)%float = true ->
  forall m j bj, (j + S m = n)%nat ->
    bins !! j = Some bj -> (bj <=? x)%float = true ->
    length (List.filter (fun i => in_bin bins n i x) (seq j (S m))) = 1%nat.
Proof.
  intros Hlen Hinc Hbn Hxn.
  induction m as [|m IH]; intros j bj Hj Hbj Hjx.
  - simpl. unfold in_bin. rewrite Hbj. replace (S j) with n by lia.
    rewrite Hbn, Hjx, Nat.eqb_refl, Hxn. reflexivity.
  - destruct (bins !! S j) as [b'|] eqn:Hb'.
    2:{ apply lookup_ge_None in Hb'. lia. }
    change (seq j (S (S m))) with (j :: seq (S j) (S m)).
    cbn [List.filter].
    assert (Hin : in_bin bins n j x = (x <? b')%float).
    { unfold in_bin. rewrite Hbj, Hb', Hjx.
      destruct (Nat.eqb_spec (S j) n) as [He|He]; [lia|reflexivity]. }
    rewrite Hin. destruct (x <? b')%float eqn:Hx.
    + cbn [length]. rewrite filter_none; [reflexivity|].
      intros i Hi. apply in_seq in Hi.
      apply (in_bin_after bins n (S j) b' x i); [exact Hinc|exact Hb'|exact Hx|lia].
    + apply (IH (S j) b'); [lia|exact Hb'|].
      apply (ltb_false_leb bj b' x); [exact Hjx| |exact Hx].
      eapply increasing_lookup; eassumption.
Qed.

Lemma sum_counts_cons (P : nat -> Z -> bool) x data : forall bins_ix,
  fold_left Z.add
    (map (fun i => Z.of_nat (length (List.filter (P i) (x :: data)))) bins_ix) 0
  = Z.of_nat (length (List.filter (fun i => P i x) bins_ix))
    + fold_left Z.add
        (map (fun i => Z.of_nat (length (List.filter (P i) data))) bins_ix) 0.
Proof.
  induction bins_ix as [|i l IH]; [reflexivity|].
  cbn [map fold_left].
  rewrite (sum_from _ (0 + Z.of_nat (length (List.filter (P i) (x :: data))))), IH.
  rewrite (sum_from _ (0 + Z.of_nat (length (List.filter (P i) data)))).
  cbn [List.filter]. destruct (P i x); cbn [length]; lia.
Qed.

(** When every sample lies in exactly one bin, the counts add up to the
    number of samples. *)
Lemma sum_counts (P : nat -> Z -> bool) bins_ix data :
  (forall x, In x data ->
     length (List.filter (fun i => P i x) bins_ix) = 1%nat) ->
  fold_left Z.add
    (map (fun i => Z.of_nat (length (List.filter (P i) data))) bins_ix) 0
  = Z.of_nat (length data).
Proof.
  induction data as [|x data IH]; intros Hone.
  - clear Hone. induction bins_ix as [|i l IHl]; [reflexivity|exact IHl].
  - rewrite sum_counts_cons, (Hone x (or_introl eq_refl)), IH.
    + simpl length. lia.
    + intros y Hy. apply Hone. right. exact Hy.
Qed.

Lemma fold_min_le l : forall a, fold_left Z.min l a <= a /\
  (forall x, In x l -> fold_left Z.min l a <= x) /\
  (fold_left Z.min l a = a \/ In (fold_left Z.min l a) l).
Proof.
  induction l as [|y l IH]; intros a; simpl.
  - split; [lia|]. split; [intros x []|left; reflexivity].
  - destruct (IH (Z.min a y)) as (H1 & H2 & H3).
    split; [lia|]. split.
    + intros x [<-|Hx]; [lia|apply H2, Hx].
    + destruct H3 as [H3|H3]; [|right; right; exact H3].
      rewrite H3. destruct (Z.min_spec a y) as [[_ ->]|[_ ->]]; auto.
Qed.

Lemma fold_max_ge l : forall a, a <= fold_left Z.max l a /\
  (forall x, In x l -> x <= fold_left Z.max l a) /\
  (fold_left Z.max l a = a \/ In (fold_left Z.max l a) l).
Proof.
  induction l as [|y l IH]; intros a; simpl.
  - split; [lia|]. split; [intros x []|left; reflexivity].
  - destruct (IH (Z.max a y)) as (H1 & H2 & H3).
    split; [lia|]. split.
    + intros x [<-|Hx]; [lia|apply H2, Hx].
    + destruct H3 as [H3|H3]; [|right; right; exact H3].
      rewrite H3. destruct (Z.max_spec a y) as [[_ ->]|[_ ->]]; auto.
Qed.

(** [list_min] and [list_max] are the least and the greatest sample. *)
Lemma list_min_max data :
  data <> [] ->
  In (list_min data) data /\ In (list_max data) data /\
  forall x, In x data -> list_min data <= x <= list_max data.
Proof.
  destruct data as [|a l]; [congruence|]. intros _. unfold list_min, list_max.
  destruct (fold_min_le l a) as (H1 & H2 & H3).
  destruct (fold_max_ge l a) as (H4 & H5 & H6).
  split; [destruct H3 as [->|H3]; [left; reflexivity|right; exact H3]|].
  split; [destruct H6 as [->|H6]; [left; reflexivity|right; exact H6]|].
  intros x [<-|Hx]; [lia|]. split; [apply H2, Hx|apply H5, Hx].
Qed.

(** ** The split point of the histogram *)

Lemma split_loop_spec total : forall bs acc,
  bs <> [] -> total <= 2 * (acc + csum bs) ->
  exists i count left_edge right_edge,
    bs !! i = Some (count, left_edge, right_edge) /\
    total <= 2 * (acc + csum (take (S i) bs)) /\
    (forall j, (j < i)%nat -> 2 * (acc + csum (take (S j) bs)) < total) /\
    split_loop total acc bs
    = Ok (interpolate total (acc + csum (take i bs)) count left_edge right_edge).
Proof.
  induction bs as [|[[count l] r] bs IH]; intros acc Hne Hsum; [congruence|].
  simpl in Hsum. simpl split_loop.
  destruct (Z.leb_spec total (2 * (acc + count))) as [Hle|Hgt].
  - exists 0%nat, count, l, r. split; [reflexivity|].
    split; [simpl; rewrite ?take_0; simpl; lia|].
    split; [intros j Hj; lia|].
    rewrite ?take_0. simpl. unfold interpolate.
    replace (acc + count - count) with acc by lia.
    replace (acc + 0) with acc by lia. reflexivity.
  - assert (Hne' : bs <> []) by (intros ->; simpl in Hsum; lia).
    destruct (IH (acc + count) Hne' ltac:(lia))
      as (i & c & le & re & Hi & Hreach & Hbefore & Hloop).
    exists (S i), c, le, re. split; [exact Hi|].
    split; [simpl; simpl in Hreach; lia|].
    split.
    + intros [|j] Hj; simpl.
      * rewrite ?take_0. simpl. lia.
      * specialize (Hbefore j ltac:(lia)). simpl in Hbefore. lia.
    + rewrite Hloop. simpl. f_equal. f_equal. lia.
Qed.

Lemma zip3_lookup a b c i x y z :
  zip3 a b c !! i = Some (x, y, z) ->
  a !! i = Some x /\ b !! i = Some y /\ c !! i = Some z.
Proof.
  revert b c i. induction a as [|x0 a IH]; intros [|y0 b] [|z0 c] i;
    simpl; try discriminate.
  destruct i as [|i]; simpl.
  - intros Hx. inversion Hx. auto.
  - apply IH.
Qed.

Lemma zip3_csum_take a : forall b c k,
  (length a <= length b)%nat -> (length a <= length c)%nat ->
  csum (take k (zip3 a b c)) = running_sum a k.
Proof.
  unfold running_sum.
  induction a as [|x a IH]; intros [|y b] [|z c] k Hb Hc; simpl in *;
    try lia; try (destruct k; reflexivity).
  destruct k as [|k]; simpl; [reflexivity|].
  rewrite IH by lia. rewrite (sum_from _ (0 + x)). lia.
Qed.

Lemma zip3_nonempty a b c :
  a <> [] -> b <> [] -> c <> [] -> zip3 a b c <> [].
Proof. destruct a, b, c; simpl; congruence. Qed.

Lemma take_all {A} (l : list A) : take (length l) l = l.
Proof. apply firstn_all. Qed.

Lemma removelast_lookup {A} (l : list A) i y :
  removelast l !! i = Some y -> l !! i = Some y.
Proof.
  revert i. induction l as [|x l IH]; intros i; simpl; [discriminate|].
  destruct l as [|x' l]; [destruct i; discriminate|].
  destruct i as [|i]; simpl; [auto|]. apply IH.
Qed.

Lemma tl_lookup {A} (l : list A) i : tl l !! i = l !! S i.
Proof. destruct l; reflexivity. Qed.

Lemma linspace_lookup first last n i :
  (i < n)%nat ->
  linspace first last n !! i
  = Some (if is_zero ((last - first) / float_of_nat n)
          then (float_of_nat i / float_of_nat n * (last - first) + first)%float
          else (float_of_nat i * ((last - first) / float_of_nat n) + first)%float).
Proof.
  intros Hi. unfold linspace.
  rewrite lookup_app_l by (rewrite length_map, length_seq; exact Hi).
  rewrite list_lookup_fmap, lookup_seq_lt by exact Hi. reflexivity.
Qed.

Lemma linspace_last first last n : linspace first last n !! n = Some last.
Proof.
  unfold linspace.
  rewrite lookup_app_r by (rewrite length_map, length_seq; lia).
  rewrite length_map, length_seq, Nat.sub_diag. reflexivity.
Qed.

Lemma ltb_not_eqb (a b : float) : (a <? b)%float = true -> (a =? b)%float = false.
Proof.
  rewrite ltb_spec, FloatAxioms.eqb_spec. unfold SFltb, SFeqb.
  destruct (SFcompare (Prim2SF a) (Prim2SF b)) as [[]|]; congruence.
Qed.

Lemma length_removelast_tl {A} (l : list A) :
  length (removelast l) = (length l - 1)%nat /\ length (tl l) = (length l - 1)%nat.
Proof.
  split; [|destruct l; simpl; lia].
  induction l as [|x l IH]; [reflexivity|].
  destruct l as [|y l]; [reflexivity|].
  change (S (length (removelast (y :: l))) = (length (x :: y :: l) - 1)%nat).
  rewrite IH. simpl. lia.
Qed.

Lemma zip3_length_le (a : list Z) : forall (b c : list float),
  (length (zip3 a b c) <= length a)%nat.
Proof.
  induction a as [|x a IH]; intros [|y b] [|z c]; simpl; try lia.
  specialize (IH b c). lia.
Qed.

(** What a histogram that [hist] returns is made of. *)
Lemma hist_Ok data n counts bins :
  hist data n = Ok (counts, bins) ->
  forallb fits_64_bits data = true /\
  bins = (if list_min data =? list_max data
          then linspace (float_of_Z (list_min data) - 0.5)
                        (float_of_Z (list_max data) + 0.5) n
          else linspace (float_of_Z (list_min data)) (float_of_Z (list_max data)) n) /\
  edges_collapse bins = false /\
  counts = map (fun i => Z.of_nat (length (List.filter
                   (fun x => in_bin bins n i (float_of_Z x)) data)))
               (seq 0 n).
Proof.
  unfold hist. destruct (forallb fits_64_bits data); [|discriminate].
  destruct (list_min data =? list_max data);
    match goal with |- context [edges_collapse ?b] => destruct (edges_collapse b) eqn:Hc end;
    try discriminate; intros Hx; inversion Hx; subst; auto.
Qed.


Lemma linspace_length first last n : length (linspace first last n) = S n.
Proof.
  unfold linspace. rewrite length_app, length_map, length_seq. simpl. lia.
Qed.

Lemma hist_shape data n counts bins :
  hist data n = Ok (counts, bins) -> length counts = n /\ length bins = S n.
Proof.
  intros Hh. apply hist_Ok in Hh. destruct Hh as (_ & Hb & _ & Hc).
  split.
  - rewrite Hc, length_map, length_seq. reflexivity.
  - rewrite Hb. destruct (list_min data =? list_max data); apply linspace_length.
Qed.



Lemma fits_below_2_53 data :
  Forall (fun x => - 2 ^ 53 < x < 2 ^ 53) data -> forallb fits_64_bits data = true.
Proof.
  intros H. apply forallb_forall. intros x Hx.
  rewrite Forall_forall in H. specialize (H x).
  assert (Hin : x ∈ data) by (apply list_elem_of_In; exact Hx).
  specialize (H Hin). unfold fits_64_bits. apply andb_true_intro. split.
  - apply Z.leb_le. lia.
  - apply Z.ltb_lt. lia.
Qed.

(** The loop on a histogram: it stops at the first bin at which the
    running sum reaches half of the total. *)
Lemma split_loop_hist counts bins :
  length counts = 20%nat -> length bins = 21%nat ->
  0 <= running_sum counts 20 ->
  exists i count left_edge right_edge,
    counts !! i = Some count /\
    bins !! i = Some left_edge /\ bins !! S i = Some right_edge /\
    running_sum counts 20 <= 2 * running_sum counts (S i) /\
    (forall j, (j < i)%nat ->
       2 * running_sum counts (S j) < running_sum counts 20) /\
    split_loop (fold_left Z.add counts 0) 0 (zip3 counts (removelast bins) (tl bins))
    = Ok (interpolate (running_sum counts 20) (running_sum counts i) count
                      left_edge right_edge).
Proof.
  intros Hlc Hlb Hnonneg.
  destruct (length_removelast_tl bins) as [Hlr Hlt].
  assert (Htotal : fold_left Z.add counts 0 = running_sum counts 20).
  { unfold running_sum. rewrite <- Hlc, take_all. reflexivity. }
  rewrite Htotal.
  destruct (split_loop_spec (running_sum counts 20)
              (zip3 counts (removelast bins) (tl bins)) 0)
    as (i & count & l & r & Hi & Hreach & Hbefore & Hloop).
  { apply zip3_nonempty; intros Hx;
      [rewrite Hx in Hlc|rewrite Hx in Hlr|rewrite Hx in Hlt];
      simpl in *; lia. }
  { rewrite <- (take_ge (zip3 counts (removelast bins) (tl bins)) 20).
    - rewrite zip3_csum_take by lia. lia.
    - pose proof (zip3_length_le counts (removelast bins) (tl bins)). lia. }
  apply zip3_lookup in Hi. destruct Hi as (Hc & Hl & Hr).
  apply removelast_lookup in Hl. rewrite tl_lookup in Hr.
  exists i, count, l, r.
  split; [exact Hc|]. split; [exact Hl|]. split; [exact Hr|].
  split.
  { rewrite zip3_csum_take in Hreach by lia. lia. }
  split.
  { intros j Hj. specialize (Hbefore j Hj).
    rewrite zip3_csum_take in Hbefore by lia. lia. }
  rewrite Hloop. rewrite zip3_csum_take by lia. reflexivity.
Qed.

(** Every sample lies between the first and the last edge. *)
Lemma sample_within_edges data x first_edge step :
  data <> [] -> Forall (fun x => - 2 ^ 53 < x < 2 ^ 53) data -> In x data ->
  first_edge = (float_of_nat 0 * step + float_of_Z (list_min data))%float ->
  float_key first_edge <> None ->
  (first_edge <=? float_of_Z x)%float = true /\
  (float_of_Z x <=? float_of_Z (list_max data))%float = true.
Proof.
  intros Hne Hall Hx -> Hkey.
  destruct (list_min_max data Hne) as (Hmin & Hmax & Hbound).
  rewrite Forall_forall in Hall.
  assert (Hb : forall y, In y data -> - 2 ^ 53 < y < 2 ^ 53).
  { intros y Hy. apply Hall, list_elem_of_In, Hy. }
  pose proof (Hb _ Hmin) as Hbmin. pose proof (Hb _ Hmax) as Hbmax.
  pose proof (Hb _ Hx) as Hbx. pose proof (Hbound _ Hx) as Hxx.
  split.
  - apply (leb_same_key _ (float_of_Z (list_min data))).
    + destruct (zero_times_plus_key step (float_of_Z (list_min data))) as [H|H];
        [contradiction|exact H].
    + apply float_of_Z_le; lia.
  - apply float_of_Z_le; lia.
Qed.

(** C9: for a non-empty list of samples below 2^53 in absolute value,
    whose least and greatest sample differ and whose 21 edges
    [min + i * width], with [width = (max - min) / 20], increase strictly,
    the histogram has 20 bins over these edges, the last edge being [max];
    a bin counts the samples from its left edge up to its right edge, which
    only the last bin includes, and the counts add up to the number of
    samples; the loop selects the first bin at which the running sum of
    the counts reaches half of that number, and the split point is
    [left + ((total / 2 - sum_before) / count) * (right - left)] for the
    edges and the count of that bin. *)
Theorem C9_split_point (data : list Z) :
  data <> [] ->
  Forall (fun x => - 2 ^ 53 < x < 2 ^ 53) data ->
  list_min data < list_max data ->
  increasing (linspace (float_of_Z (list_min data))
                       (float_of_Z (list_max data)) 20) = true ->
  is_zero ((float_of_Z (list_max data) - float_of_Z (list_min data))
           / float_of_nat 20) = false ->
  In (list_min data) data /\ In (list_max data) data /\
  (forall x, In x data -> list_min data <= x <= list_max data) /\
  exists counts bins,
    hist data 20 = Ok (counts, bins) /\
    length counts = 20%nat /\ length bins = 21%nat /\
    (forall i, (i < 20)%nat ->
       bins !! i
       = Some (float_of_nat i
               * ((float_of_Z (list_max data) - float_of_Z (list_min data))
                  / float_of_nat 20)
               + float_of_Z (list_min data))%float) /\
    bins !! 20%nat = Some (float_of_Z (list_max data)) /\
    (forall i left_edge right_edge, (i < 20)%nat ->
       bins !! i = Some left_edge -> bins !! S i = Some right_edge ->
       (left_edge <? right_edge)%float = true /\
       counts !! i
       = Some (Z.of_nat (length (List.filter
                 (fun x => (left_edge <=? float_of_Z x)%float
                           && (if (i =? 19)%nat
                               then (float_of_Z x <=? right_edge)%float
                               else (float_of_Z x <? right_edge)%float))
                 data)))) /\
    (forall x, In x data ->
       length (List.filter (fun i => in_bin bins 20 i (float_of_Z x)) (seq 0 20))
       = 1%nat) /\
    running_sum counts 20 = Z.of_nat (length data) /\
    exists i count left_edge right_edge,
      counts !! i = Some count /\
      bins !! i = Some left_edge /\ bins !! S i = Some right_edge /\
      Z.of_nat (length data) <= 2 * running_sum counts (S i) /\
      (forall j, (j < i)%nat ->
         2 * running_sum counts (S j) < Z.of_nat (length data)) /\
      split_point data
      = Ok (left_edge
            + (float_of_Z (Z.of_nat (length data)) / 2
               - float_of_Z (running_sum counts i)) / float_of_Z count
              * (right_edge - left_edge))%float.
Proof.
  intros Hne Hall Hrange Hinc Hwidth.
  destruct (list_min_max data Hne) as (Hmin & Hmax & Hbound).
  split; [exact Hmin|]. split; [exact Hmax|]. split; [exact Hbound|].
  set (bins := linspace (float_of_Z (list_min data)) (float_of_Z (list_max data)) 20)
    in *.
  set (counts := map (fun i => Z.of_nat (length (List.filter
                        (fun x => in_bin bins 20 i (float_of_Z x)) data)))
                     (seq 0 20)).
  assert (Hhist : hist data 20 = Ok (counts, bins)).
  { unfold hist. rewrite (fits_below_2_53 data Hall).
    destruct (Z.eqb_spec (list_min data) (list_max data)) as [He|_]; [lia|].
    fold bins. rewrite (increasing_no_collapse bins Hinc). reflexivity. }
  destruct (hist_shape data 20 counts bins Hhist) as [Hlc Hlb].
  exists counts, bins. split; [exact Hhist|].
  split; [exact Hlc|]. split; [exact Hlb|].
  assert (Hedges : forall i, (i < 20)%nat ->
            bins !! i
            = Some (float_of_nat i
                    * ((float_of_Z (list_max data) - float_of_Z (list_min data))
                       / float_of_nat 20)
                    + float_of_Z (list_min data))%float).
  { intros i Hi. unfold bins. rewrite (linspace_lookup _ _ 20 i Hi), Hwidth.
    reflexivity. }
  split; [exact Hedges|].
  assert (Hlast : bins !! 20%nat = Some (float_of_Z (list_max data)))
    by apply linspace_last.
  split; [exact Hlast|].
  split.
  { intros i l r Hi Hl Hr. split; [eapply increasing_lookup; eassumption|].
    unfold counts. rewrite list_lookup_fmap, lookup_seq_lt by exact Hi.
    cbn [fmap option_fmap option_map]. unfold in_bin.
    change (0 + i)%nat with i. rewrite Hl, Hr.
    replace (S i =? 20)%nat with (i =? 19)%nat; [reflexivity|].
    destruct (Nat.eqb_spec i 19), (Nat.eqb_spec (S i) 20); try reflexivity; lia. }
  assert (Hone : forall x, In x data ->
            length (List.filter (fun i => in_bin bins 20 i (float_of_Z x)) (seq 0 20))
            = 1%nat).
  { intros x Hx.
    pose proof (Hedges 0%nat ltac:(lia)) as H0.
    pose proof (Hedges 1%nat ltac:(lia)) as H1.
    pose proof (increasing_lookup bins 0 _ _ Hinc H0 H1) as H01.
    destruct (sample_within_edges data x _
                ((float_of_Z (list_max data) - float_of_Z (list_min data))
                 / float_of_nat 20)%float Hne Hall Hx eq_refl) as [Hlo Hhi].
    { apply ltb_key in H01. destruct H01 as (k0 & k1 & -> & _). discriminate. }
    apply (one_bin bins 20 (float_of_Z x) (float_of_Z (list_max data))
             Hlb Hinc Hlast Hhi 19 0%nat _ eq_refl H0 Hlo). }
  split; [exact Hone|].
  assert (Htotal : running_sum counts 20 = Z.of_nat (length data)).
  { unfold running_sum. rewrite <- Hlc, take_all. unfold counts.
    apply (sum_counts (fun i x => in_bin bins 20 i (float_of_Z x))). exact Hone. }
  split; [exact Htotal|].
  destruct (split_loop_hist counts bins Hlc Hlb ltac:(lia))
    as (i & count & l & r & Hc & Hl & Hr & Hreach & Hbefore & Hloop).
  exists i, count, l, r.
  split; [exact Hc|]. split; [exact Hl|]. split; [exact Hr|].
  rewrite Htotal in Hreach, Hloop.
  split; [exact Hreach|].
  split; [intros j Hj; rewrite <- Htotal; apply Hbefore, Hj|].
  unfold split_point. rewrite Hhist. exact Hloop.
Qed.

Lemma C9_witness :
  exists counts bins i count left_edge right_edge,
    hist sample_focal_lengths 20 = Ok (counts, bins) /\
    running_sum counts 20 = 6 /\
    counts !! i = Some count /\
    bins !! i = Some left_edge /\ bins !! S i = Some right_edge /\
    split_point sample_focal_lengths
    = Ok (left_edge
          + (float_of_Z 6 / 2 - float_of_Z (running_sum counts i)) / float_of_Z count
            * (right_edge - left_edge))%float.
Proof.
  destruct (C9_split_point sample_focal_lengths)
    as (_ & _ & _ & counts & bins & Hh & _ & _ & _ & _ & _ & _ & Ht
        & i & count & l & r & Hc & Hl & Hr & _ & _ & Hs).
  - discriminate.
  - repeat constructor; lia.
  - vm_compute. reflexivity.
  - vm_compute. reflexivity.
  - vm_compute. reflexivity.
  - exists counts, bins, i, count, l, r. auto 10.
Defined.

(** ** What a counter holds after a run *)

Section CounterValues.
Context {K : Type} `{PyEq K}.
Variable good : K -> Prop.
Hypothesis eqb_sound : forall a b, good a -> py_eqb a b = true -> a = b.

Lemma dict_get_bump_first_same (d : dict K) a x :
  has_key d a = true -> dict_get (bump_first d a) a x = dict_get d a x + 1.
Proof.
  induction d as [|[k' v] d IH]; simpl; [discriminate|].
  destruct (py_eqb k' a) eqn:E; simpl.
  - intros _. rewrite E. reflexivity.
  - intros Hk. rewrite E. apply IH, Hk.
Qed.

Lemma dict_get_bump_first_other (d : dict K) a k x :
  Forall good (keys d) -> py_eqb a k = false ->
  dict_get (bump_first d a) k x = dict_get d k x.
Proof.
  intros Hg Hak. induction d as [|[k' v] d IH]; simpl; [reflexivity|].
  inversion Hg as [|? ? Hk' Hd]; subst. simpl in Hk'.
  destruct (py_eqb k' a) eqn:E; simpl.
  - apply (eqb_sound _ _ Hk') in E. subst a. rewrite Hak. reflexivity.
  - destruct (py_eqb k' k); [reflexivity|]. apply IH, Hd.
Qed.

Lemma dict_get_snoc (d : dict K) a k x :
  dict_get (d ++ [(a, 1)]) k x
  = if has_key d k then dict_get d k x else if py_eqb a k then 1 else x.
Proof.
  induction d as [|[k' v] d IH]; simpl; [reflexivity|].
  destruct (py_eqb k' k); simpl; [reflexivity|apply IH].
Qed.

Lemma has_key_good_refl (d : dict K) k :
  Forall good (keys d) -> has_key d k = true ->
  py_eqb k k = true /\ In k (keys d).
Proof.
  intros Hg. induction d as [|[k' v] d IH]; simpl; [discriminate|].
  inversion Hg as [|? ? Hk' Hd]; subst. simpl in Hk'.
  destruct (py_eqb k' k) eqn:E; simpl.
  - intros _. pose proof (eqb_sound _ _ Hk' E). subst k'. auto.
  - intros Hk. destruct (IH Hd Hk). auto.
Qed.

Lemma has_key_of_In (d : dict K) k :
  py_eqb k k = true -> In k (keys d) -> has_key d k = true.
Proof.
  intros Hr. induction d as [|[k' v] d IH]; simpl; [tauto|].
  intros [->|Hin]; [rewrite Hr; reflexivity|].
  rewrite (IH Hin). apply orb_true_r.
Qed.

(** [d[k] = d.get(k, 0) + 1] adds one to what a later [d.get(k', 0)]
    answers exactly when [k == k']. *)
Lemma dict_get_incr (d : dict K) a k :
  Forall good (keys d) -> good a ->
  dict_get (dict_incr d a) k 0
  = dict_get d k 0 + (if py_eqb a k then 1 else 0).
Proof.
  intros Hg Ha. rewrite dict_set_get_bump.
  destruct (has_key d a) eqn:Hda.
  - destruct (py_eqb a k) eqn:Hak.
    + pose proof (eqb_sound _ _ Ha Hak). subst k.
      apply dict_get_bump_first_same, Hda.
    + rewrite (dict_get_bump_first_other _ _ _ _ Hg Hak). lia.
  - rewrite dict_get_snoc. destruct (has_key d k) eqn:Hdk.
    + destruct (py_eqb a k) eqn:Hak; [|lia].
      pose proof (eqb_sound _ _ Ha Hak). subst k. congruence.
    + rewrite (dict_get_absent _ _ _ Hdk). reflexivity.
Qed.

Lemma keys_incr_good (d : dict K) a :
  Forall good (keys d) -> good a -> Forall good (keys (dict_incr d a)).
Proof.
  intros Hg Ha. rewrite keys_dict_incr. destruct (has_key d a); [exact Hg|].
  apply Forall_app. split; [exact Hg|]. constructor; [exact Ha|constructor].
Qed.

Lemma keys_fold_good ks : forall d : dict K,
  Forall good (keys d) -> Forall good ks ->
  Forall good (keys (fold_left dict_incr ks d)).
Proof.
  induction ks as [|a ks IH]; intros d Hg Hks; simpl; [exact Hg|].
  inversion Hks; subst. apply IH; [apply keys_incr_good|]; assumption.
Qed.

Lemma occurrences_cons (a : K) ks k :
  occurrences (a :: ks) k = (if py_eqb a k then 1 else 0) + occurrences ks k.
Proof.
  unfold occurrences. simpl. destruct (py_eqb a k); simpl; lia.
Qed.

Lemma occurrences_app (ks ks' : list K) k :
  occurrences (ks ++ ks') k = occurrences ks k + occurrences ks' k.
Proof.
  unfold occurrences. rewrite List.filter_app, length_app. lia.
Qed.

Lemma dict_get_fold ks k : forall d : dict K,
  Forall good (keys d) -> Forall good ks ->
  dict_get (fold_left dict_incr ks d) k 0 = dict_get d k 0 + occurrences ks k.
Proof.
  induction ks as [|a ks IH]; intros d Hg Hks; simpl.
  - unfold occurrences. simpl. lia.
  - inversion Hks; subst.
    rewrite IH by (try apply keys_incr_good; assumption).
    rewrite dict_get_incr by assumption. rewrite occurrences_cons. lia.
Qed.

(** Every counted value is a key. *)
Lemma keys_incr_mono (d : dict K) a k :
  In k (keys d) -> In k (keys (dict_incr d a)).
Proof.
  intros Hin. rewrite keys_dict_incr. destruct (has_key d a); [exact Hin|].
  apply in_or_app. left. exact Hin.
Qed.

Lemma keys_fold_mono ks : forall (d : dict K) k,
  In k (keys d) -> In k (keys (fold_left dict_incr ks d)).
Proof.
  induction ks as [|a ks IH]; intros d k Hin; simpl; [exact Hin|].
  apply IH, keys_incr_mono, Hin.
Qed.

Lemma keys_incr_self (d : dict K) a :
  Forall good (keys d) -> In a (keys (dict_incr d a)).
Proof.
  intros Hg. rewrite keys_dict_incr. destruct (has_key d a) eqn:Hda.
  - apply (has_key_good_refl _ _ Hg Hda).
  - apply in_or_app. right. left. reflexivity.
Qed.

Lemma keys_fold_counted ks : forall (d : dict K) k,
  Forall good (keys d) -> Forall good ks ->
  In k ks -> In k (keys (fold_left dict_incr ks d)).
Proof.
  induction ks as [|a ks IH]; intros d k Hg Hks Hin; simpl; [destruct Hin|].
  inversion Hks; subst. destruct Hin as [->|Hin].
  - apply keys_fold_mono, keys_incr_self, Hg.
  - apply IH; [apply keys_incr_good| |]; assumption.
Qed.

(** Every count is at least one. *)
Lemma bump_first_positive (d : dict K) a :
  Forall (fun kv => 1 <= snd kv) d -> Forall (fun kv => 1 <= snd kv) (bump_first d a).
Proof.
  induction 1 as [|[k v] d Hv Hd IH]; simpl; [constructor|].
  destruct (py_eqb k a); constructor; simpl in *; try assumption; lia.
Qed.

Lemma dict_incr_positive (d : dict K) a :
  Forall (fun kv => 1 <= snd kv) d -> Forall (fun kv => 1 <= snd kv) (dict_incr d a).
Proof.
  intros Hd. rewrite dict_set_get_bump. destruct (has_key d a).
  - apply bump_first_positive, Hd.
  - apply Forall_app. split; [exact Hd|]. constructor; [simpl; lia|constructor].
Qed.

Lemma fold_incr_positive ks : forall d : dict K,
  Forall (fun kv => 1 <= snd kv) d ->
  Forall (fun kv => 1 <= snd kv) (fold_left dict_incr ks d).
Proof.
  induction ks as [|a ks IH]; intros d Hd; simpl; [exact Hd|].
  apply IH, dict_incr_positive, Hd.
Qed.

End CounterValues.

(** ** Runs of [process_folder] *)

Lemma run_state images st :
  process_folder images = Ok st -> st = fold_left step images init_agg.
Proof.
  rewrite process_folder_eq. destruct (existsb image_aborts images); [discriminate|].
  intros Hx. inversion Hx. reflexivity.
Qed.

Lemma omap_fmap {A B C} (f : B -> C) (g : A -> option B) (l : list A) :
  omap (fun a => f <$> g a) l = map f (omap g l).
Proof.
  induction l as [|a l IH]; [reflexivity|].
  change (omap (fun a => f <$> g a) (a :: l))
    with (match f <$> g a with
          | Some y => y :: omap (fun a => f <$> g a) l
          | None => omap (fun a => f <$> g a) l
          end).
  change (omap g (a :: l))
    with (match g a with Some y => y :: omap g l | None => omap g l end).
  rewrite IH. destruct (g a); reflexivity.
Qed.

Lemma omap_app_list {A B} (g : A -> option B) (l l' : list A) :
  omap g (l ++ l') = omap g l ++ omap g l'.
Proof.
  induction l as [|a l IH]; [reflexivity|].
  change (omap g ((a :: l) ++ l'))
    with (match g a with
          | Some y => y :: omap g (l ++ l')
          | None => omap g (l ++ l')
          end).
  change (omap g (a :: l))
    with (match g a with Some y => y :: omap g l | None => omap g l end).
  rewrite IH. destruct (g a); reflexivity.
Qed.

Lemma truthy_observations (g : gmap string pyval -> option float) images :
  (forall e v, g e = Some v -> float_truthy v = true) ->
  Forall (fun v => float_truthy v = true) (omap g images).
Proof.
  intros Hg. apply List.Forall_forall. intros v Hin.
  apply in_omap_obs in Hin. destruct Hin as (e & _ & He). eapply Hg, He.
Qed.

Lemma fold_counts (images : list (gmap string pyval)) :
  (forall d, dict_get (dates (fold_left step images init_agg)) d 0
             = occurrences (map dt_date (omap obs_date images)) d) /\
  (forall h, dict_get (hours (fold_left step images init_agg)) h 0
             = occurrences (map dt_hour (omap obs_date images)) h) /\
  (forall v, dict_get (iso (fold_left step images init_agg)) v 0
             = occurrences (omap obs_iso images) v) /\
  (forall v, dict_get (apertures (fold_left step images init_agg)) v 0
             = occurrences (omap obs_aperture images) v) /\
  (forall v, dict_get (shutter_speeds (fold_left step images init_agg)) v 0
             = occurrences (omap obs_shutter_speed images) v).
Proof.
  rewrite dates_fold, hours_fold, iso_fold, apertures_fold, shutter_speeds_fold.
  rewrite !omap_fmap. simpl.
  repeat split; intros k.
  - rewrite (dict_get_fold (fun _ => True) date_eqb_sound);
      [reflexivity|constructor|apply Forall_any].
  - rewrite (dict_get_fold (fun _ => True) Z_eqb_sound);
      [reflexivity|constructor|apply Forall_any].
  - rewrite (dict_get_fold (fun _ => True) Z_eqb_sound);
      [reflexivity|constructor|apply Forall_any].
  - rewrite (dict_get_fold _ float_eqb_sound);
      [reflexivity|constructor|].
    apply truthy_observations, obs_aperture_truthy.
  - rewrite (dict_get_fold _ float_eqb_sound);
      [reflexivity|constructor|].
    apply truthy_observations, obs_shutter_speed_truthy.
Qed.

(** X1: after a run, what each frequency map answers for a key is the
    number of images whose normalised value compares equal to that key:
    the dates and hours of the parsed capture dates, the ISO values, the
    apertures and the shutter speeds. *)
Theorem X1_counts_are_occurrences (images : list (gmap string pyval)) (st : agg) :
  process_folder images = Ok st ->
  (forall d, dict_get (dates st) d 0
             = occurrences (map dt_date (omap obs_date images)) d) /\
  (forall h, dict_get (hours st) h 0
             = occurrences (map dt_hour (omap obs_date images)) h) /\
  (forall v, dict_get (iso st) v 0 = occurrences (omap obs_iso images) v) /\
  (forall v, dict_get (apertures st) v 0
             = occurrences (omap obs_aperture images) v) /\
  (forall v, dict_get (shutter_speeds st) v 0
             = occurrences (omap obs_shutter_speed images) v).
Proof.
  intros Hrun. apply run_state in Hrun. subst st. apply fold_counts.
Qed.

Lemma X1_witness :
  dict_get (iso three_photos_state) 100 0 = 2 /\
  dict_get (hours three_photos_state) 8 0 = 3 /\
  dict_get (apertures three_photos_state) 2.8%float 0 = 2.
Proof.
  assert (Hrun : process_folder three_photos = Ok three_photos_state)
    by (vm_compute; reflexivity).
  destruct (X1_counts_are_occurrences three_photos three_photos_state Hrun)
    as (_ & Hh & Hi & Ha & _).
  rewrite Hh, Hi, Ha. vm_compute. auto.
Defined.

(** X2: two runs compose.  When both parts of a list of images run to
    the end, so does the whole list: the focal lengths and every bucket
    are those of the first part followed by those of the second, and every
    frequency map answers the sum of what the two parts answer.  When one
    part stops on a capture date that is not a text, so does the whole. *)
Theorem X2_runs_compose (l1 l2 : list (gmap string pyval)) :
  match process_folder l1, process_folder l2 with
  | Ok s1, Ok s2 =>
      exists s, process_folder (l1 ++ l2) = Ok s /\
        focal_lengths s = focal_lengths s1 ++ focal_lengths s2 /\
        (forall k, dict_get (dates s) k 0
                   = dict_get (dates s1) k 0 + dict_get (dates s2) k 0) /\
        (forall k, dict_get (hours s) k 0
                   = dict_get (hours s1) k 0 + dict_get (hours s2) k 0) /\
        (forall k, dict_get (iso s) k 0
                   = dict_get (iso s1) k 0 + dict_get (iso s2) k 0) /\
        (forall k, dict_get (apertures s) k 0
                   = dict_get (apertures s1) k 0 + dict_get (apertures s2) k 0) /\
        (forall k, dict_get (shutter_speeds s) k 0
                   = dict_get (shutter_speeds s1) k 0
                     + dict_get (shutter_speeds s2) k 0) /\
        (forall h,
           bucket_isos s h = bucket_isos s1 h ++ bucket_isos s2 h /\
           bucket_apertures s h = bucket_apertures s1 h ++ bucket_apertures s2 h /\
           bucket_shutter_speeds s h
           = bucket_shutter_speeds s1 h ++ bucket_shutter_speeds s2 h)
  | _, _ => process_folder (l1 ++ l2) = Raise TypeError
  end.
Proof.
  rewrite !process_folder_eq, existsb_app.
  destruct (existsb image_aborts l1); simpl; [reflexivity|].
  destruct (existsb image_aborts l2); simpl; [reflexivity|].
  eexists. split; [reflexivity|].
  destruct (fold_counts (l1 ++ l2)) as (Hd & Hh & Hi & Ha & Hs).
  destruct (fold_counts l1) as (Hd1 & Hh1 & Hi1 & Ha1 & Hs1).
  destruct (fold_counts l2) as (Hd2 & Hh2 & Hi2 & Ha2 & Hs2).
  split; [|split; [|split; [|split; [|split; [|split]]]]].
  - rewrite !focal_lengths_fold, omap_app_list. reflexivity.
  - intros k. rewrite Hd, Hd1, Hd2, omap_app_list, map_app, occurrences_app.
    reflexivity.
  - intros k. rewrite Hh, Hh1, Hh2, omap_app_list, map_app, occurrences_app.
    reflexivity.
  - intros k. rewrite Hi, Hi1, Hi2, omap_app_list, occurrences_app. reflexivity.
  - intros k. rewrite Ha, Ha1, Ha2, omap_app_list, occurrences_app. reflexivity.
  - intros k. rewrite Hs, Hs1, Hs2, omap_app_list, occurrences_app. reflexivity.
  - intros h.
    destruct (buckets_run (l1 ++ l2) h) as (Bi & Ba & Bs).
    destruct (buckets_run l1 h) as (Bi1 & Ba1 & Bs1).
    destruct (buckets_run l2 h) as (Bi2 & Ba2 & Bs2).
    rewrite Bi, Ba, Bs, Bi1, Ba1, Bs1, Bi2, Ba2, Bs2, !flat_map_app. auto.
Qed.

(** ** Invariants of the result *)

Lemma dict_sum_ge_length {K} (d : dict K) :
  Forall (fun kv => 1 <= snd kv) d -> Z.of_nat (length d) <= dict_sum d.
Proof.
  induction 1 as [|kv d Hkv Hd IH]; [unfold dict_sum; simpl; lia|].
  rewrite dict_sum_cons. simpl length. lia.
Qed.

Lemma positive_entries {K} (d : dict K) :
  Forall (fun kv => 1 <= snd kv) d -> forall k c, In (k, c) d -> 1 <= c.
Proof.
  intros Hd k c Hin. rewrite List.Forall_forall in Hd. apply (Hd _ Hin).
Qed.

Lemma range_hours_of_day h : 0 <= h <= 23 <-> In h hours_of_day.
Proof.
  unfold hours_of_day. rewrite List.in_map_iff. split.
  - intros Hh. exists (Z.to_nat h). split; [lia|]. apply in_seq. lia.
  - intros (n & <- & Hn). apply in_seq in Hn. lia.
Qed.

Lemma try_parse_date_strptime raw dt :
  try_parse_date raw = Ok (Some dt) ->
  exists s fmt, raw = VStr s /\ In fmt date_formats /\
                strptime (strip (remove_nul s)) fmt = Ok dt.
Proof.
  destruct raw; try discriminate. rewrite try_parse_date_str. intros Hf.
  apply try_formats_Some in Hf. destruct Hf as (i & fmt & Hi & Hs & _).
  exists s, fmt. split; [reflexivity|]. split; [|exact Hs].
  apply list_elem_of_In. eapply list_elem_of_lookup_2, Hi.
Qed.

Lemma obs_date_parsed e dt :
  obs_date e = Some dt ->
  exists raw, e !! "DateTimeOriginal"%string = Some raw /\
              try_parse_date raw = Ok (Some dt).
Proof.
  unfold obs_date.
  destruct (e !! "DateTimeOriginal"%string) as [raw|]; [|discriminate].
  destruct (try_parse_date raw) as [r|x] eqn:Hp; simpl; [|discriminate].
  intros ->. exists raw. split; [reflexivity|exact Hp].
Qed.

Lemma obs_date_hour images h :
  In h (map dt_hour (omap obs_date images)) -> 0 <= h <= 23.
Proof.
  intros Hin. apply List.in_map_iff in Hin. destruct Hin as (dt & <- & Hin).
  apply in_omap_obs in Hin. destruct Hin as (e & _ & He).
  apply obs_date_parsed in He. destruct He as (raw & _ & He).
  apply try_parse_date_strptime in He. destruct He as (s & fmt & _ & _ & Hs).
  eapply strptime_hour, Hs.
Qed.

Lemma length_omap_le {A B} (g : A -> option B) (l : list A) :
  (length (omap g l) <= length l)%nat.
Proof.
  induction l as [|a l IH]; [reflexivity|].
  change (omap g (a :: l))
    with (match g a with Some y => y :: omap g l | None => omap g l end).
  destruct (g a); simpl; lia.
Qed.

(** X3: after a run every count of every frequency map is at least one,
    the hour map holds as many photos as the date map, the number of
    days never exceeds the number of dated photos, which never exceeds
    the number of images, and the hour map has
    at most 24 entries, none of them twice; nor does the ISO map hold a
    key twice, nor the aperture and shutter-speed maps two keys that
    compare equal. *)
Theorem X3_count_invariants (images : list (gmap string pyval)) (st : agg) :
  process_folder images = Ok st ->
  (forall k c, In (k, c) (dates st) -> 1 <= c) /\
  (forall k c, In (k, c) (hours st) -> 1 <= c) /\
  (forall k c, In (k, c) (iso st) -> 1 <= c) /\
  (forall k c, In (k, c) (apertures st) -> 1 <= c) /\
  (forall k c, In (k, c) (shutter_speeds st) -> 1 <= c) /\
  dict_sum (hours st) = dict_sum (dates st) /\
  Z.of_nat (length (dates st)) <= total_photos st /\
  total_photos st <= Z.of_nat (length images) /\
  (length (hours st) <= 24)%nat /\
  NoDup (keys (hours st)) /\
  NoDup (keys (iso st)) /\
  distinct_keys (apertures st) /\
  distinct_keys (shutter_speeds st).
Proof.
  intros Hrun. apply run_state in Hrun. subst st.
  unfold total_photos.
  rewrite dates_fold, hours_fold, iso_fold, apertures_fold, shutter_speeds_fold.
  simpl.
  assert (Hpos : forall K (E : PyEq K) (ks : list K),
             Forall (fun kv => 1 <= snd kv) (fold_left dict_incr ks []))
    by (intros; apply fold_incr_positive; constructor).
  assert (Hnd : NoDup (keys (fold_left dict_incr
             (omap (fun e => dt_hour <$> obs_date e) images) []))).
  { apply (keys_fold_NoDup Z.eqb_eq). constructor. }
  repeat split.
  - apply positive_entries, Hpos.
  - apply positive_entries, Hpos.
  - apply positive_entries, Hpos.
  - apply positive_entries, Hpos.
  - apply positive_entries, Hpos.
  - rewrite !dict_sum_fold, !omap_fmap, !length_map. reflexivity.
  - apply dict_sum_ge_length, Hpos.
  - rewrite dict_sum_fold. unfold dict_sum at 1. simpl.
    rewrite omap_fmap, length_map.
    pose proof (length_omap_le obs_date images). lia.
  - rewrite <- (length_map fst).
    change 24%nat with (length hours_of_day).
    apply NoDup_incl_length.
    + apply NoDup_ListNoDup, Hnd.
    + intros h Hin. apply range_hours_of_day.
      apply (keys_fold_In Z.eqb_eq) in Hin. destruct Hin as [[]|Hin].
      rewrite omap_fmap in Hin. eapply obs_date_hour, Hin.
  - exact Hnd.
  - apply (keys_fold_NoDup Z.eqb_eq). constructor.
  - apply (well_formed_fold _ float_eqb_sound).
    + split; constructor.
    + apply truthy_observations, obs_aperture_truthy.
  - apply (well_formed_fold _ float_eqb_sound).
    + split; constructor.
    + apply truthy_observations, obs_shutter_speed_truthy.
Qed.

Lemma X3_witness :
  dict_sum (hours ten_photos_state) = dict_sum (dates ten_photos_state) /\
  Z.of_nat (length (dates ten_photos_state)) <= total_photos ten_photos_state.
Proof.
  assert (Hrun : process_folder ten_photos = Ok ten_photos_state)
    by (vm_compute; reflexivity).
  destruct (X3_count_invariants ten_photos ten_photos_state Hrun)
    as (_ & _ & _ & _ & _ & Hs & Hl & _).
  exact (conj Hs Hl).
Defined.

Lemma make_datetime_valid y m d H M S dt :
  make_datetime y m d H M S = Ok dt ->
  dt = mk_datetime y m d H M S /\ valid_datetime dt.
Proof.
  unfold make_datetime.
  match goal with |- context [if ?b then _ else _] => destruct b eqn:E end;
    [|discriminate].
  intros Hx. inversion Hx. split; [reflexivity|].
  repeat (apply andb_true_iff in E; destruct E as [E ?]).
  unfold valid_datetime, valid_date. simpl. lia.
Qed.

Lemma strptime_valid s fmt dt : strptime s fmt = Ok dt -> valid_datetime dt.
Proof.
  unfold strptime.
  destruct (parse_format fmt) as [items|]; simpl; [|discriminate].
  destruct (match_items items s) as [|[found rest] ms]; [discriminate|].
  destruct rest; [|discriminate].
  repeat match goal with
         | |- (mbind _ (group_int ?d ?z ?f)) = _ -> _ =>
             destruct (group_int d z f); simpl; [|discriminate]
         end.
  intros Hx. apply make_datetime_valid in Hx. apply Hx.
Qed.

Lemma try_parse_date_valid raw dt :
  try_parse_date raw = Ok (Some dt) -> valid_datetime dt.
Proof.
  intros Hp. apply try_parse_date_strptime in Hp.
  destruct Hp as (s & fmt & _ & _ & Hs). eapply strptime_valid, Hs.
Qed.

Lemma obs_iso_range e v : obs_iso e = Some v -> 50 <= v <= 512000.
Proof.
  unfold obs_iso.
  destruct (e !! "ISOSpeedRatings"%string) as [raw|]; [|discriminate].
  destruct (process_iso_value raw) as [[z|]|x] eqn:Hp; simpl; try discriminate.
  destruct (z =? 0); [discriminate|]. intros Hx. inversion Hx. subst.
  eapply process_iso_value_range, Hp.
Qed.

Lemma hourly_domain_fold images h :
  is_Some (hourly_settings (fold_left step images init_agg) !! h) <-> 0 <= h <= 23.
Proof.
  split.
  - intros [hs Hs].
    destruct (hourly_settings init_agg !! h) as [hs0|] eqn:H0.
    + eapply init_hourly_domain, H0.
    + rewrite (bucket_absent_fold h images init_agg H0) in Hs. discriminate.
  - apply (hours_ok_fold images init_agg init_hours_ok).
Qed.

(** X4: after a run every key of the ISO map and every ISO value of a
    bucket lies between 50 and 512000, and normalising a key again gives
    the key back; every key of the hour map lies between
    0 and 23, every key of the date map is a date of the calendar, and
    the buckets are still those of the hours 0 to 23, no more and no less. *)
Theorem X4_values_in_range (images : list (gmap string pyval)) (st : agg) :
  process_folder images = Ok st ->
  (forall v, In v (keys (iso st)) ->
     50 <= v <= 512000 /\ process_iso_value (VInt v) = Ok (Some v)) /\
  (forall h v, In v (bucket_isos st h) -> 50 <= v <= 512000) /\
  (forall h, In h (keys (hours st)) -> 0 <= h <= 23) /\
  (forall d, In d (keys (dates st)) -> valid_date d) /\
  (forall h, is_Some (hourly_settings st !! h) <-> 0 <= h <= 23).
Proof.
  intros Hrun. apply run_state in Hrun. subst st.
  split; [|split; [|split; [|split]]].
  - intros v Hin. rewrite iso_fold in Hin.
    apply (keys_fold_In Z.eqb_eq) in Hin. destruct Hin as [[]|Hin].
    apply in_omap_obs in Hin. destruct Hin as (e & _ & He).
    apply obs_iso_range in He. split; [exact He|].
    unfold process_iso_value. simpl.
    destruct (Z.leb_spec 50 v); [|lia]. destruct (Z.leb_spec v 512000); [|lia].
    reflexivity.
  - intros h v Hin. destruct (buckets_run images h) as (Bi & _). rewrite Bi in Hin.
    apply in_flat_map in Hin. destruct Hin as (e & _ & Hin).
    apply in_at_hour in Hin. eapply obs_iso_range, Hin.
  - intros h Hin. rewrite hours_fold in Hin.
    apply (keys_fold_In Z.eqb_eq) in Hin. destruct Hin as [[]|Hin].
    rewrite omap_fmap in Hin. eapply obs_date_hour, Hin.
  - intros d Hin. rewrite dates_fold in Hin.
    apply (keys_fold_In date_eqb_eq) in Hin. destruct Hin as [[]|Hin].
    rewrite omap_fmap in Hin. apply List.in_map_iff in Hin.
    destruct Hin as (dt & <- & Hin).
    apply in_omap_obs in Hin. destruct Hin as (e & _ & He).
    apply obs_date_parsed in He. destruct He as (raw & _ & He).
    apply (try_parse_date_valid _ _ He).
  - apply hourly_domain_fold.
Qed.

Lemma X4_witness :
  In 200 (keys (iso three_photos_state)) /\
  50 <= 200 <= 512000 /\ process_iso_value (VInt 200) = Ok (Some 200).
Proof.
  assert (Hrun : process_folder three_photos = Ok three_photos_state)
    by (vm_compute; reflexivity).
  assert (Hin : In 200 (keys (iso three_photos_state)))
    by (vm_compute; right; left; reflexivity).
  split; [exact Hin|].
  exact (proj1 (X4_values_in_range three_photos three_photos_state Hrun) 200 Hin).
Defined.

(** ** The buckets and the frequency maps *)

Lemma sum_list_map_add {A} (f g : A -> nat) (l : list A) :
  sum_list (map (fun a => (f a + g a)%nat) l)
  = (sum_list (map f l) + sum_list (map g l))%nat.
Proof. induction l as [|a l IH]; simpl; lia. Qed.

Lemma at_hour_sizes {A} (strict : option Z) (v : option A) :
  (forall h, strict = Some h -> 0 <= h <= 23) ->
  sum_list (map (fun h => length (at_hour h strict v)) hours_of_day)
  = length (option_list (match strict with Some _ => v | None => None end)).
Proof.
  intros Hr. destruct strict as [h'|]; [|reflexivity].
  destruct v as [v|]; [|reflexivity].
  specialize (Hr h' eq_refl).
  apply range_hours_of_day in Hr. unfold hours_of_day in Hr. simpl in Hr.
  repeat (destruct Hr as [<-|Hr]; [reflexivity|]). destruct Hr.
Qed.

Lemma flat_map_sizes {A} (g : gmap string pyval -> option A) images :
  sum_list (map (fun h => length (flat_map (fun e => at_hour h (hour_of e) (g e))
                                            images)) hours_of_day)
  = length (omap (bucketed g) images).
Proof.
  induction images as [|e images IH]; [reflexivity|].
  change (omap (bucketed g) (e :: images))
    with (match bucketed g e with
          | Some y => y :: omap (bucketed g) images
          | None => omap (bucketed g) images
          end).
  simpl flat_map.
  rewrite (map_ext _ (fun h => (length (at_hour h (hour_of e) (g e))
     + length (flat_map (fun e0 => at_hour h (hour_of e0) (g e0)) images))%nat))
    by (intros h; apply length_app).
  rewrite sum_list_map_add, IH, at_hour_sizes by apply hour_of_range.
  unfold bucketed. destruct (hour_of e), (g e); reflexivity.
Qed.

Lemma bucketed_le {A} (g : gmap string pyval -> option A) images :
  (length (omap (bucketed g) images) <= length (omap g images))%nat.
Proof.
  induction images as [|e images IH]; [reflexivity|].
  change (omap (bucketed g) (e :: images))
    with (match bucketed g e with
          | Some y => y :: omap (bucketed g) images
          | None => omap (bucketed g) images
          end).
  change (omap g (e :: images))
    with (match g e with Some y => y :: omap g images | None => omap g images end).
  destruct (bucketed g e) eqn:Hb, (g e) eqn:Hg; simpl; try lia.
  unfold bucketed in Hb. rewrite Hg in Hb. destruct (hour_of e); discriminate.
Qed.

Lemma bucket_sizes_run images :
  bucket_sizes bucket_isos (fold_left step images init_agg)
  = length (omap (bucketed obs_iso) images) /\
  bucket_sizes bucket_apertures (fold_left step images init_agg)
  = length (omap (bucketed obs_aperture) images) /\
  bucket_sizes bucket_shutter_speeds (fold_left step images init_agg)
  = length (omap (bucketed obs_shutter_speed) images).
Proof.
  unfold bucket_sizes. rewrite <- !flat_map_sizes.
  repeat split; f_equal; apply map_ext; intros h;
    destruct (buckets_run images h) as (Bi & Ba & Bs); congruence.
Qed.

Lemma hour_of_obs_date e h :
  hour_of e = Some h -> exists dt, obs_date e = Some dt /\ dt_hour dt = h.
Proof.
  unfold hour_of, image_hour. destruct (wants_hour e); [|discriminate].
  unfold strict_hour, obs_date.
  destruct (e !! "DateTimeOriginal"%string) as [raw|]; [|discriminate].
  destruct (py_strptime raw strict_format) as [dt|x] eqn:Hs; simpl.
  - intros Hx. inversion Hx. exists dt.
    rewrite (strict_implies_lenient _ _ Hs). auto.
  - destruct x; discriminate.
Qed.

Lemma bucket_le_hours {A} (g : gmap string pyval -> option A) images h :
  Z.of_nat (length (flat_map (fun e => at_hour h (hour_of e) (g e)) images))
  <= occurrences (map dt_hour (omap obs_date images)) h.
Proof.
  induction images as [|e images IH]; [unfold occurrences; simpl; lia|].
  change (omap obs_date (e :: images))
    with (match obs_date e with
          | Some y => y :: omap obs_date images
          | None => omap obs_date images
          end).
  simpl flat_map. rewrite length_app.
  assert (Hnn : 0 <= occurrences (map dt_hour (omap obs_date images)) h)
    by (unfold occurrences; lia).
  destruct (hour_of e) as [h'|] eqn:Hh.
  - destruct (hour_of_obs_date e h' Hh) as (dt & -> & Hdt).
    simpl map. rewrite occurrences_cons. rewrite Hdt.
    unfold at_hour at 1. destruct (g e); simpl length; [|destruct (py_eqb h' h); lia].
    change (py_eqb h' h) with (h' =? h). destruct (h' =? h); simpl length; lia.
  - unfold at_hour at 1. simpl length.
    destruct (obs_date e); [|lia]. simpl map. rewrite occurrences_cons.
    destruct (py_eqb (dt_hour d) h); lia.
Qed.

(** X5: the buckets never hold more than the frequency maps.  After a
    run every value of a bucket is a key of the frequency map of its
    setting, an ISO value of a bucket is counted at least once, and the 24
    buckets of a setting together hold as many values as there are
    images with that setting whose capture date parses under the strict
    format, which are never more than the photos that the frequency map
    counts.  Nor does the
    bucket of an hour hold more values of a setting than the hour map
    counts photos for that hour. *)
Theorem X5_buckets_within_maps (images : list (gmap string pyval)) (st : agg) :
  process_folder images = Ok st ->
  (forall h v, In v (bucket_isos st h) ->
     In v (keys (iso st)) /\ 1 <= dict_get (iso st) v 0) /\
  (forall h v, In v (bucket_apertures st h) -> In v (keys (apertures st))) /\
  (forall h v, In v (bucket_shutter_speeds st h) ->
     In v (keys (shutter_speeds st))) /\
  bucket_sizes bucket_isos st = length (omap (bucketed obs_iso) images) /\
  bucket_sizes bucket_apertures st = length (omap (bucketed obs_aperture) images) /\
  bucket_sizes bucket_shutter_speeds st
  = length (omap (bucketed obs_shutter_speed) images) /\
  Z.of_nat (bucket_sizes bucket_isos st) <= dict_sum (iso st) /\
  Z.of_nat (bucket_sizes bucket_apertures st) <= dict_sum (apertures st) /\
  Z.of_nat (bucket_sizes bucket_shutter_speeds st) <= dict_sum (shutter_speeds st) /\
  (forall h,
     Z.of_nat (length (bucket_isos st h)) <= dict_get (hours st) h 0 /\
     Z.of_nat (length (bucket_apertures st h)) <= dict_get (hours st) h 0 /\
     Z.of_nat (length (bucket_shutter_speeds st h)) <= dict_get (hours st) h 0).
Proof.
  intros Hrun. apply run_state in Hrun. subst st.
  destruct (bucket_sizes_run images) as (Si & Sa & Ss).
  rewrite Si, Sa, Ss.
  assert (Hhours : forall h,
     Z.of_nat (length (bucket_isos (fold_left step images init_agg) h))
     <= dict_get (hours (fold_left step images init_agg)) h 0 /\
     Z.of_nat (length (bucket_apertures (fold_left step images init_agg) h))
     <= dict_get (hours (fold_left step images init_agg)) h 0 /\
     Z.of_nat (length (bucket_shutter_speeds (fold_left step images init_agg) h))
     <= dict_get (hours (fold_left step images init_agg)) h 0).
  { intros h. destruct (fold_counts images) as (_ & -> & _).
    destruct (buckets_run images h) as (-> & -> & ->).
    repeat split; apply bucket_le_hours. }
  revert Hhours.
  rewrite iso_fold, apertures_fold, shutter_speeds_fold, !dict_sum_fold.
  intros Hhours.
  assert (Hin : forall A (g : gmap string pyval -> option A) h v,
            In v (flat_map (fun e => at_hour h (hour_of e) (g e)) images) ->
            In v (omap g images)).
  { intros A g h v Hv. apply in_flat_map in Hv. destruct Hv as (e & He & Hv).
    apply in_at_hour in Hv. destruct Hv as [Hv _].
    apply list_elem_of_In, list_elem_of_omap. exists e.
    split; [apply list_elem_of_In, He|exact Hv]. }
  split; [|split; [|split; [|split; [|split; [|split; [|split; [|split; [|split]]]]]]]].
  - intros h v Hv. destruct (buckets_run images h) as (Bi & _).
    rewrite Bi in Hv. apply Hin in Hv. split.
    + apply (keys_fold_counted (fun _ => True) Z_eqb_sound);
        [constructor|apply Forall_any|exact Hv].
    + rewrite (dict_get_fold (fun _ => True) Z_eqb_sound)
        by (try constructor; apply Forall_any).
      simpl. unfold occurrences.
      apply List.in_split in Hv. destruct Hv as (l1 & l2 & ->).
      rewrite List.filter_app, length_app. simpl.
      unfold py_eqb at 2, Z_pyeq. rewrite Z.eqb_refl. simpl. lia.
  - intros h v Hv. destruct (buckets_run images h) as (_ & Ba & _).
    rewrite Ba in Hv. apply Hin in Hv.
    apply (keys_fold_counted _ float_eqb_sound);
      [constructor|apply truthy_observations, obs_aperture_truthy|exact Hv].
  - intros h v Hv. destruct (buckets_run images h) as (_ & _ & Bs).
    rewrite Bs in Hv. apply Hin in Hv.
    apply (keys_fold_counted _ float_eqb_sound);
      [constructor|apply truthy_observations, obs_shutter_speed_truthy|exact Hv].
  - reflexivity.
  - reflexivity.
  - reflexivity.
  - pose proof (bucketed_le obs_iso images). unfold dict_sum at 1. simpl. lia.
  - pose proof (bucketed_le obs_aperture images). unfold dict_sum at 1. simpl. lia.
  - pose proof (bucketed_le obs_shutter_speed images). unfold dict_sum at 1.
    simpl. lia.
  - exact Hhours.
Qed.

Lemma X5_witness :
  Z.of_nat (bucket_sizes bucket_isos three_photos_state)
  <= dict_sum (iso three_photos_state).
Proof.
  assert (Hrun : process_folder three_photos = Ok three_photos_state)
    by (vm_compute; reflexivity).
  destruct (X5_buckets_within_maps three_photos three_photos_state Hrun)
    as (_ & _ & _ & _ & _ & _ & Hs & _).
  exact Hs.
Defined.

(** ** The five date formats exclude one another *)

Lemma strptime_matches s fmt dt :
  strptime s fmt = Ok dt ->
  exists items found,
    parse_format fmt = Ok items /\ In (found, EmptyString) (match_items items s).
Proof.
  unfold strptime.
  destruct (parse_format fmt) as [items|]; simpl; [|discriminate].
  destruct (match_items items s) as [|[found rest] ms] eqn:Hm; [discriminate|].
  destruct rest; [|discriminate].
  intros _. exists items, found. split; [reflexivity|]. rewrite Hm. left. reflexivity.
Qed.

Lemma match_directive d items s found rest :
  In (found, rest) (match_items (FDir d :: items) s) ->
  exists alt m s' found',
    In alt (alternatives d) /\ take_classes alt s = Some (m, s') /\
    In (found', rest) (match_items items s').
Proof.
  simpl. intros Hin. apply in_flat_map in Hin. destruct Hin as (alt & Halt & Hin).
  destruct (take_classes alt s) as [[m s']|] eqn:Ht; [|destruct Hin].
  apply List.in_map_iff in Hin. destruct Hin as ([found' r] & Hx & Hin).
  inversion Hx; subst. exists alt, m, s', found'. auto.
Qed.

Lemma match_year items s found rest :
  In (found, rest) (match_items (FDir DY :: items) s) ->
  exists c1 c2 c3 c4 s' found',
    s = String c1 (String c2 (String c3 (String c4 s'))) /\
    In (found', rest) (match_items items s').
Proof.
  intros Hin. apply match_directive in Hin.
  destruct Hin as (alt & m & s' & found' & Halt & Ht & Hin).
  destruct Halt as [<-|[]].
  apply take_classes_sound in Ht. destruct Ht as [-> Hm].
  destruct m as [|c1 [|c2 [|c3 [|c4 [|c5 m]]]]]; simpl in Hm; try tauto.
  exists c1, c2, c3, c4, s', found'. auto.
Qed.

Lemma match_literal c items s found rest :
  In (found, rest) (match_items (FLit c :: items) s) ->
  exists c' s', s = String c' s' /\ code c' = code c /\
                In (found, rest) (match_items items s').
Proof.
  simpl. destruct s as [|c' s']; [intros []|].
  destruct (N.eqb_spec (code c) (code c')) as [He|]; [|intros []].
  intros Hin. exists c', s'. auto.
Qed.

Lemma take_classes_first alt s m s' :
  classes_plain alt -> alt <> [] -> take_classes alt s = Some (m, s') ->
  exists c s0, s = String c s0 /\ plain c = true.
Proof.
  intros Hp Hne Ht. destruct alt as [|p alt]; [congruence|].
  simpl in Ht. destruct s as [|c s0]; [discriminate|].
  destruct (p c) eqn:Hpc; [|discriminate].
  exists c, s0. split; [reflexivity|].
  inversion Hp; subst. auto.
Qed.

Lemma alternatives_nonempty d alt : In alt (alternatives d) -> alt <> [].
Proof.
  destruct d; simpl; intros Hin;
    repeat (destruct Hin as [<-|Hin]; [discriminate|]); destruct Hin.
Qed.

Lemma match_directive_first d items s found rest :
  In (found, rest) (match_items (FDir d :: items) s) ->
  exists c s0, s = String c s0 /\ plain c = true.
Proof.
  intros Hin. apply match_directive in Hin.
  destruct Hin as (alt & m & s' & found' & Halt & Ht & _).
  eapply take_classes_first; [eapply alternatives_plain, Halt| |exact Ht].
  eapply alternatives_nonempty, Halt.
Qed.

Lemma plain_codes c :
  plain c = true ->
  (code c =? 58)%N = false /\ (code c =? 45)%N = false /\ (code c =? 95)%N = false.
Proof.
  unfold plain, is_digit, in_range, is_char. intros Hp.
  apply orb_true_iff in Hp. rewrite andb_true_iff, !N.leb_le, N.eqb_eq in Hp.
  rewrite !N.eqb_neq. lia.
Qed.

Lemma has_code_app n a b : has_code n (a +:+ b) = has_code n a || has_code n b.
Proof.
  induction a as [|c a IH]; [reflexivity|].
  change (String c a +:+ b) with (String c (a +:+ b)). simpl.
  rewrite IH. apply orb_assoc.
Qed.

Lemma all_plain_app a b : all_plain (a +:+ b) = all_plain a && all_plain b.
Proof.
  induction a as [|c a IH]; [reflexivity|].
  change (String c a +:+ b) with (String c (a +:+ b)). simpl.
  rewrite IH. apply andb_assoc.
Qed.

Lemma chars_match_plain cls : forall m,
  classes_plain cls -> chars_match cls m -> all_plain m = true.
Proof.
  induction cls as [|p cls IH]; intros m Hp Hm; destruct m as [|c m];
    simpl in Hm; try contradiction; [reflexivity|].
  inversion Hp; subst. destruct Hm as [Hc Hm]. simpl.
  rewrite (IH m) by assumption. rewrite andb_true_r. auto.
Qed.

Lemma all_plain_no_underscore s : all_plain s = true -> has_code 95 s = false.
Proof.
  induction s as [|c s IH]; [reflexivity|]. simpl.
  intros Hp. apply andb_true_iff in Hp. destruct Hp as [Hc Hs].
  rewrite (IH Hs). destruct (plain_codes c Hc) as (_ & _ & ->). reflexivity.
Qed.

(** A format made of directives only matches digits and blanks. *)
Lemma match_directives_plain items :
  Forall (fun it => exists d, it = FDir d) items ->
  forall s found rest,
    In (found, rest) (match_items items s) ->
    exists pre, s = pre +:+ rest /\ all_plain pre = true.
Proof.
  induction 1 as [|it items [d ->] Hitems IH]; intros s found rest Hin.
  - simpl in Hin. destruct Hin as [Hx|[]]. inversion Hx; subst.
    exists EmptyString. split; reflexivity.
  - apply match_directive in Hin.
    destruct Hin as (alt & m & s' & found' & Halt & Ht & Hin).
    apply take_classes_sound in Ht. destruct Ht as [-> Hm].
    destruct (IH _ _ _ Hin) as (pre & -> & Hpre).
    exists (m +:+ pre). split; [symmetry; apply app_assoc_str|].
    rewrite all_plain_app, Hpre, andb_true_r.
    eapply chars_match_plain; [eapply alternatives_plain, Halt|exact Hm].
Qed.

(** A literal of the format occurs in what the format matches. *)
Lemma match_items_literal c items :
  In (FLit c) items ->
  forall s found rest,
    In (found, rest) (match_items items s) ->
    exists pre, s = pre +:+ rest /\ has_code (code c) pre = true.
Proof.
  induction items as [|it items IH]; intros Hc s found rest Hin; [destruct Hc|].
  assert (Hany : forall s0 found0,
            In (found0, rest) (match_items items s0) ->
            exists pre, s0 = pre +:+ rest).
  { clear. revert rest. induction items as [|it items IH]; intros rest s0 found0 Hin.
    - simpl in Hin. destruct Hin as [Hx|[]]. inversion Hx. exists EmptyString.
      reflexivity.
    - destruct it as [d| |c].
      + apply match_directive in Hin.
        destruct Hin as (alt & m & s' & found' & _ & Ht & Hin).
        apply take_classes_sound in Ht. destruct Ht as [-> _].
        destruct (IH _ _ _ Hin) as (pre & ->).
        exists (m +:+ pre). symmetry. apply app_assoc_str.
      + simpl in Hin. apply in_flat_map in Hin. destruct Hin as (s1 & Hs1 & Hin).
        apply space_suffixes_sound in Hs1. destruct Hs1 as (sp & -> & _).
        destruct (IH _ _ _ Hin) as (pre & ->).
        exists (sp +:+ pre). symmetry. apply app_assoc_str.
      + apply match_literal in Hin. destruct Hin as (c' & s' & -> & _ & Hin).
        destruct (IH _ _ _ Hin) as (pre & ->).
        exists (String c' pre). reflexivity. }
  destruct it as [d| |c0].
  - destruct Hc as [Hc|Hc]; [discriminate|].
    apply match_directive in Hin.
    destruct Hin as (alt & m & s' & found' & _ & Ht & Hin).
    apply take_classes_sound in Ht. destruct Ht as [-> _].
    destruct (IH Hc _ _ _ Hin) as (pre & -> & Hpre).
    exists (m +:+ pre). split; [symmetry; apply app_assoc_str|].
    rewrite has_code_app, Hpre. apply orb_true_r.
  - destruct Hc as [Hc|Hc]; [discriminate|].
    simpl in Hin. apply in_flat_map in Hin. destruct Hin as (s1 & Hs1 & Hin).
    apply space_suffixes_sound in Hs1. destruct Hs1 as (sp & -> & _).
    destruct (IH Hc _ _ _ Hin) as (pre & -> & Hpre).
    exists (sp +:+ pre). split; [symmetry; apply app_assoc_str|].
    rewrite has_code_app, Hpre. apply orb_true_r.
  - apply match_literal in Hin. destruct Hin as (c' & s' & -> & Hcode & Hin).
    destruct Hc as [Hc|Hc].
    + inversion Hc; subst c0.
      destruct (Hany _ _ Hin) as (pre & ->).
      exists (String c' pre). split; [reflexivity|].
      simpl. rewrite Hcode, N.eqb_refl. reflexivity.
    + destruct (IH Hc _ _ _ Hin) as (pre & -> & Hpre).
      exists (String c' pre). split; [reflexivity|].
      simpl. rewrite Hpre. apply orb_true_r.
Qed.

Lemma format_index_sound s i fmt dt :
  date_formats !! i = Some fmt -> strptime s fmt = Ok dt ->
  format_index s = Some i.
Proof.
  intros Hi Hs. apply strptime_matches in Hs.
  destruct Hs as (items & found & Hp & Hin).
  destruct i as [|[|[|[|[|i]]]]]; simpl in Hi; try discriminate;
    inversion Hi; subst fmt; vm_compute in Hp; inversion Hp; subst items; clear Hp Hi.
  - apply match_year in Hin. destruct Hin as (c1 & c2 & c3 & c4 & s' & f' & -> & Hin).
    apply match_literal in Hin. destruct Hin as (c' & s0 & -> & Hc & _).
    unfold format_index. rewrite Hc. reflexivity.
  - apply match_year in Hin. destruct Hin as (c1 & c2 & c3 & c4 & s' & f' & -> & Hin).
    apply match_literal in Hin. destruct Hin as (c' & s0 & -> & Hc & _).
    unfold format_index. rewrite Hc. reflexivity.
  - pose proof Hin as Hall.
    apply (match_items_literal "_"%char) in Hall; [|simpl; tauto].
    destruct Hall as (pre & Hpre & Hu). rewrite app_empty_r_str in Hpre. subst pre.
    apply match_year in Hin. destruct Hin as (c1 & c2 & c3 & c4 & s' & f' & -> & Hin).
    apply match_directive_first in Hin. destruct Hin as (c' & s0 & -> & Hc).
    unfold format_index. destruct (plain_codes c' Hc) as (-> & -> & ->).
    change (code "_"%char) with 95%N in Hu. rewrite Hu. reflexivity.
  - apply match_year in Hin. destruct Hin as (c1 & c2 & c3 & c4 & s' & f' & -> & Hin).
    apply match_literal in Hin. destruct Hin as (c' & s0 & -> & Hc & _).
    unfold format_index. rewrite Hc. reflexivity.
  - pose proof Hin as Hall.
    apply match_directives_plain in Hall;
      [|repeat constructor; eexists; reflexivity].
    destruct Hall as (pre & Hpre & Hu). rewrite app_empty_r_str in Hpre. subst pre.
    apply all_plain_no_underscore in Hu.
    apply match_year in Hin. destruct Hin as (c1 & c2 & c3 & c4 & s' & f' & -> & Hin).
    apply match_directive_first in Hin. destruct Hin as (c' & s0 & -> & Hc).
    unfold format_index. destruct (plain_codes c' Hc) as (-> & -> & ->).
    rewrite Hu. reflexivity.
Qed.

(** X6: the five date formats exclude one another.  The character after
    the year, and for a digit there the presence of an underscore, tell
    which single format can accept a string; so no string is accepted by
    two formats, and trying the formats in any other order gives the same
    answer. *)
Theorem X6_date_formats_exclusive :
  (forall s i fmt dt,
     date_formats !! i = Some fmt -> strptime s fmt = Ok dt ->
     format_index s = Some i) /\
  (forall s i j fmt fmt' dt dt',
     date_formats !! i = Some fmt -> date_formats !! j = Some fmt' ->
     strptime s fmt = Ok dt -> strptime s fmt' = Ok dt' -> i = j /\ dt = dt') /\
  (forall s fmts,
     fmts ≡ₚ date_formats -> try_formats s fmts = try_formats s date_formats).
Proof.
  assert (Huniq : forall s i j fmt fmt' dt dt',
     date_formats !! i = Some fmt -> date_formats !! j = Some fmt' ->
     strptime s fmt = Ok dt -> strptime s fmt' = Ok dt' -> i = j /\ dt = dt').
  { intros s i j fmt fmt' dt dt' Hi Hj Hs Hs'.
    pose proof (format_index_sound _ _ _ _ Hi Hs) as Fi.
    pose proof (format_index_sound _ _ _ _ Hj Hs') as Fj.
    assert (i = j) by congruence. subst j. split; [reflexivity|]. congruence. }
  split; [exact format_index_sound|]. split; [exact Huniq|].
  intros s fmts Hperm.
  destruct (try_formats_total s date_formats) as [[dt|] Hd]; rewrite Hd.
  - apply try_formats_Some in Hd. destruct Hd as (i & fmt & Hi & Hs & _).
    destruct (try_formats_total s fmts) as [[dt'|] Hf]; rewrite Hf.
    + apply try_formats_Some in Hf. destruct Hf as (j & fmt' & Hj & Hs' & _).
      assert (Hin : fmt' ∈ date_formats).
      { rewrite <- Hperm. eapply list_elem_of_lookup_2, Hj. }
      apply list_elem_of_lookup_1 in Hin. destruct Hin as [j' Hj'].
      destruct (Huniq _ _ _ _ _ _ _ Hi Hj' Hs Hs') as [_ ->]. reflexivity.
    + exfalso. rewrite try_formats_None in Hf.
      assert (Hin : fmt ∈ fmts).
      { rewrite Hperm. eapply list_elem_of_lookup_2, Hi. }
      apply list_elem_of_In in Hin. rewrite (Hf _ Hin) in Hs. discriminate.
  - rewrite try_formats_None in Hd. apply try_formats_None.
    intros fmt Hin. apply Hd. apply list_elem_of_In. rewrite <- Hperm.
    apply list_elem_of_In, Hin.
Qed.

(** ** The median splits the samples *)

Lemma filter_all {A} (P : A -> Prop) `{forall x, Decision (P x)} (l : list A) :
  Forall P l -> filter P l = l.
Proof.
  induction 1 as [|x l Hx Hl IH]; [reflexivity|].
  rewrite filter_cons, decide_True by exact Hx. rewrite IH. reflexivity.
Qed.

Lemma sorted_halves (sorted : list Z) (i : nat) (m : Z) :
  StronglySorted Z.le sorted -> sorted !! i = Some m ->
  (S i <= length (filter (fun x : Z => (x <= m)%Z) sorted))%nat /\
  (length sorted - i <= length (filter (fun x : Z => (m <= x)%Z) sorted))%nat.
Proof.
  intros Hs Hi.
  pose proof (take_drop_middle _ _ _ Hi) as Hsplit.
  pose proof (lookup_lt_Some _ _ _ Hi) as Hlt.
  rewrite <- Hsplit in Hs.
  assert (Hleft : Forall (fun x : Z => (x <= m)%Z) (take i sorted)).
  { apply Forall_forall. intros x Hx.
    apply (StronglySorted_app_1_elem_of Z.le _ _ x m Hs Hx). left. }
  apply StronglySorted_app_1_r in Hs.
  apply StronglySorted_cons in Hs. destruct Hs as [Hright _].
  rewrite <- Hsplit at 1 3. rewrite !filter_app, !filter_cons.
  rewrite !decide_True by lia.
  rewrite (filter_all _ _ Hleft), (filter_all _ _ Hright).
  rewrite !length_app. simpl. rewrite length_take, length_drop.
  pose proof (length_filter (fun x : Z => (m <= x)%Z) (take i sorted)).
  pose proof (length_filter (fun x : Z => (x <= m)%Z) (drop (S i) sorted)).
  rewrite <- Hsplit, length_app. simpl. rewrite length_take, length_drop. lia.
Qed.

Lemma valid_halves (valid : list Z) (i : nat) (m : Z) :
  merge_sort Z.le valid !! i = Some m ->
  m ∈ valid /\
  (S i <= length (filter (fun x : Z => (x <= m)%Z) valid))%nat /\
  (length valid - i <= length (filter (fun x : Z => (m <= x)%Z) valid))%nat.
Proof.
  intros Hi.
  pose proof (merge_sort_Permutation Z.le valid) as Hp.
  destruct (sorted_halves _ _ _ (StronglySorted_merge_sort Z.le valid) Hi)
    as [Hl Hr].
  rewrite Hp in Hl, Hr. split; [|auto].
  rewrite <- Hp. eapply list_elem_of_lookup_2, Hi.
Qed.

(** X7: the median really is one.  For an odd number of non-zero focal
    lengths the result is one of them, with more than half of them at or
    below it and more than half at or above it.  For an even number it
    is the quotient by two of the sum of two of them, [a <= b], with at
    least half of them at or below [a] and at least half at or above [b]. *)
Theorem X7_median_splits (st : agg) :
  let valid := filter (fun f => f ≠ 0) (focal_lengths st) in
  valid <> [] ->
  if Nat.even (length valid) then
    exists a b : Z,
      a ∈ valid /\ b ∈ valid /\ a <= b /\
      focal_length_median st = (q ← int_truediv (a + b) 2; Ok (VFloat q)) /\
      (length valid <= 2 * length (filter (fun x : Z => (x <= a)%Z) valid))%nat /\
      (length valid <= 2 * length (filter (fun x : Z => (b <= x)%Z) valid))%nat
  else
    exists m : Z,
      m ∈ valid /\ focal_length_median st = Ok (VInt m) /\
      (length valid < 2 * length (filter (fun x : Z => (x <= m)%Z) valid))%nat /\
      (length valid < 2 * length (filter (fun x : Z => (m <= x)%Z) valid))%nat.
Proof.
  intros valid Hne. unfold focal_length_median. fold valid.
  destruct valid as [|x0 valid0] eqn:Hv; [congruence|]. rewrite <- Hv. clear Hne.
  assert (Hlen : length (merge_sort Z.le valid) = length valid)
    by (rewrite merge_sort_Permutation; reflexivity).
  assert (Hpos : (0 < length valid)%nat) by (rewrite Hv; simpl; lia).
  rewrite even_mod2, Hlen.
  pose proof (Nat.div_mod_eq (length valid) 2) as Hdm.
  pose proof (Nat.mod_upper_bound (length valid) 2 ltac:(lia)) as Hm.
  destruct (Nat.even (length valid)) eqn:Ev.
  - assert (Hmod : (length valid mod 2 = 0)%nat).
    { apply Nat.eqb_eq. rewrite even_mod2. exact Ev. }
    destruct (lookup_lt_is_Some_2 (merge_sort Z.le valid) (length valid / 2 - 1))
      as [a Ha]; [lia|].
    destruct (lookup_lt_is_Some_2 (merge_sort Z.le valid) (length valid / 2))
      as [b Hb]; [lia|].
    exists a, b.
    destruct (valid_halves _ _ _ Ha) as (Ina & Hla & _).
    destruct (valid_halves _ _ _ Hb) as (Inb & _ & Hrb).
    split; [exact Ina|]. split; [exact Inb|]. split.
    { pose proof (StronglySorted_merge_sort Z.le valid) as Hs.
      rewrite <- (take_drop_middle _ _ _ Hb) in Hs.
      apply (StronglySorted_app_1_elem_of Z.le _ _ a b Hs); [|left].
      apply list_elem_of_lookup. exists (length valid / 2 - 1)%nat.
      rewrite lookup_take_lt by lia. exact Ha. }
    split.
    { unfold int_index. rewrite Ha, Hb. reflexivity. }
    lia.
  - assert (Hmod : (length valid mod 2 = 1)%nat).
    { destruct (length valid mod 2)%nat as [|[|n]] eqn:E; [|reflexivity|lia].
      assert (Nat.even (length valid) = true); [|congruence].
      rewrite <- even_mod2, E. reflexivity. }
    destruct (lookup_lt_is_Some_2 (merge_sort Z.le valid) (length valid / 2))
      as [m Hmid]; [lia|].
    exists m. destruct (valid_halves _ _ _ Hmid) as (Inm & Hl & Hr).
    split; [exact Inm|]. split.
    { unfold int_index. rewrite Hmid. reflexivity. }
    lia.
Qed.

Lemma X7_witness :
  exists m : Z,
    m ∈ [50; 24; 35] /\
    focal_length_median (with_focal_lengths [50; 24; 0; 35]) = Ok (VInt m) /\
    (3 < 2 * length (filter (fun x : Z => (x <= m)%Z) [50; 24; 35]%Z))%nat /\
    (3 < 2 * length (filter (fun x : Z => (m <= x)%Z) [50; 24; 35]%Z))%nat.
Proof.
  refine (X7_median_splits (with_focal_lengths [50; 24; 0; 35]) _).
  vm_compute. discriminate.
Defined.

(** ** The image files of the folder *)

















(** ** The tick labels of the shutter-speed chart *)

Lemma labels_at_total {A} (formatted_labels : list A) positions :
  Forall (fun i => (i < length formatted_labels)%nat) positions ->
  exists labels,
    labels_at formatted_labels positions = Ok labels /\
    length labels = length positions.
Proof.
  induction 1 as [|i positions Hi Hp IH]; simpl; [exists []; auto|].
  destruct (lookup_lt_is_Some_2 formatted_labels i Hi) as [l Hl]. rewrite Hl.
  destruct IH as (labels & -> & Hlen). simpl.
  exists (l :: labels). simpl. auto.
Qed.

(** X9: the labels under the bars of the shutter-speed chart.  Whatever
    the number of bars, the positions and labels are computed without an
    error, every position is the index of a bar and the first is bar 0.
    Up to 20 bars every bar has its label; beyond 20 the labels are
    [len(keys) // 10] bars apart, and between 10 and 15 of them are
    drawn. *)
Theorem X9_tick_labels {A} (formatted_labels : list A) :
  exists positions labels,
    tick_labels formatted_labels = Ok (positions, labels) /\
    length labels = length positions /\
    (forall j i, positions !! j = Some i -> (i < length formatted_labels)%nat) /\
    ((length formatted_labels <= 20)%nat ->
       positions = seq 0 (length formatted_labels)) /\
    ((20 < length formatted_labels)%nat ->
       (10 <= length positions <= 15)%nat /\
       forall j, (j < length positions)%nat ->
         positions !! j = Some (j * (length formatted_labels / 10))%nat).
Proof.
  unfold tick_labels, tick_positions.
  set (n := length formatted_labels).
  destruct (Nat.ltb_spec 20 n) as [Hn|Hn].
  - unfold py_range.
    pose proof (Nat.div_mod_eq n 10) as Hdm.
    pose proof (Nat.mod_upper_bound n 10 ltac:(lia)) as Hm.
    set (s := (n / 10)%nat) in *.
    assert (Hs : (2 <= s)%nat) by lia.
    destruct (Nat.eqb_spec s 0) as [|_]; [lia|].
    set (k := ((n + s - 1) / s)%nat).
    assert (Hk1 : (s * k <= n + s - 1)%nat)
      by (apply Nat.Div0.mul_div_le).
    assert (Hk2 : (n + s - 1 < s * S k)%nat)
      by (apply Nat.mul_succ_div_gt; lia).
    assert (Hk : (10 <= k <= 15)%nat) by nia.
    simpl.
    destruct (labels_at_total formatted_labels
                (map (fun i => (i * s)%nat) (seq 0 k))) as (labels & Hl & Hlen).
    { apply Forall_forall. intros i Hi. apply list_elem_of_fmap in Hi.
      destruct Hi as (j & -> & Hj). apply elem_of_seq in Hj. fold n. nia. }
    rewrite Hl. simpl. exists (map (fun i => (i * s)%nat) (seq 0 k)), labels.
    split; [reflexivity|]. split; [exact Hlen|].
    rewrite length_map, length_seq.
    split.
    { intros j i Hj. rewrite list_lookup_fmap in Hj.
      destruct (seq 0 k !! j) as [j'|] eqn:Hs'; [|discriminate].
      apply lookup_seq in Hs'. simpl in Hj. inversion Hj. nia. }
    split; [lia|]. intros _. split; [exact Hk|].
    intros j Hj. rewrite list_lookup_fmap, lookup_seq_lt by exact Hj. reflexivity.
  - simpl.
    destruct (labels_at_total formatted_labels (seq 0 n)) as (labels & Hl & Hlen).
    { apply Forall_forall. intros i Hi. apply elem_of_seq in Hi. fold n. lia. }
    rewrite Hl. simpl. exists (seq 0 n), labels.
    split; [reflexivity|]. split; [exact Hlen|].
    split.
    { intros j i Hj. apply lookup_seq in Hj. lia. }
    split; [reflexivity|]. lia.
Qed.

(** ** The axis limits of the hourly chart *)

Lemma axis_limits_empty lo hi avgs :
  avgs <> [] -> filter_truthy avgs = [] -> axis_limits lo hi avgs = Raise ValueError.
Proof.
  intros Hne Hf. unfold axis_limits. destruct avgs; [congruence|].
  rewrite Hf. reflexivity.
Qed.

Lemma axis_limits_raises lo hi avgs x :
  axis_limits lo hi avgs = Raise x -> x = ValueError.
Proof.
  unfold axis_limits. destruct avgs as [|a avgs]; [discriminate|].
  destruct (filter_truthy (a :: avgs)) as [|v vs]; simpl; [|discriminate].
  intros Hx. inversion Hx. auto.
Qed.

Lemma axis_limits_some lo hi avgs limits :
  avgs <> [] -> axis_limits lo hi avgs = Ok limits -> exists l, limits = Some l.
Proof.
  unfold axis_limits. destruct avgs as [|a avgs]; [congruence|]. intros _.
  destruct (py_min (filter_truthy (a :: avgs))); [|discriminate].
  destruct (py_max (filter_truthy (a :: avgs))); [|discriminate].
  intros Hx. inversion Hx. eauto.
Qed.

Lemma filter_truthy_empty {A} (np_mean : list A -> float) (bucket : Z -> list A)
    (hs : list Z) :
  (forall h, In h hs -> bucket h = []) ->
  filter_truthy (map (fun h => average np_mean (bucket h)) hs) = [].
Proof.
  induction hs as [|h hs IH]; intros Hb; [reflexivity|].
  simpl map. rewrite (Hb h) by (left; reflexivity).
  apply IH. intros h' Hh'. apply Hb. right. exact Hh'.
Qed.

Lemma buckets_empty_dec {A} (bucket : Z -> list A) (hs : list Z) :
  (forall h, In h hs -> bucket h = []) \/ (exists h, In h hs /\ bucket h <> []).
Proof.
  induction hs as [|h hs [IH|(h' & Hh' & Hb)]].
  - left. intros h [].
  - destruct (bucket h) eqn:Hb.
    + left. intros h' [<-|Hh']; auto.
    + right. exists h. split; [left; reflexivity|]. rewrite Hb. discriminate.
  - right. exists h'. split; [right; exact Hh'|exact Hb].
Qed.

Lemma averages_limits {A} (np_mean : list A -> float) (bucket : Z -> list A)
    lo hi :
  ((forall h, 0 <= h <= 23 -> bucket h = []) ->
   axis_limits lo hi (map (fun h => average np_mean (bucket h)) hours_of_day)
   = Raise ValueError) /\
  (forall x,
     axis_limits lo hi (map (fun h => average np_mean (bucket h)) hours_of_day)
     = Raise x -> x = ValueError) /\
  (forall limits,
     axis_limits lo hi (map (fun h => average np_mean (bucket h)) hours_of_day)
     = Ok limits ->
     (exists l, limits = Some l) /\ exists h, bucket h <> []).
Proof.
  assert (Hne : map (fun h => average np_mean (bucket h)) hours_of_day <> [])
    by (unfold hours_of_day; discriminate).
  pose proof (filter_truthy_empty np_mean bucket hours_of_day) as Hempty.
  revert Hne Hempty.
  generalize (map (fun h => average np_mean (bucket h)) hours_of_day).
  intros avgs Hne Hempty.
  split; [|split].
  - intros Hb. apply axis_limits_empty; [exact Hne|]. apply Hempty.
    intros h Hh. apply Hb, range_hours_of_day, Hh.
  - intros x Hx. eapply axis_limits_raises, Hx.
  - intros limits Hl. split; [eapply axis_limits_some; eassumption|].
    destruct (buckets_empty_dec bucket hours_of_day) as [Hall|(h & _ & Hb)];
      [|exists h; exact Hb].
    rewrite (axis_limits_empty _ _ _ Hne (Hempty Hall)) in Hl. discriminate.
Qed.

Section HourlyChartFacts.
Variable mean : list float -> float.
Variable mean_int : list Z -> float.

Lemma hourly_averages_eq (st : agg) (hs : list Z) : forall a b c,
  Forall (fun h => is_Some (hourly_settings st !! h)) hs ->
  hourly_averages mean mean_int (hourly_settings st) hs (a, b, c)
  = Ok (a ++ map (fun h => average mean (bucket_apertures st h)) hs,
        b ++ map (fun h => average mean (bucket_shutter_speeds st h)) hs,
        c ++ map (fun h => average mean_int (bucket_isos st h)) hs).
Proof.
  induction hs as [|h hs IH]; intros a b c Hok; simpl.
  - rewrite !app_nil_r. reflexivity.
  - inversion Hok as [|? ? [s Hs] Hrest]; subst.
    unfold bucket_apertures, bucket_shutter_speeds, bucket_isos at 1.
    rewrite Hs. rewrite IH by exact Hrest.
    rewrite <- !app_assoc. reflexivity.
Qed.

Lemma hourly_chart_limits_run (st : agg) :
  hours_ok st ->
  hourly_chart_limits mean mean_int (hourly_settings st)
  = (aperture_limits ←
       axis_limits 0.9 1.1
         (map (fun h => average mean (bucket_apertures st h)) hours_of_day);
     iso_limits ←
       axis_limits 0.8 1.1
         (map (fun h => average mean_int (bucket_isos st h)) hours_of_day);
     Ok (aperture_limits, iso_limits)).
Proof.
  intros Hok. unfold hourly_chart_limits.
  rewrite hourly_averages_eq.
  2:{ apply List.Forall_forall. intros h Hh. apply Hok, range_hours_of_day, Hh. }
  rewrite !app_nil_l.
  unfold mbind at 1. unfold result_bind at 1. cbv beta iota.
  reflexivity.
Qed.

(** The limits, for a state with its 24 buckets. *)
Lemma hourly_chart_limits_cases (st : agg) :
  hours_ok st ->
  ((forall h, 0 <= h <= 23 -> bucket_apertures st h = []) ->
   hourly_chart_limits mean mean_int (hourly_settings st) = Raise ValueError) /\
  ((forall h, 0 <= h <= 23 -> bucket_isos st h = []) ->
   hourly_chart_limits mean mean_int (hourly_settings st) = Raise ValueError) /\
  (forall x, hourly_chart_limits mean mean_int (hourly_settings st) = Raise x ->
     x = ValueError) /\
  (forall limits,
     hourly_chart_limits mean mean_int (hourly_settings st) = Ok limits ->
     (exists aperture_limits iso_limits,
        limits = (Some aperture_limits, Some iso_limits)) /\
     (exists h, bucket_apertures st h <> []) /\
     (exists h, bucket_isos st h <> [])).
Proof.
  intros Hok. rewrite (hourly_chart_limits_run st Hok).
  destruct (averages_limits mean (bucket_apertures st) 0.9 1.1)
    as (Ha1 & Ha2 & Ha3).
  destruct (averages_limits mean_int (bucket_isos st) 0.8 1.1)
    as (Hi1 & Hi2 & Hi3).
  revert Ha1 Ha2 Ha3 Hi1 Hi2 Hi3.
  generalize (axis_limits 0.9 1.1
                (map (fun h => average mean (bucket_apertures st h)) hours_of_day)).
  generalize (axis_limits 0.8 1.1
                (map (fun h => average mean_int (bucket_isos st h)) hours_of_day)).
  intros ri ra Ha1 Ha2 Ha3 Hi1 Hi2 Hi3.
  split; [|split; [|split]].
  - intros Hb. rewrite (Ha1 Hb). reflexivity.
  - intros Hb. rewrite (Hi1 Hb). destruct ra as [l|x]; [reflexivity|].
    rewrite (Ha2 x eq_refl). reflexivity.
  - intros x. destruct ra as [l|x']; [destruct ri as [l'|x']|].
    + discriminate.
    + intros Hx. inversion Hx. subst x. apply Hi2. reflexivity.
    + intros Hx. inversion Hx. subst x. apply Ha2. reflexivity.
  - intros limits. destruct ra as [l|x']; [|discriminate].
    destruct ri as [l'|x']; [|discriminate].
    intros Hx. inversion Hx. subst limits.
    destruct (Ha3 l eq_refl) as [[la ->] Hea].
    destruct (Hi3 l' eq_refl) as [[li ->] Hei].
    split; [eauto|]. split; assumption.
Qed.

End HourlyChartFacts.

Lemma bucket_values_from {A} (g : gmap string pyval -> option A) images h :
  flat_map (fun e => at_hour h (hour_of e) (g e)) images <> [] ->
  exists e, In e images /\ is_Some (bucketed g e).
Proof.
  induction images as [|e images IH]; simpl; [congruence|].
  destruct (at_hour h (hour_of e) (g e)) as [|v l] eqn:Hat.
  - intros Hne. destruct (IH Hne) as (e' & He' & Hs). eauto.
  - intros _. exists e. split; [left; reflexivity|].
    assert (Hin : In v (at_hour h (hour_of e) (g e))) by (rewrite Hat; left; reflexivity).
    apply in_at_hour in Hin. destruct Hin as [Hg Hh].
    unfold bucketed. rewrite Hh, Hg. eauto.
Qed.

Lemma no_bucket_values {A} (g : gmap string pyval -> option A) images h :
  (forall e, In e images -> bucketed g e = None) ->
  flat_map (fun e => at_hour h (hour_of e) (g e)) images = [].
Proof.
  intros Hnone. apply flat_map_nil. intros e He. specialize (Hnone e He).
  unfold bucketed in Hnone. destruct (hour_of e); [|reflexivity].
  rewrite Hnone. apply at_hour_none.
Qed.

(** X10: the hourly chart needs data.  The list of hourly averages
    always has 24 entries, so the guard [if avg_apertures:] always
    passes; when no image has both an aperture and a capture date in the
    strict format, as in an empty folder, every average is [None] and
    [min(filter(None, avg_apertures))] raises [ValueError].  The same
    holds for the ISO axis.  No other exception comes out of the
    computation of the limits, whatever [numpy.mean] returns. *)
Theorem X10_hourly_chart_needs_data (mean : list float -> float)
    (mean_int : list Z -> float) (images : list (gmap string pyval)) (st : agg) :
  process_folder images = Ok st ->
  ((forall e, In e images -> bucketed obs_aperture e = None) ->
   hourly_chart_limits mean mean_int (hourly_settings st) = Raise ValueError) /\
  ((forall e, In e images -> bucketed obs_iso e = None) ->
   hourly_chart_limits mean mean_int (hourly_settings st) = Raise ValueError) /\
  (forall x, hourly_chart_limits mean mean_int (hourly_settings st) = Raise x ->
     x = ValueError) /\
  (forall limits,
     hourly_chart_limits mean mean_int (hourly_settings st) = Ok limits ->
     (exists aperture_limits iso_limits,
        limits = (Some aperture_limits, Some iso_limits)) /\
     (exists e, In e images /\ is_Some (bucketed obs_aperture e)) /\
     (exists e, In e images /\ is_Some (bucketed obs_iso e))).
Proof.
  intros Hrun. apply run_state in Hrun. subst st.
  destruct (hourly_chart_limits_cases mean mean_int
              (fold_left step images init_agg)
              (hours_ok_fold images init_agg init_hours_ok))
    as (H1 & H2 & H3 & H4).
  split; [|split; [|split]].
  - intros Hnone. apply H1. intros h _.
    destruct (buckets_run images h) as (_ & -> & _).
    apply no_bucket_values, Hnone.
  - intros Hnone. apply H2. intros h _.
    destruct (buckets_run images h) as (-> & _).
    apply no_bucket_values, Hnone.
  - exact H3.
  - intros limits Hl. destruct (H4 limits Hl) as (Hsome & [h Ha] & [h' Hi]).
    split; [exact Hsome|]. split.
    + destruct (buckets_run images h) as (_ & Hb & _). rewrite Hb in Ha.
      eapply bucket_values_from, Ha.
    + destruct (buckets_run images h') as (Hb & _). rewrite Hb in Hi.
      eapply bucket_values_from, Hi.
Qed.

Lemma X10_witness :
  hourly_chart_limits (fun _ => 0%float) (fun _ => 0%float)
    (hourly_settings init_agg) = Raise ValueError.
Proof.
  refine (proj1 (X10_hourly_chart_needs_data (fun _ => 0%float) (fun _ => 0%float)
                   [] init_agg _) _).
  - reflexivity.
  - intros e [].
Defined.

(** ** The split point is always found *)




(** ** Padding around a capture date *)

Lemma remove_nul_padding p : padding p = true -> all_space (remove_nul p) = true.
Proof.
  induction p as [|c p IH]; [reflexivity|]. simpl.
  intros Hp. apply andb_true_iff in Hp. destruct Hp as [Hc Hp].
  destruct (code c =? 0)%N eqn:H0; [apply IH, Hp|].
  rewrite orb_false_r in Hc. simpl. rewrite Hc, (IH Hp). reflexivity.
Qed.

Lemma lstrip_all_space sp : all_space sp = true -> lstrip sp = EmptyString.
Proof.
  induction sp as [|c sp IH]; [reflexivity|]. simpl.
  intros Hs. apply andb_true_iff in Hs. destruct Hs as [Hc Hs].
  rewrite Hc. apply IH, Hs.
Qed.

Lemma rstrip_all_space sp : all_space sp = true -> rstrip sp = EmptyString.
Proof.
  induction sp as [|c sp IH]; [reflexivity|]. simpl.
  intros Hs. apply andb_true_iff in Hs. destruct Hs as [Hc Hs].
  rewrite (IH Hs), Hc. reflexivity.
Qed.

Lemma lstrip_app_space sp x : all_space sp = true -> lstrip (sp +:+ x) = lstrip x.
Proof.
  induction sp as [|c sp IH]; [reflexivity|].
  change (String c sp +:+ x) with (String c (sp +:+ x)). simpl.
  intros Hs. apply andb_true_iff in Hs. destruct Hs as [Hc Hs].
  rewrite Hc. apply IH, Hs.
Qed.

Lemma rstrip_app_space x sp : all_space sp = true -> rstrip (x +:+ sp) = rstrip x.
Proof.
  intros Hs. induction x as [|c x IH]; [apply rstrip_all_space, Hs|].
  change (String c x +:+ sp) with (String c (x +:+ sp)). simpl.
  rewrite IH. reflexivity.
Qed.

Lemma strip_app_space sp x sp' :
  all_space sp = true -> all_space sp' = true ->
  strip (sp +:+ x +:+ sp') = strip x.
Proof.
  intros Hs Hs'. unfold strip. rewrite lstrip_app_space by exact Hs.
  induction x as [|c x IH].
  - change (EmptyString +:+ sp') with sp'.
    rewrite (lstrip_all_space _ Hs'). reflexivity.
  - change (String c x +:+ sp') with (String c (x +:+ sp')). simpl lstrip.
    destruct (is_space c); [exact IH|].
    change (String c (x +:+ sp')) with (String c x +:+ sp').
    apply rstrip_app_space, Hs'.
Qed.

(** X12: padding around a capture date does not count.  Blanks and NUL
    characters before and after a date string, in any mix, do not change
    what [try_parse_date] returns. *)
Theorem X12_try_parse_date_padding (before date_string after : string) :
  padding before = true -> padding after = true ->
  try_parse_date (VStr (before +:+ date_string +:+ after))
  = try_parse_date (VStr date_string).
Proof.
  intros Hb Ha. rewrite !try_parse_date_str, !remove_nul_app.
  rewrite strip_app_space by (apply remove_nul_padding; assumption).
  reflexivity.
Qed.

Lemma X12_witness :
  try_parse_date (VStr (String (ascii_of_N 0) " " +:+ "2023:05:01 10:20:30"
                        +:+ String (ascii_of_N 10) (String (ascii_of_N 0) " ")))
  = Ok (Some (mk_datetime 2023 5 1 10 20 30)).
Proof.
  rewrite (X12_try_parse_date_padding (String (ascii_of_N 0) " ") "2023:05:01 10:20:30"
             (String (ascii_of_N 10) (String (ascii_of_N 0) " ")));
    vm_compute; reflexivity.
Defined.

(** ** Images without usable metadata *)

Lemma silent_step st e : contributes e = false -> step st e = st.
Proof.
  unfold contributes, step, apply_image.
  destruct (obs_focal e), (obs_date e), (obs_iso e), (obs_aperture e),
    (obs_shutter_speed e); try discriminate.
  reflexivity.
Qed.

Lemma silent_no_abort e : contributes e = false -> image_aborts e = false.
Proof.
  unfold contributes, image_aborts, image_hour, wants_hour.
  destruct (obs_focal e), (obs_date e), (obs_iso e), (obs_aperture e),
    (obs_shutter_speed e); try discriminate.
  reflexivity.
Qed.

Lemma no_tags_silent (e : gmap string pyval) :
  e !! "FocalLength"%string = None -> e !! "DateTimeOriginal"%string = None ->
  e !! "ISOSpeedRatings"%string = None -> e !! "FNumber"%string = None ->
  e !! "ExposureTime"%string = None -> contributes e = false.
Proof.
  intros H1 H2 H3 H4 H5.
  unfold contributes, obs_focal, obs_date, obs_iso, obs_aperture, obs_shutter_speed.
  rewrite H1, H2, H3, H4, H5. reflexivity.
Qed.

(** X13: images without usable metadata leave no trace.  An image whose
    metadata is empty, has none of the five tags, or has only values that
    normalise to nothing can be taken out of the folder without changing
    the result of [process_folder], be it a state or the exception. *)
Theorem X13_silent_images_skipped (images : list (gmap string pyval)) :
  process_folder (List.filter contributes images) = process_folder images /\
  (forall e,
     e !! "FocalLength"%string = None -> e !! "DateTimeOriginal"%string = None ->
     e !! "ISOSpeedRatings"%string = None -> e !! "FNumber"%string = None ->
     e !! "ExposureTime"%string = None -> contributes e = false) /\
  contributes ∅ = false /\ contributes photo_other_tags = false /\
  contributes photo_B = false /\ contributes photo_zero_shutter = false.
Proof.
  split; [|split; [exact no_tags_silent|repeat split; vm_compute; reflexivity]].
  rewrite !process_folder_eq.
  assert (Ha : existsb image_aborts (List.filter contributes images)
               = existsb image_aborts images).
  { induction images as [|e images IH]; [reflexivity|]. simpl.
    destruct (contributes e) eqn:Hc; simpl; rewrite IH; [reflexivity|].
    rewrite (silent_no_abort e Hc). reflexivity. }
  rewrite Ha. destruct (existsb image_aborts images); [reflexivity|]. f_equal.
  generalize init_agg. clear Ha.
  induction images as [|e images IH]; intros st; [reflexivity|]. simpl.
  destruct (contributes e) eqn:Hc; simpl; [apply IH|].
  rewrite (silent_step st e Hc). apply IH.
Qed.


(** ** The bar labels of the shutter-speed chart *)

Lemma all_upto_spec n p :
  all_upto n p = true -> forall j, 1 <= j <= Z.of_nat n -> p j = true.
Proof.
  induction n as [|n IH]; intros Hall j Hj; [lia|].
  simpl in Hall. apply andb_true_iff in Hall. destruct Hall as [Hn Hall].
  destruct (Z.eq_dec j (Z.of_nat (S n))) as [->|Hne]; [exact Hn|].
  apply IH; [exact Hall|lia].
Qed.

(** Every key below one second, by enumeration. *)
Lemma labels_below_one_second : all_upto (Z.to_nat 9999) label_is_floor = true.
Proof. vm_compute. reflexivity. Qed.

(** The common exposure times: 1/60 s is labelled 1/59, 1/15 s is
    labelled 1/14, 1/4000 s is labelled 1/3333 and 1/8000 s is labelled
    1/10000. *)
Example exposure_labels :
  map exposure_label [8000; 4000; 2000; 1000; 500; 250; 125; 60; 30; 15; 8; 4; 2]
  = map (fun d => Ok (Some (Reciprocal d)))
        [10000; 3333; 2000; 1000; 500; 250; 125; 59; 30; 14; 8; 4; 2].
Proof. vm_compute. reflexivity. Qed.

(** X14: the bar label of a shutter speed below one second.  A key of
    [j] ten-thousandths of a second, [1 <= j <= 9999], is labelled
    [1/d] with [d] the integer part of [10000 / j]: the label shows the
    rounded key, not the exposure time of the camera, and it is computed
    without a division by zero or an overflow. *)
Theorem X14_shutter_label (j : Z) :
  1 <= j <= 9999 ->
  format_label (ten_thousandths j) = Ok (Reciprocal (10000 / j)).
Proof.
  intros Hj.
  pose proof (all_upto_spec _ _ labels_below_one_second j) as Hl.
  unfold label_is_floor in Hl.
  destruct (format_label (ten_thousandths j)) as [[d|k]|x];
    try (discriminate Hl; lia).
  f_equal. f_equal. apply Z.eqb_eq, Hl. lia.
Qed.

Lemma X14_witness :
  process_shutter_speed (VTuple [VInt 1; VInt 60]) = Ok (Some (ten_thousandths 167)) /\
  format_label (ten_thousandths 167) = Ok (Reciprocal 59).
Proof.
  split; [vm_compute; reflexivity|].
  apply (X14_shutter_label 167). lia.
Defined.
